(** * RenderAPIs: connection lifecycle and Project request handling

  A shallow embedding of the service's core: the configuration flags
  ([src/config/index.js]), the [DatabaseManager] connection manager
  ([src/database/index.js]), the middleware ([src/middleware/index.js]),
  the route wiring ([src/app.js]), the system routes
  ([src/routes/api.js]), the utilities ([src/utils/index.js]) and the
  Project schema ([models/Project.js]).

  JavaScript objects mutated in place become records threaded through a
  state monad; a rejected promise or a thrown exception becomes the
  [Throw] completion, so that "never throws" is a statement about the
  completion a function returns.  The MongoDB driver, the clock and the
  process are the environment: what they answer is an argument. *)

From Stdlib Require Import ZArith List Bool Lia Ascii String.
From stdpp Require Import base strings gmap list pretty.

#[local] Open Scope string_scope.
#[local] Open Scope list_scope.
#[local] Open Scope Z_scope.

(** ** JavaScript completions *)

(** The fields of an error object that the service reads. *)
Record JsError : Type := mkError {
err_name : string;
err_message : string;
err_code : option Z;
(** [err.errors]: path and message of each failed validator *)
err_errors : list (string * string);
err_stack : string
}.

Inductive completion (A : Type) : Type :=
| Normal (a : A)
| Throw (e : JsError).
Arguments Normal {A} a.
Arguments Throw {A} e.

Definition is_throw {A : Type} (c : completion A) : bool :=
match c with Normal _ => false | Throw _ => true end.

(** ** Configuration ([src/config/index.js]) *)

Module Config.

(** [process.env.NODE_ENV || 'development']: an unset or empty variable
    falls back to the default. *)
Definition server_environment (NODE_ENV : option string) : string :=
  match NODE_ENV with
  | Some s => if String.eqb s "" then "development" else s
  | None => "development"
  end.

(** [process.env.HEALTH_DETAILED === 'true' || true] *)
Definition enableDetailedChecks (HEALTH_DETAILED : option string) : bool :=
  match HEALTH_DETAILED with
  | Some s => String.eqb s "true" || true
  | None => false || true
  end.

Record t : Type := mk { environment : string; detailedChecks : bool }.

Definition load (NODE_ENV HEALTH_DETAILED : option string) : t :=
  {| environment := server_environment NODE_ENV;
     detailedChecks := enableDetailedChecks HEALTH_DETAILED |}.

Definition isDevelopment (c : t) : bool := String.eqb (environment c) "development".
Definition isProduction (c : t) : bool := String.eqb (environment c) "production".
Definition isTest (c : t) : bool := String.eqb (environment c) "test".

End Config.

(** ** Connection manager ([src/database/index.js]) *)

Module Database.

Record DatabaseManager : Type := mkManager {
  isConnected : bool;
  connectionState : string;
  connectionAttempts : Z;
  maxRetries : Z;
  retryDelay : Z
}.

(** The constructor. *)
Definition new : DatabaseManager :=
  {| isConnected := false;
     connectionState := "disconnected";
     connectionAttempts := 0;
     maxRetries := 5;
     retryDelay := 5000 |}.

(** A callback handed to [setTimeout]; the manager only ever defers
    [this.connect()]. *)
Inductive Callback : Type := CbConnect.

Record Timer : Type := mkTimer { delay : Z; callback : Callback }.

(** Console output, one constructor per message of the module. *)
Inductive LogMsg : Type :=
| LogConnected
| LogConnectionError (msg : string)
| LogDisconnected
| LogReconnected
| LogConnecting
| LogDatabaseUri
| LogConnectFailed (msg : string)
| LogContinueWithoutDb
| LogDevelopmentMode
| LogMaxAttempts (max : Z)
| LogScheduling (attempt max seconds : Z)
| LogClosed
| LogCloseError (msg : string).

(** The singleton manager together with the pending timers of the event
    loop and the console. *)
Record World : Type := mkWorld {
  db : DatabaseManager;
  timers : list Timer;
  console : list LogMsg
}.

Definition fresh : World := {| db := new; timers := []; console := [] |}.

(** *** State and exception monad over [World] *)

Definition M (A : Type) : Type := World -> completion A * World.

Definition ret {A : Type} (a : A) : M A := fun w => (Normal a, w).

Definition bind {A B : Type} (m : M A) (k : A -> M B) : M B :=
  fun w =>
    match m w with
    | (Normal a, w') => k a w'
    | (Throw e, w') => (Throw e, w')
    end.

Definition throw {A : Type} (e : JsError) : M A := fun w => (Throw e, w).

(** [try { body } catch (error) { handler }] *)
Definition try_catch {A : Type} (body : M A) (handler : JsError -> M A) : M A :=
  fun w =>
    match body w with
    | (Normal a, w') => (Normal a, w')
    | (Throw e, w') => handler e w'
    end.

(** A statement that cannot throw. *)
Definition exec (f : World -> World) : M unit := fun w => (Normal tt, f w).

Notation "m1 ;; m2" := (bind m1 (fun _ => m2))
  (at level 100, m2 at level 200, right associativity).

Definition log (m : LogMsg) (w : World) : World :=
  {| db := db w; timers := timers w; console := console w ++ [m] |}.

Definition setTimeout (cb : Callback) (ms : Z) (w : World) : World :=
  {| db := db w;
     timers := timers w ++ [{| delay := ms; callback := cb |}];
     console := console w |}.

Definition update (f : DatabaseManager -> DatabaseManager) (w : World) : World :=
  {| db := f (db w); timers := timers w; console := console w |}.

Definition set_isConnected (b : bool) (d : DatabaseManager) : DatabaseManager :=
  {| isConnected := b;
     connectionState := connectionState d;
     connectionAttempts := connectionAttempts d;
     maxRetries := maxRetries d;
     retryDelay := retryDelay d |}.

Definition set_connectionState (s : string) (d : DatabaseManager) : DatabaseManager :=
  {| isConnected := isConnected d;
     connectionState := s;
     connectionAttempts := connectionAttempts d;
     maxRetries := maxRetries d;
     retryDelay := retryDelay d |}.

Definition set_connectionAttempts (n : Z) (d : DatabaseManager) : DatabaseManager :=
  {| isConnected := isConnected d;
     connectionState := connectionState d;
     connectionAttempts := n;
     maxRetries := maxRetries d;
     retryDelay := retryDelay d |}.

(** *** scheduleReconnection *)

Definition scheduleReconnection (w : World) : World :=
  if connectionAttempts (db w) >=? maxRetries (db w) then
    log (LogMaxAttempts (maxRetries (db w))) w
  else
    let w1 := update (fun d => set_connectionAttempts (connectionAttempts d + 1) d) w in
    let w2 := log (LogScheduling (connectionAttempts (db w1)) (maxRetries (db w1))
                     (retryDelay (db w1) / 1000)) w1 in
    setTimeout CbConnect (retryDelay (db w2)) w2.

(** *** setupEventHandlers *)

(** The events of [mongoose.connection] the manager listens to. *)
Inductive DriverEvent : Type :=
| EvConnected
| EvError (msg : string)
| EvDisconnected
| EvReconnected.

Definition is_connected_event (ev : DriverEvent) : bool :=
  match ev with EvConnected => true | _ => false end.

Definition on_event (cfg : Config.t) (ev : DriverEvent) (w : World) : World :=
  match ev with
  | EvConnected =>
      log LogConnected
        (update (fun d => set_connectionAttempts 0
                   (set_connectionState "connected" (set_isConnected true d))) w)
  | EvError msg =>
      log (LogConnectionError msg)
        (update (fun d => set_connectionState "error" (set_isConnected false d)) w)
  | EvDisconnected =>
      let w1 := log LogDisconnected
        (update (fun d => set_connectionState "disconnected" (set_isConnected false d)) w) in
      if Config.isProduction cfg
         && (connectionAttempts (db w1) <? maxRetries (db w1))
      then scheduleReconnection w1
      else w1
  | EvReconnected =>
      log LogReconnected
        (update (fun d => set_connectionState "connected" (set_isConnected true d)) w)
  end.

Definition deliver (cfg : Config.t) (evs : list DriverEvent) (w : World) : World :=
  fold_left (fun w ev => on_event cfg ev w) evs w.

(** *** The driver as environment *)

(** What one asynchronous driver call does while the caller awaits it:
    the events it emits on [mongoose.connection], then whether its
    promise resolves or rejects. *)
Record DriverOutcome : Type := mkOutcome {
  emitted : list DriverEvent;
  settled : completion unit
}.

Definition await (cfg : Config.t) (o : DriverOutcome) : M unit :=
  fun w => (settled o, deliver cfg (emitted o) w).

(** *** connect *)

Definition connect (cfg : Config.t) (o : DriverOutcome) : M unit :=
  try_catch
    (exec (log LogConnecting) ;;
     await cfg o ;;
     exec (log LogDatabaseUri))
    (fun error =>
       exec (update (set_isConnected false)) ;;
       exec (update (set_connectionState "error")) ;;
       exec (log (LogConnectFailed (err_message error))) ;;
       exec (log LogContinueWithoutDb) ;;
       if Config.isDevelopment cfg then
         exec (log LogDevelopmentMode)
       else
         exec scheduleReconnection).

(** *** disconnect *)

Definition disconnect (cfg : Config.t) (o : DriverOutcome) : M unit :=
  try_catch
    (await cfg o ;;
     exec (log LogClosed))
    (fun error => exec (log (LogCloseError (err_message error)))).

(** *** getStatus, isHealthy, getStats *)

(** What [mongoose.connection] shows of itself. *)
Record Connection : Type := mkConnection {
  readyState : Z;
  host : option string;
  port : option Z;
  name : option string
}.

Definition getReadyStateText (c : Connection) : string :=
  match readyState c with
  | 0 => "disconnected"
  | 1 => "connected"
  | 2 => "connecting"
  | 3 => "disconnecting"
  | _ => "unknown"
  end.

Record Status : Type := mkStatus {
  status_isConnected : bool;
  status_state : string;
  status_readyState : Z;
  status_readyStateText : string;
  status_host : option string;
  status_port : option Z;
  status_name : option string;
  status_connectionAttempts : Z
}.

Definition getStatus (d : DatabaseManager) (c : Connection) : Status :=
  {| status_isConnected := isConnected d;
     status_state := connectionState d;
     status_readyState := readyState c;
     status_readyStateText := getReadyStateText c;
     status_host := host c;
     status_port := port c;
     status_name := name c;
     status_connectionAttempts := connectionAttempts d |}.

(** [try { body } catch (error) { handler }] around calls that leave the
    manager alone. *)
Definition attempt {A : Type} (body : completion A) (handler : JsError -> completion A)
  : completion A :=
  match body with
  | Normal a => Normal a
  | Throw e => handler e
  end.

Definition and_then {A B : Type} (c : completion A) (k : A -> completion B)
  : completion B :=
  match c with
  | Normal a => k a
  | Throw e => Throw e
  end.

(** [ping] is what [mongoose.connection.db.admin().ping()] answers. *)
Definition isHealthy (d : DatabaseManager) (ping : completion unit) : completion bool :=
  attempt
    (if negb (isConnected d) then Normal false
     else and_then ping (fun _ => Normal true))
    (fun _ => Normal false).

Record RawStats : Type := mkRawStats {
  raw_collections : Z;
  raw_objects : Z;
  raw_dataSize : Z;
  raw_storageSize : Z;
  raw_indexes : Z;
  raw_indexSize : Z
}.

Inductive Stats : Type :=
| StatsError (msg : string)
| StatsFigures (collections documents dataSize storageSize indexes indexSize : Z).

(** [probe] is what [mongoose.connection.db.stats()] answers. *)
Definition getStats (d : DatabaseManager) (probe : completion RawStats) : completion Stats :=
  attempt
    (if negb (isConnected d) then Normal (StatsError "Database not connected")
     else and_then probe (fun stats =>
            Normal (StatsFigures (raw_collections stats) (raw_objects stats)
                      (raw_dataSize stats) (raw_storageSize stats)
                      (raw_indexes stats) (raw_indexSize stats))))
    (fun error => Normal (StatsError (err_message error))).

(** *** The event loop around the manager *)

(** One turn of the event loop: an explicit call of [connect()] (as
    [initializeApp] does), the oldest pending timer firing (its callback
    calls [connect()]), or the driver emitting an event on its own. *)
Inductive Tick : Type :=
| Invoke (o : DriverOutcome)
| Fire (o : DriverOutcome)
| Emit (ev : DriverEvent).

(** [retried] counts the calls of [connect()] made from a timer. *)
Record Loop : Type := mkLoop { world : World; retried : nat }.

Definition boot : Loop := {| world := fresh; retried := 0 |}.

Definition pop_timer (w : World) : World :=
  {| db := db w; timers := tl (timers w); console := console w |}.

Definition tick (cfg : Config.t) (l : Loop) (t : Tick) : Loop :=
  match t with
  | Invoke o =>
      {| world := snd (connect cfg o (world l)); retried := retried l |}
  | Fire o =>
      match timers (world l) with
      | [] => l
      | _ :: _ =>
          {| world := snd (connect cfg o (pop_timer (world l)));
             retried := S (retried l) |}
      end
  | Emit ev =>
      {| world := on_event cfg ev (world l); retried := retried l |}
  end.

Definition run (cfg : Config.t) (ts : list Tick) (l : Loop) : Loop :=
  fold_left (tick cfg) ts l.

(** A connection failure: the promise rejects and no ['connected']
    event is emitted. *)
Definition failed (o : DriverOutcome) : bool :=
  is_throw (settled o) && forallb (fun ev => negb (is_connected_event ev)) (emitted o).

Definition failing (t : Tick) : bool :=
  match t with
  | Invoke o => failed o
  | Fire o => failed o
  | Emit ev => negb (is_connected_event ev)
  end.

(** A turn in which the driver emits nothing. *)
Definition plain (t : Tick) : Prop :=
  match t with
  | Invoke o | Fire o => emitted o = []
  | Emit _ => False
  end.

(** The world in which [connect] catches a rejection: the attempt has
    been announced and the events of the driver have been handled. *)
Definition at_catch (cfg : Config.t) (o : DriverOutcome) (w : World) : World :=
  deliver cfg (emitted o) (log LogConnecting w).

(** What the first two assignments of the catch block make of that
    world. *)
Definition caught (cfg : Config.t) (o : DriverOutcome) (w : World) : World :=
  update (fun d => set_connectionState "error" (set_isConnected false d))
    (at_catch cfg o w).

(** The retry budget: with [n] retries already run, the attempt counter
    counts the retries run and the retries pending, and never passes the
    maximum of the constructor. *)
Definition budget (n : nat) (w : World) : Prop :=
  maxRetries (db w) = 5
  /\ retryDelay (db w) = 5000
  /\ connectionAttempts (db w) = Z.of_nat (n + length (timers w))
  /\ connectionAttempts (db w) <= 5
  /\ Forall (fun tm => delay tm = 5000 /\ callback tm = CbConnect) (timers w).

(** Whether the catch block of [connect] left one more pending timer
    than it found. *)
Definition reconnection_scheduled (cfg : Config.t) (o : DriverOutcome) (w : World) : bool :=
  Nat.ltb (length (timers (at_catch cfg o w)))
          (length (timers (snd (connect cfg o w)))).

(** *** Concrete environments *)

Definition production : Config.t := Config.load (Some "production") None.
Definition development : Config.t := Config.load None None.

Definition refused : JsError :=
  {| err_name := "MongooseServerSelectionError";
     err_message := "connect ECONNREFUSED 127.0.0.1:27017";
     err_code := None;
     err_errors := [];
     err_stack := "" |}.

(** A plain failure: the promise rejects, nothing is emitted. *)
Definition rejection : DriverOutcome :=
  {| emitted := []; settled := Throw refused |}.

(** A successful call of [mongoose.connect]. *)
Definition established : DriverOutcome :=
  {| emitted := [EvConnected]; settled := Normal tt |}.

(** A call that resolves without any event. *)
Definition silent : DriverOutcome :=
  {| emitted := []; settled := Normal tt |}.

(** A close of an open connection: the driver reports the link down. *)
Definition closing : DriverOutcome :=
  {| emitted := [EvDisconnected]; settled := Normal tt |}.

Definition close_error : JsError :=
  {| err_name := "MongoNetworkError";
     err_message := "connection closed";
     err_code := None;
     err_errors := [];
     err_stack := "" |}.

(** A close that rejects before the driver has emitted anything. *)
Definition close_refused : DriverOutcome :=
  {| emitted := []; settled := Throw close_error |}.

(** The first attempt and five retries, all refused. *)
Definition six_failures : list Tick :=
  Invoke rejection :: repeat (Fire rejection) 5.

Definition exhausted : World := world (run production six_failures boot).

Definition online : World := world (run development [Invoke established] boot).

Definition offline : World := world (run development [Invoke rejection] boot).

End Database.

(** ** Utilities ([src/utils/index.js]) *)

Module Utils.

Definition in_range (lo hi c : ascii) : bool :=
  Nat.leb (nat_of_ascii lo) (nat_of_ascii c)
  && Nat.leb (nat_of_ascii c) (nat_of_ascii hi).

(** The character class [[0-9a-fA-F]]. *)
Definition hex_class (c : ascii) : bool :=
  in_range "0"%char "9"%char c
  || in_range "a"%char "f"%char c
  || in_range "A"%char "F"%char c.

(** [cls{n}] at the head of the input: the rest of the input when [n]
    characters of the class were read. *)
Fixpoint repeat_class (cls : ascii -> bool) (n : nat) (s : string) : option string :=
  match n with
  | O => Some s
  | S n' =>
      match s with
      | EmptyString => None
      | String c s' => if cls c then repeat_class cls n' s' else None
      end
  end.

(** [/^[0-9a-fA-F]{24}$/.test(id)]: without the [m] flag, [$] is the end
    of the input. *)
Definition isValidObjectId (id : string) : bool :=
  match repeat_class hex_class 24 id with
  | Some EmptyString => true
  | _ => false
  end.

End Utils.

(** ** Requests and responses *)

Module Http.

Inductive Method : Type := GET | POST | PUT | DELETE | PATCH | HEAD | OPTIONS.

(** The values of the Project data model: a text, a sequence of texts,
    an instant (a [Date], in milliseconds) and a whole number.  A text is
    held as the bytes of its UTF-8 encoding.  A request body carries
    texts, sequences of texts and numbers; [null] is not among the
    values: a path that holds [null] holds nothing in the map of a
    document. *)
Inductive Value : Type :=
| VText (s : string)
| VTexts (l : list string)
| VTime (t : Z)
| VNumber (n : Z).

(** The letters of a route pattern are matched without regard to case
    (routers are not [caseSensitive]): the ASCII letters, for the
    patterns hold no others. *)
Definition lower (c : ascii) : ascii :=
  let n := nat_of_ascii c in
  if Nat.leb 65 n && Nat.leb n 90 then ascii_of_nat (n + 32) else c.

Fixpoint lowercase (s : string) : string :=
  match s with
  | EmptyString => EmptyString
  | String c rest => String (lower c) (lowercase rest)
  end.

(** The path a route pattern is matched against: one slash at the end
    does not count (routers are not [strict]). *)
Definition without_slash (rel : list string) : list string :=
  match rev rel with
  | EmptyString :: front => rev front
  | _ => rel
  end.

(** A request after body parsing: the path as its segments. *)
Record Request : Type := mkRequest {
  method : Method;
  path : list string;
  body : gmap string Value
}.

Definition originalUrl (req : Request) : string :=
  String.append "/" (String.concat "/" (path req)).

Inductive Data : Type :=
| DataDoc (d : gmap string Value)
| DataDocs (ds : list (gmap string Value))
| DataId (id : string).

(** The JSON envelope: a key that a response does not carry is [None]. *)
Record Envelope : Type := mkEnvelope {
  success : bool;
  message : string;
  error : option string;
  stack : option string;
  details : option (list string);
  for_method : option Method;
  timestamp : option Z;
  data : option Data;
  count : option nat
}.

(** What [process] reports for the health page. *)
Record ProcessInfo : Type := mkProcess {
  nodeVersion : string;
  platform : string;
  arch : string;
  pid : Z;
  uptime : string;
  memory : list (string * string)
}.

Record HealthDatabase : Type := mkHealthDatabase {
  connected : bool;
  healthy : bool;
  state : string;
  host : option string;
  port : option Z;
  name : option string;
  stats : option Database.Stats;
  statsError : option string
}.

Record Health : Type := mkHealth {
  health_success : bool;
  health_status : string;
  health_timestamp : Z;
  database : HealthDatabase;
  environment : string;
  process : ProcessInfo
}.

Inductive Body : Type :=
| BEnvelope (e : Envelope)
| BHealth (h : Health)
| BHealthFailed (error : string) (timestamp : Z)
(** the version, information and documentation pages *)
| BPage (title : string)
| BRedirect (location : string)
| BLimited.

(** What a handler hands to [res.status(...).json(...)]; to a [HEAD]
    request Node sends the status without the body. *)
Record Response : Type := mkResponse { status : Z; json : Body }.

(** The [success] key of a body, when it has one. *)
Definition succeeded (b : Body) : option bool :=
  match b with
  | BEnvelope e => Some (success e)
  | BHealth h => Some (health_success h)
  | BHealthFailed _ _ => Some false
  | BPage _ => Some true
  | BRedirect _ => None
  | BLimited => Some false
  end.

End Http.

(** ** Storage seen from a request *)

Module Storage.

Import Http.

(** Calls made on the Project model. *)
Inductive Call : Type :=
| CallCreate (fields : gmap string Value)
| CallFind
| CallFindById (id : string)
| CallUpdate (id : string) (fields : gmap string Value)
| CallDelete (id : string).

(** The collection, the number of identifiers handed out so far and the
    calls received, oldest first. *)
Record t : Type := mk {
  collection : list (gmap string Value);
  issued : N;
  calls : list Call
}.

Definition empty : t := {| collection := []; issued := 0%N; calls := [] |}.

Definition record (c : Call) (s : t) : t :=
  {| collection := collection s; issued := issued s; calls := calls s ++ [c] |}.

(** A handler runs against the storage and answers, passes on with
    [next()] and answers nothing, or fails with an error that Express
    hands to the error middleware. *)
Definition Handler : Type := t -> completion (option Response) * t.

(** A router is mounted on a prefix and sees the rest of the path. *)
Definition Router : Type := list string -> Request -> Handler.

End Storage.

(** ** Middleware ([src/middleware/index.js]) *)

Module Middleware.

Import Http.

Definition envelope (ok : bool) (msg : string) (now : Z) : Envelope :=
  {| success := ok; message := msg; error := None; stack := None;
     details := None; for_method := None; timestamp := Some now;
     data := None; count := None |}.

Definition with_error (s : string) (e : Envelope) : Envelope :=
  {| success := success e; message := message e; error := Some s;
     stack := stack e; details := details e; for_method := for_method e;
     timestamp := timestamp e; data := data e; count := count e |}.

Definition with_stack (s : string) (e : Envelope) : Envelope :=
  {| success := success e; message := message e; error := error e;
     stack := Some s; details := details e; for_method := for_method e;
     timestamp := timestamp e; data := data e; count := count e |}.

Definition with_message (s : string) (e : Envelope) : Envelope :=
  {| success := success e; message := s; error := error e;
     stack := stack e; details := details e; for_method := for_method e;
     timestamp := timestamp e; data := data e; count := count e |}.

Definition with_details (l : list string) (e : Envelope) : Envelope :=
  {| success := success e; message := message e; error := error e;
     stack := stack e; details := Some l; for_method := for_method e;
     timestamp := timestamp e; data := data e; count := count e |}.

Definition with_method (m : Method) (e : Envelope) : Envelope :=
  {| success := success e; message := message e; error := error e;
     stack := stack e; details := details e; for_method := Some m;
     timestamp := timestamp e; data := data e; count := count e |}.

(** [checkDatabaseConnection (req, res, next)] *)
Definition checkDatabaseConnection (database : Database.DatabaseManager) (now : Z)
    (req : Request) (next : Storage.Handler) : Storage.Handler :=
  fun s =>
    if negb (Database.isConnected database) then
      (Normal (Some {| status := 503;
                       json := BEnvelope
                         (with_error "MongoDB connection not established"
                            (envelope false
                               "Database service unavailable. Please try again later."
                               now)) |}),
       s)
    else next s.

(** [errorHandler (err, req, res, next)] *)
Definition errorHandler (cfg : Config.t) (now : Z) (err : JsError) (req : Request)
  : Response :=
  let error := envelope false "Internal server error" now in
  let error :=
    if Config.isDevelopment cfg
    then with_stack (err_stack err) (with_error (err_message err) error)
    else error in
  if String.eqb (err_name err) "ValidationError" then
    {| status := 400;
       json := BEnvelope (with_details (map snd (err_errors err))
                            (with_message "Validation error" error)) |}
  else if String.eqb (err_name err) "CastError" then
    {| status := 400; json := BEnvelope (with_message "Invalid ID format" error) |}
  else if String.eqb (err_name err) "MongoError"
          && match err_code err with Some c => c =? 11000 | None => false end then
    {| status := 400; json := BEnvelope (with_message "Duplicate field value" error) |}
  else
    {| status := 500; json := BEnvelope error |}.

(** [notFoundHandler (req, res)] *)
Definition notFoundHandler (now : Z) (req : Request) : Response :=
  {| status := 404;
     json := BEnvelope
       (with_method (method req)
          (envelope false
             (String.append "Route " (String.append (originalUrl req) " not found"))
             now)) |}.



End Middleware.

(** ** The Project model ([models/Project.js]) *)

Module Project.

Import Http.

Inductive SchemaType : Type := SString | SStrings | SDate.

Inductive Default : Type :=
| NoDefault
| DefaultIs (v : Value)
(** [default: Date.now] *)
| DefaultNow.

(** One path of a schema with the options the Project schema uses. *)
Record Path : Type := mkPath {
  field : string;
  type : SchemaType;
  (** [required: [true, message]] *)
  required : option string;
  trim : bool;
  enum : option (list string);
  default : Default
}.

Definition projectSchema : list Path :=
  [ {| field := "name"; type := SString;
       required := Some "Project name is required"; trim := true;
       enum := None; default := NoDefault |};
    {| field := "description"; type := SString;
       required := Some "Project description is required"; trim := true;
       enum := None; default := NoDefault |};
    {| field := "technologies"; type := SStrings;
       required := None; trim := false;
       enum := None; default := DefaultIs (VTexts []) |};
    {| field := "status"; type := SString;
       required := None; trim := false;
       enum := Some ["planning"; "in-progress"; "completed"; "on-hold"];
       default := DefaultIs (VText "planning") |};
    {| field := "startDate"; type := SDate;
       required := None; trim := false;
       enum := None; default := DefaultNow |};
    {| field := "endDate"; type := SDate;
       required := None; trim := false;
       enum := None; default := NoDefault |};
    {| field := "repository"; type := SString;
       required := None; trim := true;
       enum := None; default := NoDefault |};
    {| field := "liveUrl"; type := SString;
       required := None; trim := true;
       enum := None; default := NoDefault |} ].

(** The schema option [timestamps: true]: the model maintains
    [createdAt] and [updatedAt]. *)
Definition timestamps : bool := true.

(** The two date paths that [timestamps: true] adds to the schema. *)
Definition createdAt : Path :=
  {| field := "createdAt"; type := SDate; required := None; trim := false;
     enum := None; default := NoDefault |}.

Definition updatedAt : Path :=
  {| field := "updatedAt"; type := SDate; required := None; trim := false;
     enum := None; default := NoDefault |}.

Definition stamps : list Path := [createdAt; updatedAt].

(** *** What the schema options mean for a document *)

(** A text is held as the bytes of its UTF-8 encoding.  White space is
    what [String.prototype.trim] strips, the WhiteSpace and
    LineTerminator characters of ECMAScript: of one byte U+0009 to
    U+000D and U+0020; of two bytes U+00A0; of three bytes U+1680,
    U+2000 to U+200A, U+2028, U+2029, U+202F, U+205F, U+3000 and
    U+FEFF. *)
Definition is_space (c : ascii) : bool :=
  let n := nat_of_ascii c in
  (Nat.leb 9 n && Nat.leb n 13) || Nat.eqb n 32.

Definition is_space2 (a b : ascii) : bool :=
  Nat.eqb (nat_of_ascii a) 194 && Nat.eqb (nat_of_ascii b) 160.

Definition is_space3 (a b c : ascii) : bool :=
  let x := nat_of_ascii a in
  let y := nat_of_ascii b in
  let z := nat_of_ascii c in
  (Nat.eqb x 225 && Nat.eqb y 154 && Nat.eqb z 128)
  || (Nat.eqb x 226 && Nat.eqb y 128
      && ((Nat.leb 128 z && Nat.leb z 138)
          || Nat.eqb z 168 || Nat.eqb z 169 || Nat.eqb z 175))
  || (Nat.eqb x 226 && Nat.eqb y 129 && Nat.eqb z 159)
  || (Nat.eqb x 227 && Nat.eqb y 128 && Nat.eqb z 128)
  || (Nat.eqb x 239 && Nat.eqb y 187 && Nat.eqb z 191).

Fixpoint trim_start (s : string) : string :=
  match s with
  | EmptyString => EmptyString
  | String a s1 =>
      if is_space a then trim_start s1
      else
        match s1 with
        | EmptyString => s
        | String b s2 =>
            if is_space2 a b then trim_start s2
            else
              match s2 with
              | EmptyString => s
              | String c s3 => if is_space3 a b c then trim_start s3 else s
              end
        end
  end.

(** Whether a text is white space from end to end. *)
Fixpoint all_space (s : string) : bool :=
  match s with
  | EmptyString => true
  | String a s1 =>
      if is_space a then all_space s1
      else
        match s1 with
        | EmptyString => false
        | String b s2 =>
            if is_space2 a b then all_space s2
            else
              match s2 with
              | EmptyString => false
              | String c s3 => is_space3 a b c && all_space s3
              end
        end
  end.

Fixpoint trim_end (s : string) : string :=
  match s with
  | EmptyString => EmptyString
  | String a s1 => if all_space s then EmptyString else String a (trim_end s1)
  end.

Definition js_trim (s : string) : string := trim_end (trim_start s).

(** *** The runtime *)

(** What the JavaScript runtime answers where casting asks it. *)
Record Engine : Type := mkEngine {
  (** [new Date(text).getTime()]; [None] for an invalid date *)
  Date_parse : string -> option Z;
  (** [Number(text)] cut to a whole number, for a text that reads as a
      number which Mongoose does not take for a year ([>= 275761] or
      [< -271820]); [None] for any other text *)
  Number_instant : string -> option Z;
  (** [date.toString()] *)
  Date_string : Z -> string;
  (** [String(n)] for a whole number of 22 digits or more *)
  Number_string : Z -> string;
  (** the message of the [CastError] for a value at a path, which shows
      the value as [util.inspect] prints it *)
  CastError_message : Path -> Value -> string
}.

(** The examples below ask the runtime nothing; this engine answers
    nothing. *)
Definition unasked : Engine :=
  {| Date_parse := fun _ => None;
     Number_instant := fun _ => None;
     Date_string := fun _ => EmptyString;
     Number_string := fun _ => EmptyString;
     CastError_message := fun _ _ => EmptyString |}.

(** *** Casting *)

(** The outcome of casting a value to the type of a path: the value the
    path is given, [null], or a [CastError]. *)
Inductive Casting : Type :=
| Cast (v : Value)
| Null
| CastError.

(** The instants a [Date] holds. *)
Definition is_instant (t : Z) : bool :=
  (-8640000000000000 <=? t) && (t <=? 8640000000000000).

(** [String(n)] for a whole number. *)
Definition String_of (engine : Engine) (n : Z) : string :=
  if Z.abs n <? 10 ^ 21 then pretty n else Number_string engine n.

Definition instant (t : option Z) : Casting :=
  match t with
  | Some t => if is_instant t then Cast (VTime t) else CastError
  | None => CastError
  end.

(** Mongoose's [castDate]. *)
Definition castDate (engine : Engine) (v : Value) : Casting :=
  match v with
  | VText EmptyString => Null
  | VText text =>
      match Number_instant engine text with
      | Some n => instant (Some n)
      | None => instant (Date_parse engine text)
      end
  (** [new Date(array)] reads the array as the text [array.join(",")] *)
  | VTexts l => instant (Date_parse engine (String.concat "," l))
  | VTime t => Cast (VTime t)
  | VNumber n => instant (Some n)
  end.

(** Mongoose's [castString], after the [trim] setter, which touches
    texts only. *)
Definition castString (engine : Engine) (trimmed : bool) (v : Value) : Casting :=
  match v with
  | VText s => Cast (VText (if trimmed then js_trim s else s))
  | VTexts _ => CastError
  | VTime t => Cast (VText (Date_string engine t))
  | VNumber n => Cast (VText (String_of engine n))
  end.

(** An array of [String]: a value that is no array is cast as the array
    of that one value. *)
Definition castStrings (engine : Engine) (v : Value) : Casting :=
  match v with
  | VText s => Cast (VTexts [s])
  | VTexts l => Cast (VTexts l)
  | VTime t => Cast (VTexts [Date_string engine t])
  | VNumber n => Cast (VTexts [String_of engine n])
  end.

(** Running the setters of the path and casting to its type. *)
Definition cast (engine : Engine) (p : Path) (v : Value) : Casting :=
  match type p with
  | SString => castString engine (trim p) v
  | SStrings => castStrings engine v
  | SDate => castDate engine v
  end.

(** A failed validator: the path and the message. *)
Definition Problem : Type := (string * string)%type.

(** The [required] validator of a path, on the value the path holds
    ([None] when it holds none, or [null]). *)
Definition check_required (p : Path) (v : option Value) : list Problem :=
  match required p with
  | Some msg =>
      match v with
      | None => [(field p, msg)]
      | Some (VText EmptyString) => [(field p, msg)]
      | Some _ => []
      end
  | None => []
  end.

(** The [enum] validator, with the message of Mongoose. *)
Definition check_enum (p : Path) (v : option Value) : list Problem :=
  match enum p, v with
  | Some allowed, Some (VText s) =>
      if existsb (String.eqb s) allowed then []
      else [(field p,
             String.append "`"
               (String.append s
                  (String.append "` is not a valid enum value for path `"
                     (String.append (field p) "`."))))]
  | _, _ => []
  end.

(** The validators of a path run in their order, [required] first, up
    to the first that fails. *)
Definition check (p : Path) (v : option Value) : list Problem :=
  match check_required p v with
  | [] => check_enum p v
  | problems => problems
  end.

Definition default_value (now : Z) (p : Path) : option Value :=
  match default p with
  | NoDefault => None
  | DefaultIs v => Some v
  | DefaultNow => Some (VTime now)
  end.

(** The value a new document gets at path [p], with the problems found;
    a path that was given [null] gets no default and holds no value. *)
Definition initial (engine : Engine) (now : Z) (input : gmap string Value) (p : Path)
  : list Problem * option Value :=
  match input !! field p with
  | Some v =>
      match cast engine p v with
      | Cast v' => (check p (Some v'), Some v')
      | Null => (check p None, None)
      | CastError => ([(field p, CastError_message engine p v)], None)
      end
  | None => (check p (default_value now p), default_value now p)
  end.

Definition put (k : string) (v : option Value) (d : gmap string Value)
  : gmap string Value :=
  match v with
  | Some x => <[k := x]> d
  | None => d
  end.

(** The instant [createdAt] is given: the one handed in, if any, the
    reading of the clock otherwise. *)
Definition created (engine : Engine) (now : Z) (input : gmap string Value) : Z :=
  match snd (initial engine now input createdAt) with
  | Some (VTime t) => t
  | _ => now
  end.

(** [new Project(input)] saved at time [now] under the identifier [id]
    that was generated for it: paths outside the schema are not copied
    (strict mode), defaults fill what is missing, the validators run, the
    timestamps are set to one and the same instant and the version key to
    0.  A path that holds [null] is left out of the map.  The order of
    the problems is that of the schema here; Mongoose lists them by the
    order of the keys of the input, which a map does not keep.  The
    routes hand the model whitelisted fields: an [_id] or a [__v] in the
    input is not modelled. *)
Definition construct (engine : Engine) (now : Z) (id : string) (input : gmap string Value)
  : list Problem + gmap string Value :=
  match concat (map (fun p => fst (initial engine now input p)) (projectSchema ++ stamps)) with
  | [] =>
      inr (<["_id" := VText id]>
            (<["__v" := VNumber 0]>
              (<["createdAt" := VTime (created engine now input)]>
                (<["updatedAt" := VTime (created engine now input)]>
                  (foldr (fun p d => put (field p) (snd (initial engine now input p)) d)
                         ∅ projectSchema)))))
  | problems => inl problems
  end.

(** What an update does to a path. *)
Inductive Change : Type :=
| Untouched
| Cleared
| Assigned (v : Value).

(** What an update does at path [p], with the problems found by the
    update validators. *)
Definition revised (engine : Engine) (changes : gmap string Value) (p : Path)
  : list Problem * Change :=
  match changes !! field p with
  | Some v =>
      match cast engine p v with
      | Cast v' => (check p (Some v'), Assigned v')
      | Null => (check p None, Cleared)
      | CastError => ([(field p, CastError_message engine p v)], Untouched)
      end
  | None => ([], Untouched)
  end.

Definition apply (k : string) (c : Change) (d : gmap string Value) : gmap string Value :=
  match c with
  | Untouched => d
  | Cleared => delete k d
  | Assigned v => <[k := v]> d
  end.

(** [findByIdAndUpdate] with [runValidators] applied to the document
    found: the paths of the schema present in [changes] are set, and
    [updatedAt] becomes the time of the update. *)
Definition amend (engine : Engine) (now : Z) (changes : gmap string Value)
    (doc : gmap string Value) : list Problem + gmap string Value :=
  match concat (map (fun p => fst (revised engine changes p)) projectSchema) with
  | [] =>
      inr (<["updatedAt" := VTime now]>
            (foldr (fun p d => apply (field p) (snd (revised engine changes p)) d)
                   doc projectSchema))
  | problems => inl problems
  end.

(** A supplied value the path accepts: it casts to the type of the path
    and, where the path enumerates its values, to one of them. *)
Definition accepts (engine : Engine) (p : Path) (v : Value) : bool :=
  match cast engine p v with
  | Cast v' => match check_enum p (Some v') with [] => true | _ :: _ => false end
  | Null => true
  | CastError => false
  end.

(** An input all of whose schema fields are accepted. *)
Definition acceptable (engine : Engine) (input : gmap string Value) : bool :=
  forallb (fun p => match input !! field p with
                    | Some v => accepts engine p v
                    | None => true
                    end) projectSchema.

(** The fields the model sets by itself. *)
Definition managed : list string := ["_id"; "__v"; "createdAt"; "updatedAt"].

Definition has_id (id : string) (doc : gmap string Value) : bool :=
  match doc !! "_id" with
  | Some (VText s) => String.eqb s id
  | _ => false
  end.

(** [updatedAt] of [doc'] is strictly later than that of [doc]. *)
Definition refreshed (doc doc' : gmap string Value) : Prop :=
  exists u u',
    doc !! "updatedAt" = Some (VTime u)
    /\ doc' !! "updatedAt" = Some (VTime u')
    /\ u < u'.

(** Both timestamps are set, [createdAt] is not after [updatedAt], and
    not after the reading [clock] of the clock. *)
Definition timely (clock : Z) (doc : gmap string Value) : Prop :=
  exists c u,
    doc !! "createdAt" = Some (VTime c)
    /\ doc !! "updatedAt" = Some (VTime u)
    /\ c <= u
    /\ c <= clock.

(** [doc'] is [doc] some time later: the same identifier and the same
    creation time. *)
Definition same_record (doc doc' : gmap string Value) : Prop :=
  doc' !! "_id" = doc !! "_id" /\ doc' !! "createdAt" = doc !! "createdAt".

(** Where a document of the collection comes from, one request at time
    [now] after the collection was [old]: it was there, it is one of
    [old] amended, or it is newly constructed from an input that sets no
    [createdAt]. *)
Definition descends (engine : Engine) (now : Z) (old : list (gmap string Value))
    (doc' : gmap string Value) : Prop :=
  In doc' old
  \/ (exists doc changes, In doc old /\ amend engine now changes doc = inr doc')
  \/ (exists id input,
        input !! "createdAt" = None /\ construct engine now id input = inr doc').

Definition time_of (v : option Value) : option Z :=
  match v with
  | Some (VTime t) => Some t
  | _ => None
  end.

End Project.

(** ** The Project routes *)

(** Modelled from the spec: [routes/projects.js], the handlers of the five
  Project routes with their calls on the Project model, is not among the
  sources.  The module follows sections 4.2 to 4.4, 6 and 7 of the
  specification: whitelist the input, check the identifier, call the
  repository, wrap the result in the envelope, map a failure to its
  status.  The document semantics are those of the [Project] module. *)
Module Projects.

Import Http.

(** Modelled from the spec: the failure kinds of section 7; [routes/projects.js] is
    not among the sources. *)
Inductive Failure : Type :=
| ValidationFailure (problems : list Project.Problem)
| NotFound
| StorageUnavailable
| DuplicateKey
| Unknown (msg : string).

(** Modelled from the spec: the status of each failure kind (section 7), as the
    absent [routes/projects.js] is specified to answer. *)
Definition statusOf (f : Failure) : Z :=
  match f with
  | ValidationFailure _ => 400
  | NotFound => 404
  | StorageUnavailable => 503
  | DuplicateKey => 400
  | Unknown _ => 500
  end.

(** Modelled from the spec: the whitelist of the absent
    [routes/projects.js] (section 4.2): the fields of the data model
    without the system-managed ones, which are the paths of the schema. *)
Definition whitelist : list string := map Project.field Project.projectSchema.

Definition allowed (k : string) : bool := existsb (String.eqb k) whitelist.

(** Modelled from the spec: the sanitizer of the absent [routes/projects.js]
    (section 4.2): any field outside the whitelist is dropped. *)
Definition sanitize (input : gmap string Value) : gmap string Value :=
  filter (fun kv => allowed (fst kv) = true) input.

(** Modelled from the spec: the system-assigned identifier (section 3),
    generated outside the sources; here the number of the record as 24
    hexadecimal digits. *)
Definition hex_digit (n : N) : ascii :=
  ascii_of_N (if (n <? 10)%N then 48 + n else 87 + n)%N.

Fixpoint hex_onto (digits : nat) (n : N) (acc : string) : string :=
  match digits with
  | O => acc
  | S k => hex_onto k (n / 16)%N (String (hex_digit (n mod 16)%N) acc)
  end.

Definition objectId (n : N) : string := hex_onto 24 n EmptyString.

(** *** Repository *)

Definition Result (A : Type) : Type := Storage.t -> (Failure + A) * Storage.t.

(** Modelled from the spec: the repository of the absent [routes/projects.js]
    re-checks the connection and fails with [StorageUnavailable] (section
    4.3); the call is recorded either way. *)
Definition guarded {A : Type} (connected : bool) (call : Storage.Call) (op : Result A)
  : Result A :=
  fun s =>
    if connected then op (Storage.record call s)
    else (inl StorageUnavailable, Storage.record call s).

(** Modelled from the spec: [create(fields)] of section 4.3, absent from the
    sources. *)
Definition create (engine : Project.Engine) (connected : bool) (now : Z)
    (fields : gmap string Value) : Result (gmap string Value) :=
  guarded connected (Storage.CallCreate fields) (fun s =>
    match Project.construct engine now (objectId (Storage.issued s)) fields with
    | inl problems => (inl (ValidationFailure problems), s)
    | inr doc =>
        (inr doc,
         {| Storage.collection := Storage.collection s ++ [doc];
            Storage.issued := (Storage.issued s + 1)%N;
            Storage.calls := Storage.calls s |})
    end).

(** Modelled from the spec: [getAll()] of section 4.3, absent from the sources. *)
Definition getAll (connected : bool) : Result (list (gmap string Value)) :=
  guarded connected Storage.CallFind (fun s => (inr (Storage.collection s), s)).

(** Modelled from the spec: [getById(id)] of section 4.3, absent from the
    sources. *)
Definition getById (connected : bool) (id : string) : Result (gmap string Value) :=
  guarded connected (Storage.CallFindById id) (fun s =>
    match find (Project.has_id id) (Storage.collection s) with
    | Some doc => (inr doc, s)
    | None => (inl NotFound, s)
    end).

(** The first document with identifier [id] replaced by [doc']. *)
Fixpoint replace_first (id : string) (doc' : gmap string Value)
    (docs : list (gmap string Value)) : list (gmap string Value) :=
  match docs with
  | [] => []
  | doc :: rest =>
      if Project.has_id id doc then doc' :: rest
      else doc :: replace_first id doc' rest
  end.

Fixpoint remove_first (id : string) (docs : list (gmap string Value))
  : list (gmap string Value) :=
  match docs with
  | [] => []
  | doc :: rest =>
      if Project.has_id id doc then rest else doc :: remove_first id rest
  end.

(** Modelled from the spec: [update(id, fields)] of section 4.3, absent from the
    sources. *)
Definition update (engine : Project.Engine) (connected : bool) (now : Z) (id : string)
    (fields : gmap string Value) : Result (gmap string Value) :=
  guarded connected (Storage.CallUpdate id fields) (fun s =>
    match find (Project.has_id id) (Storage.collection s) with
    | None => (inl NotFound, s)
    | Some doc =>
        match Project.amend engine now fields doc with
        | inl problems => (inl (ValidationFailure problems), s)
        | inr doc' =>
            (inr doc',
             {| Storage.collection := replace_first id doc' (Storage.collection s);
                Storage.issued := Storage.issued s;
                Storage.calls := Storage.calls s |})
        end
    end).

(** Modelled from the spec: [delete(id)] of section 4.3, absent from the sources. *)
Definition delete (connected : bool) (id : string) : Result string :=
  guarded connected (Storage.CallDelete id) (fun s =>
    match find (Project.has_id id) (Storage.collection s) with
    | None => (inl NotFound, s)
    | Some _ =>
        (inr id,
         {| Storage.collection := remove_first id (Storage.collection s);
            Storage.issued := Storage.issued s;
            Storage.calls := Storage.calls s |})
    end).

(** *** Handlers *)

Definition failure_message (f : Failure) : string :=
  match f with
  | ValidationFailure _ => "Validation error"
  | NotFound => "Project not found"
  | StorageUnavailable => "Database service unavailable. Please try again later."
  | DuplicateKey => "Duplicate field value"
  | Unknown _ => "Internal server error"
  end.

Definition failed (now : Z) (f : Failure) : Response :=
  {| status := statusOf f;
     json := BEnvelope
       (match f with
        | ValidationFailure problems =>
            Middleware.with_details (map snd problems)
              (Middleware.envelope false (failure_message f) now)
        | _ => Middleware.envelope false (failure_message f) now
        end) |}.

Definition succeeded_with (code : Z) (msg : string) (payload : Data) (n : option nat)
  : Response :=
  {| status := code;
     json := BEnvelope
       {| success := true; message := msg; error := None; stack := None;
          details := None; for_method := None; timestamp := None;
          data := Some payload; count := n |} |}.

(** Modelled from the spec: the envelopes of section 6, as the absent
    [routes/projects.js] is specified to shape them. *)
Definition respond {A : Type} (now : Z) (code : Z) (msg : string)
    (wrap : A -> Data) (n : A -> option nat) (r : Result A) : Storage.Handler :=
  fun s =>
    match r s with
    | (inr a, s') => (Normal (Some (succeeded_with code msg (wrap a) (n a))), s')
    | (inl f, s') => (Normal (Some (failed now f)), s')
    end.

(** Modelled from the spec: the identifier check of the absent
    [routes/projects.js] (section 4.2), in front of a lookup, with the
    shape test of [src/utils/index.js]. *)
Definition with_id (now : Z) (id : string) (h : Storage.Handler) : Storage.Handler :=
  fun s =>
    if Utils.isValidObjectId id then h s
    else (Normal (Some (failed now (ValidationFailure [("id", "Invalid ID format")]))), s).

(** Modelled from the spec: the five routes of the absent [routes/projects.js]
    (sections 4.4 and 6). *)
Definition router (engine : Project.Engine) (d : Database.DatabaseManager) (now : Z)
  : Storage.Router :=
  fun rel req =>
    let connected := Database.isConnected d in
    match method req, rel with
    | GET, [] =>
        respond now 200 "Projects retrieved successfully" DataDocs
          (fun docs => Some (length docs)) (getAll connected)
    | GET, [id] =>
        with_id now id
          (respond now 200 "Project retrieved successfully" DataDoc
             (fun _ => None) (getById connected id))
    | POST, [] =>
        respond now 201 "Project created successfully" DataDoc
          (fun _ => None) (create engine connected now (sanitize (body req)))
    | PUT, [id] =>
        with_id now id
          (respond now 200 "Project updated successfully" DataDoc
             (fun _ => None) (update engine connected now id (sanitize (body req))))
    | DELETE, [id] =>
        with_id now id
          (respond now 200 "Project deleted successfully" DataId
             (fun _ => None) (delete connected id))
    | _, _ => fun s => (Normal None, s)
    end.

End Projects.

(** ** System routes ([src/routes/api.js]) *)

Module Api.

Import Http.

(** What the environment answers while a health report is built. *)
Record Probe : Type := mkProbe {
  connection : Database.Connection;
  ping : completion unit;
  dbstats : completion Database.RawStats;
  runtime : completion ProcessInfo
}.

Definition with_stats (r : completion Database.Stats) (h : Health) : Health :=
  let d := database h in
  {| health_success := health_success h;
     health_status := health_status h;
     health_timestamp := health_timestamp h;
     database :=
       {| connected := connected d; healthy := healthy d; state := state d;
          host := host d; port := port d; name := name d;
          stats := match r with Normal s => Some s | Throw _ => stats d end;
          statsError := match r with
                        | Normal _ => statsError d
                        | Throw e => Some (err_message e)
                        end |};
     environment := environment h;
     process := process h |}.

(** The body of the [try] block of [GET /health]. *)
Definition report (cfg : Config.t) (d : Database.DatabaseManager) (now : Z) (env : Probe)
  : completion Response :=
  let dbStatus := Database.getStatus d (connection env) in
  Database.and_then (Database.isHealthy d (ping env)) (fun isDbHealthy =>
  Database.and_then (runtime env) (fun proc =>
    let health :=
      {| health_success := true;
         health_status := "Server is running";
         health_timestamp := now;
         database :=
           {| connected := Database.isConnected d;
              healthy := isDbHealthy;
              state := Database.status_state dbStatus;
              host := Database.status_host dbStatus;
              port := Database.status_port dbStatus;
              name := Database.status_name dbStatus;
              stats := None;
              statsError := None |};
         environment := Config.environment cfg;
         process := proc |} in
    let health :=
      if Config.detailedChecks cfg && Database.isConnected d
      then with_stats (Database.getStats d (dbstats env)) health
      else health in
    Normal {| status := 200; json := BHealth health |})).

(** [router.get('/health', ...)] *)
Definition health (cfg : Config.t) (d : Database.DatabaseManager) (now : Z) (env : Probe)
  : Response :=
  match report cfg d now env with
  | Normal res => res
  | Throw error =>
      {| status := 500; json := BHealthFailed (err_message error) now |}
  end.

(** A [router.get] route answers [GET], and [HEAD] as well when the
    router has no [head] route for the path. *)
Definition reads (m : Method) : bool :=
  match m with
  | GET | HEAD => true
  | _ => false
  end.

(** The route table of the router; the bodies of the version,
    information and documentation pages are left out.  The patterns are
    matched without regard to case, and a slash at the end does not
    count. *)
Definition router (cfg : Config.t) (d : Database.DatabaseManager) (now : Z) (env : Probe)
  : Storage.Router :=
  fun rel req s =>
    if reads (method req) then
      match map lowercase (without_slash rel) with
      | ["health"] => (Normal (Some (health cfg d now env)), s)
      | ["version"] => (Normal (Some {| status := 200; json := BPage "version" |}), s)
      | [] => (Normal (Some {| status := 200; json := BPage "api" |}), s)
      | ["status"] => (Normal (Some {| status := 302; json := BRedirect "/health" |}), s)
      | ["docs"] => (Normal (Some {| status := 200; json := BPage "docs" |}), s)
      | _ => (Normal None, s)
      end
    else (Normal None, s).

(** A driver that answers every probe. *)
Definition answering : Probe :=
  {| connection :=
       {| Database.readyState := 1;
          Database.host := Some "localhost";
          Database.port := Some 27017;
          Database.name := Some "renderapis" |};
     ping := Normal tt;
     dbstats := Normal (Database.mkRawStats 1 2 3 4 5 6);
     runtime := Normal (mkProcess "v18.17.0" "linux" "x64" 4242 "1h" []) |}.

(** A driver that is down: the probes reject. *)
Definition unreachable : Probe :=
  {| connection :=
       {| Database.readyState := 0;
          Database.host := None;
          Database.port := None;
          Database.name := None |};
     ping := Throw Database.refused;
     dbstats := Throw Database.refused;
     runtime := Normal (mkProcess "v18.17.0" "linux" "x64" 4242 "1h" []) |}.

End Api.

(** ** Application wiring ([src/app.js]) *)

Module App.

Import Http.

(** The rest of [path] below the mount point [prefix]; the segments of
    a mount point are matched without regard to case. *)
Fixpoint below (prefix path : list string) : option (list string) :=
  match prefix, path with
  | [], _ => Some path
  | p :: prefix', q :: path' =>
      if String.eqb (lowercase p) (lowercase q) then below prefix' path' else None
  | _ :: _, [] => None
  end.

(** [app.use(prefix, router)] in front of the rest of the stack. *)
Definition use (prefix : list string) (r : Storage.Router) (next : Request -> Storage.Handler)
  : Request -> Storage.Handler :=
  fun req s =>
    match below prefix (path req) with
    | Some rel =>
        match r rel req s with
        | (Normal None, s') => next req s'
        | answered => answered
        end
    | None => next req s
    end.

(** [app.use('/api/projects', middleware.checkDatabaseConnection, projectRoutes)] *)
Definition gated (d : Database.DatabaseManager) (now : Z) (projectRoutes : Storage.Router)
  : Storage.Router :=
  fun rel req => Middleware.checkDatabaseConnection d now req (projectRoutes rel req).

(** The rate limiter mounted on [/api] in production; [limited] tells
    whether the caller has used up its window. *)
Definition rateLimiter (cfg : Config.t) (limited : bool) : Storage.Router :=
  fun rel req s =>
    if Config.isProduction cfg && limited
    then (Normal (Some {| status := 429; json := BLimited |}), s)
    else (Normal None, s).

(** [setupRoutes]: the routers in the order they are mounted. *)
Definition setupRoutes (cfg : Config.t) (d : Database.DatabaseManager) (now : Z)
    (env : Api.Probe) (limited : bool) (projectRoutes : Storage.Router)
  : Request -> Storage.Handler :=
  use [] (Api.router cfg d now env)
    (use ["api"] (Api.router cfg d now env)
       (use ["api"; "projects"] (gated d now projectRoutes)
          (use ["api"] (rateLimiter cfg limited)
             (fun req s => (Normal None, s))))).

(** [createApp] past the common middleware (security headers, timeout,
    logging, CORS, body parsing, static files: what these answer by
    themselves, such as a preflight or an unreadable body, does not get
    here): the routes, then [setupErrorHandling] (the 404 handler for what
    no route answered, the error handler for what a route failed with). *)
Definition app (cfg : Config.t) (d : Database.DatabaseManager) (now : Z)
    (env : Api.Probe) (limited : bool) (projectRoutes : Storage.Router)
    (req : Request) (s : Storage.t) : Response * Storage.t :=
  match setupRoutes cfg d now env limited projectRoutes req s with
  | (Normal (Some res), s') => (res, s')
  | (Normal None, s') => (Middleware.notFoundHandler now req, s')
  | (Throw err, s') => (Middleware.errorHandler cfg now err req, s')
  end.

(** The five Project routes. *)
Inductive ProjectRoute : Type :=
| GetAll
| GetById (id : string)
| Create (fields : gmap string Value)
| Update (id : string) (fields : gmap string Value)
| Delete (id : string).

Definition request_of (r : ProjectRoute) : Request :=
  match r with
  | GetAll => {| method := GET; path := ["api"; "projects"]; body := ∅ |}
  | GetById id => {| method := GET; path := ["api"; "projects"; id]; body := ∅ |}
  | Create fields => {| method := POST; path := ["api"; "projects"]; body := fields |}
  | Update id fields => {| method := PUT; path := ["api"; "projects"; id]; body := fields |}
  | Delete id => {| method := DELETE; path := ["api"; "projects"; id]; body := ∅ |}
  end.

(** The identifier a route carries in its path. *)
Definition identifier (r : ProjectRoute) : option string :=
  match r with
  | GetById id | Update id _ | Delete id => Some id
  | GetAll | Create _ => None
  end.

(** The call on the Project model a route stands for. *)
Definition storage_call (r : ProjectRoute) : Storage.Call :=
  match r with
  | GetAll => Storage.CallFind
  | GetById id => Storage.CallFindById id
  | Create fields => Storage.CallCreate (Projects.sanitize fields)
  | Update id fields => Storage.CallUpdate id (Projects.sanitize fields)
  | Delete id => Storage.CallDelete id
  end.

(** The router of the Project routes run on one of them. *)
Definition serve (engine : Project.Engine) (d : Database.DatabaseManager) (now : Z)
    (r : ProjectRoute) : Storage.Handler :=
  Projects.router engine d now (tl (tl (path (request_of r)))) (request_of r).

Definition sample_id : string := "507f1f77bcf86cd799439011".

(** The storage after [P1] was created at time 1000, and the identifier
    it was given. *)
Definition first_id : string := Projects.objectId 0.

Definition after_p1 : Storage.t :=
  snd (Projects.router Project.unasked (Database.db Database.online) 1000 []
         {| method := POST; path := ["api"; "projects"];
            body := <["name" := VText "P1"]> (<["description" := VText "D1"]> ∅) |}
         Storage.empty).

(** The record of [P1] as created at time 1000. *)
Definition p1_record : gmap string Value :=
  <["_id" := VText "000000000000000000000000"]>
    (<["__v" := VNumber 0]>
    (<["name" := VText "P1"]>
      (<["description" := VText "D1"]>
        (<["technologies" := VTexts []]>
          (<["status" := VText "planning"]>
            (<["startDate" := VTime 1000]>
              (<["createdAt" := VTime 1000]>
                (<["updatedAt" := VTime 1000]> ∅)))))))).

(** The same record once completed, the update made at time 1000 too. *)
Definition p1_completed : gmap string Value :=
  <["status" := VText "completed"]> p1_record.

Definition post (fields : gmap string Value) : Request :=
  {| method := POST; path := ["api"; "projects"]; body := fields |}.

Definition put (id : string) (fields : gmap string Value) : Request :=
  {| method := PUT; path := ["api"; "projects"; id]; body := fields |}.

(** [{name: "P1", description: "D1"}] *)
Definition p1 : gmap string Value :=
  <["name" := VText "P1"]> (<["description" := VText "D1"]> ∅).

(** [{name: "P1", description: "D1", hacked: "x"}] *)
Definition p1_hacked : gmap string Value := <["hacked" := VText "x"]> p1.

(** [{name: "P1", description: "D1", __v: "x"}] *)
Definition p1_versioned : gmap string Value := <["__v" := VText "x"]> p1.

(** [{name: "P1", description: "D1", status: "bogus"}] *)
Definition p1_bogus : gmap string Value := <["status" := VText "bogus"]> p1.

(** [{status: "completed"}] *)
Definition completed : gmap string Value := <["status" := VText "completed"]> ∅.

Definition health_request : Request :=
  {| method := GET; path := ["health"]; body := ∅ |}.

End App.

(** ** JavaScript values, as far as the configuration and the helpers
    need them *)

Module Js.

#[warnings="-register-all"]
Inductive JsValue : Type :=
| JUndefined
| JNull
| JBoolean (b : bool)
| JNumber (n : Z)
| JString (s : string)
| JObject (fields : list (string * JsValue)).

(** [!!v]: [undefined], [null], [false], [0] and [""] are falsy. *)
Definition truthy (v : JsValue) : bool :=
  match v with
  | JUndefined | JNull => false
  | JBoolean b => b
  | JNumber n => negb (n =? 0)
  | JString s => negb (String.eqb s "")
  | JObject _ => true
  end.

(** [a || b] *)
Definition or_else (a b : JsValue) : JsValue := if truthy a then a else b.

(** [process.env.NAME]: a string when the variable is set. *)
Definition variable (v : option string) : JsValue :=
  match v with
  | Some s => JString s
  | None => JUndefined
  end.

(** [v === 'text'] *)
Definition is_text (v : JsValue) (text : string) : bool :=
  match v with
  | JString s => String.eqb s text
  | _ => false
  end.

Fixpoint own (fields : list (string * JsValue)) (k : string) : JsValue :=
  match fields with
  | [] => JUndefined
  | (k', v) :: rest => if String.eqb k' k then v else own rest k
  end.

(** [value[k]] for the keys of object literals: reading a key of
    [undefined] or [null] throws, a primitive has no such key. *)
Definition get (value : JsValue) (k : string) : completion JsValue :=
  match value with
  | JObject fields => Normal (own fields k)
  | JUndefined | JNull =>
      Throw {| err_name := "TypeError";
               err_message := String.append "Cannot read properties of undefined (reading '"
                                (String.append k "')");
               err_code := None; err_errors := []; err_stack := "" |}
  | _ => Normal JUndefined
  end.

(** [text.split('.')] *)
Fixpoint split_dots (text : string) : list string :=
  match text with
  | EmptyString => [EmptyString]
  | String c rest =>
      if Ascii.eqb c "."%char then EmptyString :: split_dots rest
      else match split_dots rest with
           | [] => [String c EmptyString]
           | first :: others => String c first :: others
           end
  end.

End Js.

(** ** The configuration object ([src/config/index.js]) *)

Module Settings.

Import Js.

(** The variables of [process.env] the [server] and [database] sections
    and the mode flags read. *)
Record Environment : Type := mkEnvironment {
  NODE_ENV : option string;
  PORT : option string;
  HOST : option string;
  TRUST_PROXY : option string;
  MONGODB_URI : option string;
  HEALTH_DETAILED : option string
}.

(** The [server] and [database] sections of [config], the two that
    [validateConfig] walks. *)
Definition config (env : Environment) : JsValue :=
  JObject
    [ ("server",
       JObject
         [ ("port", or_else (variable (PORT env)) (JNumber 3000));
           ("host", or_else (variable (HOST env)) (JString "localhost"));
           ("environment", or_else (variable (NODE_ENV env)) (JString "development"));
           ("trustProxy",
            or_else (JBoolean (is_text (variable (TRUST_PROXY env)) "true"))
                    (JBoolean true)) ]);
      ("database",
       JObject
         [ ("uri", or_else (variable (MONGODB_URI env))
                     (JString "mongodb://localhost:27017/renderapis"));
           ("options",
            JObject
              [ ("maxPoolSize", JNumber 10);
                ("serverSelectionTimeoutMS", JNumber 5000);
                ("socketTimeoutMS", JNumber 45000) ]) ]) ].

Definition required : list string := ["server.port"; "database.uri"].

(** The inner loop: [value = value[k]] for each [k] of [keys]. *)
Fixpoint walk (value : JsValue) (keys : list string) : completion JsValue :=
  match keys with
  | [] => Normal value
  | k :: rest =>
      match get value k with
      | Normal v => walk v rest
      | Throw e => Throw e
      end
  end.

Definition missing (key : string) : JsError :=
  {| err_name := "Error";
     err_message := String.append "Missing required configuration: " key;
     err_code := None; err_errors := []; err_stack := "" |}.

(** The outer loop over a list of required keys. *)
Fixpoint validate_keys (cfg : JsValue) (keys : list string) : completion unit :=
  match keys with
  | [] => Normal tt
  | key :: rest =>
      match walk cfg (split_dots key) with
      | Normal value =>
          if negb (truthy value) then Throw (missing key)
          else validate_keys cfg rest
      | Throw e => Throw e
      end
  end.

Definition validateConfig (cfg : JsValue) : completion unit :=
  validate_keys cfg required.

(** The exported flags, read from the object. *)
Definition exported_flag (cfg : JsValue) (mode : string) : completion bool :=
  match get cfg "server" with
  | Normal server =>
      match get server "environment" with
      | Normal e => Normal (is_text e mode)
      | Throw err => Throw err
      end
  | Throw err => Throw err
  end.

(** The flags as the rest of the development reads them. *)
Definition flags (env : Environment) : Config.t :=
  Config.load (NODE_ENV env) (HEALTH_DETAILED env).

Definition bare : Environment :=
  {| NODE_ENV := None; PORT := None; HOST := None; TRUST_PROXY := None;
     MONGODB_URI := None; HEALTH_DETAILED := None |}.

End Settings.

(** ** More of the utilities ([src/utils/index.js]) *)

Module Helpers.

Import Js.

(** *** formatUptime *)

(** The components pushed on [parts], each with its unit, for a whole
    number of seconds. *)
Definition uptime_parts (seconds : Z) : list (Z * string) :=
  let days := seconds / 86400 in
  let hours := Z.rem seconds 86400 / 3600 in
  let minutes := Z.rem seconds 3600 / 60 in
  let secs := Z.rem seconds 60 in
  let parts := [] in
  let parts := if days >? 0 then parts ++ [(days, "d")] else parts in
  let parts := if hours >? 0 then parts ++ [(hours, "h")] else parts in
  let parts := if minutes >? 0 then parts ++ [(minutes, "m")] else parts in
  let parts :=
    if (secs >? 0) || Nat.eqb (length parts) 0 then parts ++ [(secs, "s")] else parts in
  parts.

Definition formatUptime (seconds : Z) : string :=
  String.concat " "
    (map (fun part => String.append (pretty (fst part)) (snd part)) (uptime_parts seconds)).

(** The seconds a unit of [formatUptime] stands for. *)
Definition unit_seconds (unit : string) : Z :=
  if String.eqb unit "d" then 86400
  else if String.eqb unit "h" then 3600
  else if String.eqb unit "m" then 60
  else 1.

Definition parts_seconds (parts : list (Z * string)) : Z :=
  fold_right (fun part total => fst part * unit_seconds (snd part) + total) 0 parts.

(** *** sanitizeInput *)

Definition lower (c : ascii) : ascii :=
  let n := nat_of_ascii c in
  if Nat.leb 65 n && Nat.leb n 90 then ascii_of_nat (n + 32) else c.

(** [\w] *)
Definition word_class (c : ascii) : bool :=
  Utils.in_range "a"%char "z"%char c
  || Utils.in_range "A"%char "Z"%char c
  || Utils.in_range "0"%char "9"%char c
  || Ascii.eqb c "_"%char.

(** [.replace(/[<>]/g, '')] *)
Fixpoint remove_angles (s : string) : string :=
  match s with
  | EmptyString => EmptyString
  | String c rest =>
      if Ascii.eqb c "<"%char || Ascii.eqb c ">"%char then remove_angles rest
      else String c (remove_angles rest)
  end.

(** Whether [s] starts with [pattern], letters compared without case. *)
Fixpoint starts_with (pattern s : string) : bool :=
  match pattern, s with
  | EmptyString, _ => true
  | String p pattern', String c s' =>
      Ascii.eqb (lower p) (lower c) && starts_with pattern' s'
  | String _ _, EmptyString => false
  end.

(** [.replace(/pattern/gi, '')] for a literal pattern: matches are taken
    from the left and do not overlap; [skip] characters of a match are
    still to be dropped. *)
Fixpoint remove_literal (pattern : string) (skip : nat) (s : string) : string :=
  match s with
  | EmptyString => EmptyString
  | String c rest =>
      match skip with
      | S k => remove_literal pattern k rest
      | O =>
          if starts_with pattern s
          then remove_literal pattern (String.length pattern - 1) rest
          else String c (remove_literal pattern 0 rest)
      end
  end.

(** The length of the longest run of word characters at the head. *)
Fixpoint word_run (s : string) : nat :=
  match s with
  | String c rest => if word_class c then S (word_run rest) else O
  | EmptyString => O
  end.

Fixpoint drop (n : nat) (s : string) : string :=
  match n, s with
  | S k, String _ rest => drop k rest
  | _, _ => s
  end.

(** The length of the match of [/on\w+=/i] at the head of [s], if any:
    the run of word characters is taken whole, for ['='] is none. *)
Definition handler_match (s : string) : option nat :=
  if starts_with "on" s then
    let run := word_run (drop 2 s) in
    match run, drop (2 + run) s with
    | S _, String c _ => if Ascii.eqb c "="%char then Some (2 + run + 1)%nat else None
    | _, _ => None
    end
  else None.

(** [.replace(/on\w+=/gi, '')] *)
Fixpoint remove_handlers (skip : nat) (s : string) : string :=
  match s with
  | EmptyString => EmptyString
  | String c rest =>
      match skip with
      | S k => remove_handlers k rest
      | O =>
          match handler_match s with
          | Some len => remove_handlers (len - 1) rest
          | None => String c (remove_handlers 0 rest)
          end
      end
  end.

Definition sanitizeInput (input : JsValue) : JsValue :=
  match input with
  | JString text =>
      JString (Project.js_trim
                 (remove_handlers 0
                    (remove_literal "javascript:" 0
                       (remove_angles text))))
  | other => other
  end.

(** Whether the characters of [s] are characters of [t], in order. *)
Fixpoint subsequence (s t : string) : Prop :=
  match s, t with
  | EmptyString, _ => True
  | String _ _, EmptyString => False
  | String c s', String d t' =>
      (c = d /\ subsequence s' t') \/ subsequence s t'
  end.

Fixpoint mentions (c : ascii) (s : string) : bool :=
  match s with
  | EmptyString => false
  | String d rest => Ascii.eqb c d || mentions c rest
  end.

(** Whether white space stands at the head of a text. *)
Definition starts_with_space (s : string) : bool :=
  match s with
  | EmptyString => false
  | String a s1 =>
      Project.is_space a
      || match s1 with
         | EmptyString => false
         | String b s2 =>
             Project.is_space2 a b
             || match s2 with
                | EmptyString => false
                | String c _ => Project.is_space3 a b c
                end
         end
  end.

(** *** getClientIp *)






(** *** isDevelopment, isProduction, isTest *)

(** [process.env.NODE_ENV === mode], with no default. *)
Definition isDevelopment (NODE_ENV : option string) : bool :=
  is_text (variable NODE_ENV) "development".

Definition isProduction (NODE_ENV : option string) : bool :=
  is_text (variable NODE_ENV) "production".

Definition isTest (NODE_ENV : option string) : bool :=
  is_text (variable NODE_ENV) "test".

(** *** generateRandomString *)

Definition chars : string :=
  "ABCDEFGHIJKLMNOPQRSTUVWXYZabcdefghijklmnopqrstuvwxyz0123456789".

(** [text.charAt(i)]: the empty string outside the text. *)
Definition charAt (text : string) (i : Z) : string :=
  if i <? 0 then EmptyString
  else match String.get (Z.to_nat i) text with
       | Some c => String c EmptyString
       | None => EmptyString
       end.

(** The loop: [draws] holds, for each turn, what
    [Math.floor(Math.random() * chars.length)] gave. *)
Fixpoint generate (draws : list Z) (result : string) : string :=
  match draws with
  | [] => result
  | draw :: rest => generate rest (String.append result (charAt chars draw))
  end.

(** [length = 10] when the argument is left out; [random i] is the draw
    of turn [i], and the loop runs while [i < length]. *)
Definition generateRandomString (length : option Z) (random : nat -> Z) : string :=
  let length := match length with Some n => n | None => 10 end in
  generate (map random (seq 0 (Z.to_nat length))) EmptyString.

(** [[A-Za-z0-9]] *)
Definition alphanumeric (c : ascii) : bool :=
  Utils.in_range "A"%char "Z"%char c
  || Utils.in_range "a"%char "z"%char c
  || Utils.in_range "0"%char "9"%char c.

Definition all_alphanumeric (s : string) : bool :=
  forallb alphanumeric (list_ascii_of_string s).

End Helpers.

(** ** Start and shutdown ([src/app.js]) *)

Module Lifecycle.

(** Console output of [initializeApp] and [gracefulShutdown]. *)
Inductive Message : Type :=
| MsgInitializing
| MsgEnvironment (environment : string)
| MsgNode
| MsgInitialized
| MsgReceived (signal : string)
| MsgShutdownCompleted
| MsgShutdownError (msg : string).

(** The process around the manager: its console and the process events
    it listens to. *)
Record Process : Type := mkProcess {
  manager : Database.World;
  output : list Message;
  listening : list string
}.

Definition started : Process :=
  {| manager := Database.fresh; output := []; listening := [] |}.

Definition say (m : Message) (p : Process) : Process :=
  {| manager := manager p; output := output p ++ [m]; listening := listening p |}.

Definition with_manager (w : Database.World) (p : Process) : Process :=
  {| manager := w; output := output p; listening := listening p |}.

(** The application [createApp] returns: the routes and the error
    handling, still to be given the manager, the clock, the driver and
    the router of the Project routes at each request. *)
Definition Application : Type :=
  Database.DatabaseManager -> Z -> Api.Probe -> bool -> Storage.Router ->
  Http.Request -> Storage.t -> Http.Response * Storage.t.

Definition createApp (env : Settings.Environment) : completion Application :=
  Database.and_then (Settings.validateConfig (Settings.config env))
    (fun _ => Normal (App.app (Settings.flags env))).

Definition setupGracefulShutdown (p : Process) : Process :=
  {| manager := manager p;
     output := output p;
     listening := listening p
                  ++ ["SIGTERM"; "SIGINT"; "uncaughtException"; "unhandledRejection"] |}.

Definition initializeApp (env : Settings.Environment) (o : Database.DriverOutcome)
    (p : Process) : completion Application * Process :=
  let p := say MsgInitializing p in
  let p := say (MsgEnvironment (Config.environment (Settings.flags env))) p in
  let p := say MsgNode p in
  match Database.connect (Settings.flags env) o (manager p) with
  | (Throw e, w) => (Throw e, with_manager w p)
  | (Normal _, w) =>
      let p := with_manager w p in
      match createApp env with
      | Throw e => (Throw e, p)
      | Normal app =>
          let p := setupGracefulShutdown p in
          (Normal app, say MsgInitialized p)
      end
  end.

(** [gracefulShutdown(signal)], with the code handed to [process.exit]. *)
Definition gracefulShutdown (cfg : Config.t) (signal : string)
    (o : Database.DriverOutcome) (p : Process) : Z * Process :=
  let p := say (MsgReceived signal) p in
  match Database.disconnect cfg o (manager p) with
  | (Normal _, w) => (0, say MsgShutdownCompleted (with_manager w p))
  | (Throw error, w) => (1, say (MsgShutdownError (err_message error)) (with_manager w p))
  end.

End Lifecycle.

(** ** What the manager shows of the connection *)

Module Coherence.

Import Database.

(** The connected flag and the state say the same, and the state is one
    of the three the module ever assigns. *)
Definition coherent (d : DatabaseManager) : Prop :=
  (isConnected d = true /\ connectionState d = "connected")
  \/ (isConnected d = false
      /\ (connectionState d = "disconnected" \/ connectionState d = "error")).

(** Nothing pending and nothing counted. *)
Definition idle (w : World) : Prop :=
  timers w = [] /\ connectionAttempts (db w) = 0.

End Coherence.

(** ** What the rate limiter changes in an answer *)

Module Limiting.

Import Http.

(** How two stacks that differ in the rate limiter alone answer a
    request: the same, or the limited one answers 429 where the other
    passes on. *)
Definition limited_or_same (cfg : Config.t) (req : Request)
    (a b : completion (option Response) * Storage.t) : Prop :=
  a = b
  \/ (Config.isProduction cfg = true
      /\ (exists rel, App.below ["api"] (path req) = Some rel)
      /\ exists s, a = (Normal (Some {| status := 429; json := BLimited |}), s)
                   /\ b = (Normal None, s)).

End Limiting.

(** ** What the schema guarantees of a stored document *)

Module Validity.

Import Http.



End Validity.

(** * Properties *)

(** Unfolds one call of [connect] or [disconnect] down to the worlds it
    goes through. *)
Ltac step_manager :=
  unfold Database.connect, Database.disconnect, Database.try_catch,
    Database.bind, Database.await, Database.exec;
  simpl.

Create HintDb budget.

(** ** Connection lifecycle *)

Section ConnectionLifecycle.

Import Database.

Variable cfg : Config.t.

Lemma budget_fresh : budget 0 fresh.
Proof. repeat split; simpl; try lia. constructor. Qed.

Lemma budget_log n m w : budget n w -> budget n (log m w).
Proof. intros H. exact H. Qed.

Lemma budget_flags n b s w :
  budget n w ->
  budget n (update (fun d => set_connectionState s (set_isConnected b d)) w).
Proof. intros H. exact H. Qed.

#[local] Hint Resolve budget_log budget_flags : budget.

Lemma scheduleReconnection_below w :
  connectionAttempts (db w) < maxRetries (db w) ->
  connectionAttempts (db (scheduleReconnection w)) = connectionAttempts (db w) + 1
  /\ timers (scheduleReconnection w)
     = timers w ++ [{| delay := retryDelay (db w); callback := CbConnect |}].
Proof.
  intros Hlt. unfold scheduleReconnection.
  destruct (Z.geb_spec (connectionAttempts (db w)) (maxRetries (db w))) as [Hge | _].
  - lia.
  - split; reflexivity.
Qed.

Lemma scheduleReconnection_exhausted w :
  maxRetries (db w) <= connectionAttempts (db w) ->
  db (scheduleReconnection w) = db w
  /\ timers (scheduleReconnection w) = timers w.
Proof.
  intros Hge. unfold scheduleReconnection.
  destruct (Z.geb_spec (connectionAttempts (db w)) (maxRetries (db w))) as [_ | Hlt].
  - split; reflexivity.
  - lia.
Qed.

Lemma budget_scheduleReconnection n w :
  budget n w -> budget n (scheduleReconnection w).
Proof.
  intros (Hmax & Hdelay & Hcount & Hle & Hall).
  destruct (Z_lt_le_dec (connectionAttempts (db w)) (maxRetries (db w))) as [Hlt | Hge].
  - destruct (scheduleReconnection_below w Hlt) as [Ha Ht].
    assert (Hkeep : maxRetries (db (scheduleReconnection w)) = maxRetries (db w)
                    /\ retryDelay (db (scheduleReconnection w)) = retryDelay (db w)).
    { unfold scheduleReconnection.
      destruct (connectionAttempts (db w) >=? maxRetries (db w)); split; reflexivity. }
    destruct Hkeep as [Hm Hd].
    unfold budget. rewrite Hm, Hd, Ha, Ht, length_app. simpl.
    repeat split; try lia.
    apply Forall_app. split; [exact Hall |].
    constructor; [| constructor]. simpl. split; [exact Hdelay | reflexivity].
  - destruct (scheduleReconnection_exhausted w Hge) as [Hd Ht].
    unfold budget. rewrite Hd, Ht. repeat split; assumption.
Qed.

Lemma budget_on_event n ev w :
  is_connected_event ev = false -> budget n w -> budget n (on_event cfg ev w).
Proof.
  intros Hev H. destruct ev as [ | msg | | ]; simpl in *.
  - discriminate.
  - exact H.
  - match goal with |- budget _ (if ?c then _ else _) => destruct c end;
      auto using budget_scheduleReconnection with budget.
  - exact H.
Qed.

Lemma budget_deliver n evs : forall w,
  forallb (fun ev => negb (is_connected_event ev)) evs = true ->
  budget n w -> budget n (deliver cfg evs w).
Proof.
  induction evs as [| ev evs IH]; intros w Hall H; simpl in *.
  - exact H.
  - apply andb_prop in Hall as [Hev Hrest].
    apply IH; [exact Hrest |].
    apply budget_on_event; [| exact H].
    destruct (is_connected_event ev); [discriminate | reflexivity].
Qed.

Lemma connect_caught o w e :
  settled o = Throw e ->
  let logged :=
    log LogContinueWithoutDb (log (LogConnectFailed (err_message e)) (caught cfg o w)) in
  snd (connect cfg o w)
  = if Config.isDevelopment cfg then log LogDevelopmentMode logged
    else scheduleReconnection logged.
Proof.
  intros Hs. unfold caught, at_catch. step_manager. rewrite Hs. simpl.
  destruct (Config.isDevelopment cfg); reflexivity.
Qed.

Lemma budget_connect n o w :
  failed o = true -> budget n w -> budget n (snd (connect cfg o w)).
Proof.
  intros Hf H. unfold failed in Hf. apply andb_prop in Hf as [Hthrow Hevs].
  destruct (settled o) as [u | e] eqn:Hs; [discriminate |].
  rewrite (connect_caught o w e Hs). cbv zeta.
  assert (Hc : budget n (log LogContinueWithoutDb
                           (log (LogConnectFailed (err_message e)) (caught cfg o w)))).
  { do 2 apply budget_log. unfold caught. apply budget_flags with (b := false).
    unfold at_catch. apply budget_deliver; [exact Hevs |]. apply budget_log. exact H. }
  destruct (Config.isDevelopment cfg).
  - apply budget_log. exact Hc.
  - apply budget_scheduleReconnection. exact Hc.
Qed.

Lemma budget_pop n w :
  timers w <> [] -> budget n w -> budget (S n) (pop_timer w).
Proof.
  intros Hne (Hmax & Hdelay & Hcount & Hle & Hall).
  destruct (timers w) as [| tm rest] eqn:Ht; [congruence |].
  unfold budget, pop_timer. simpl. rewrite Ht. simpl in *.
  repeat split; try assumption; try lia.
  inversion Hall; assumption.
Qed.

Lemma budget_tick l t :
  failing t = true -> budget (retried l) (world l) ->
  budget (retried (tick cfg l t)) (world (tick cfg l t)).
Proof.
  intros Hf H. destruct t as [o | o | ev]; simpl in *.
  - apply budget_connect; assumption.
  - destruct (timers (world l)) as [| tm rest] eqn:Ht; simpl.
    + exact H.
    + apply budget_connect; [exact Hf |].
      apply budget_pop; [rewrite Ht; discriminate | exact H].
  - apply budget_on_event; [| exact H].
    destruct (is_connected_event ev); [discriminate | reflexivity].
Qed.

Lemma budget_run ts : forall l,
  forallb failing ts = true -> budget (retried l) (world l) ->
  budget (retried (run cfg ts l)) (world (run cfg ts l)).
Proof.
  induction ts as [| t ts IH]; intros l Hall H; simpl in *.
  - exact H.
  - apply andb_prop in Hall as [Ht Hrest].
    apply IH; [exact Hrest |]. apply budget_tick; assumption.
Qed.

End ConnectionLifecycle.

Section RetryBound.

Import Database.

Lemma retried_tick cfg l t : (retried l <= retried (tick cfg l t))%nat.
Proof.
  destruct t as [o | o | ev]; simpl; try lia.
  destruct (timers (world l)); simpl; lia.
Qed.

(** C2. From a freshly constructed manager, whatever the sequence of
    failed attempts and driver events without a successful connection,
    the retry mechanism calls [connect()] at most 5 times; every pending
    retry is a [connect()] deferred by 5000 ms; [scheduleReconnection]
    increments the counter and defers one more retry below the maximum
    and changes nothing once the counter has reached 5; and after the
    fifth retry no reconnection is pending, nor is one scheduled by any
    later failure. *)
Theorem reconnection_bounded (cfg : Config.t) (ts : list Tick) :
  forallb failing ts = true ->
  let l := run cfg ts boot in
  let w := world l in
  (retried l <= 5)%nat
  /\ Forall (fun tm => delay tm = 5000 /\ callback tm = CbConnect) (timers w)
  /\ connectionAttempts (db w) = Z.of_nat (retried l + length (timers w))
  /\ (if connectionAttempts (db w) <? 5
      then connectionAttempts (db (scheduleReconnection w)) = connectionAttempts (db w) + 1
           /\ timers (scheduleReconnection w)
              = timers w ++ [{| delay := 5000; callback := CbConnect |}]
      else db (scheduleReconnection w) = db w
           /\ timers (scheduleReconnection w) = timers w)
  /\ (retried l = 5%nat ->
      timers w = []
      /\ forall t, failing t = true -> timers (world (tick cfg l t)) = []).
Proof.
  intros Hall l w.
  assert (Hb : budget (retried l) w).
  { apply budget_run; [exact Hall | apply budget_fresh]. }
  pose proof Hb as (Hmax & Hdelay & Hcount & Hle & Htimers).
  split; [lia |]. split; [exact Htimers |]. split; [exact Hcount |]. split.
  - destruct (Z.ltb_spec (connectionAttempts (db w)) 5) as [Hlt | Hge].
    + rewrite <- Hdelay. apply scheduleReconnection_below. lia.
    + apply scheduleReconnection_exhausted. lia.
  - intros H5. split.
    + apply length_zero_iff_nil. lia.
    + intros t Ht.
      pose proof (budget_tick cfg l t Ht Hb) as (_ & _ & Hc' & Hle' & _).
      pose proof (retried_tick cfg l t) as Hmono.
      apply length_zero_iff_nil. lia.
Qed.

Lemma reconnection_bounded_witness :
  forallb failing six_failures = true
  /\ (retried (run production six_failures boot) <= 5)%nat.
Proof.
  split; [reflexivity |].
  exact (proj1 (reconnection_bounded production six_failures eq_refl)).
Defined.

(** With outcomes that emit nothing, [connect] reads the configuration
    through [isDevelopment] alone. *)
Lemma connect_plain cfg cfg' o w :
  emitted o = [] ->
  Config.isDevelopment cfg = Config.isDevelopment cfg' ->
  connect cfg o w = connect cfg' o w.
Proof.
  intros He Hdev. step_manager. rewrite He. simpl.
  destruct (settled o) as [[] | e]; simpl; [reflexivity |].
  rewrite Hdev. reflexivity.
Qed.

Lemma run_plain cfg cfg' ts : forall l,
  Forall plain ts ->
  Config.isDevelopment cfg = Config.isDevelopment cfg' ->
  run cfg ts l = run cfg' ts l.
Proof.
  induction ts as [| t ts IH]; intros l Hall Hdev; simpl; [reflexivity |].
  inversion Hall as [| ? ? Ht Hts]; subst.
  assert (Hstep : tick cfg l t = tick cfg' l t).
  { destruct t as [o | o | ev]; simpl in *.
    - rewrite (connect_plain cfg cfg' o _ Ht Hdev). reflexivity.
    - destruct (timers (world l)); [reflexivity |].
      rewrite (connect_plain cfg cfg' o _ Ht Hdev). reflexivity.
    - contradiction. }
  rewrite Hstep. apply IH; assumption.
Qed.

(** The bound is reached: outside development mode a refused first
    attempt is followed by exactly five retries. *)
Lemma five_retries_run cfg :
  Config.isDevelopment cfg = false ->
  retried (run cfg (six_failures ++ [Fire rejection]) boot) = 5%nat
  /\ timers (world (run cfg six_failures boot)) = []
  /\ length (timers (world (run cfg (Invoke rejection :: repeat (Fire rejection) 4) boot)))
     = 1%nat.
Proof.
  intros Hdev.
  rewrite !(run_plain cfg production) by (try exact Hdev; repeat constructor).
  repeat split; vm_compute; reflexivity.
Qed.

End RetryBound.

Section ConnectFailure.

Import Database.

Lemma scheduleReconnection_flags w :
  isConnected (db (scheduleReconnection w)) = isConnected (db w)
  /\ connectionState (db (scheduleReconnection w)) = connectionState (db w).
Proof.
  unfold scheduleReconnection.
  destruct (connectionAttempts (db w) >=? maxRetries (db w)); split; reflexivity.
Qed.

Lemma connect_returns cfg o w : fst (connect cfg o w) = Normal tt.
Proof.
  step_manager.
  destruct (settled o) as [[] | e]; simpl; [reflexivity |].
  destruct (Config.isDevelopment cfg); reflexivity.
Qed.

(** The shape of the world after a rejected attempt. *)
Lemma connect_rejected_shape cfg o w e :
  settled o = Throw e ->
  let w0 := at_catch cfg o w in
  let w' := snd (connect cfg o w) in
  let go := negb (Config.isDevelopment cfg)
            && (connectionAttempts (db w0) <? maxRetries (db w0)) in
  isConnected (db w') = false
  /\ connectionState (db w') = "error"
  /\ timers w'
     = timers w0
       ++ (if go then [{| delay := retryDelay (db w0); callback := CbConnect |}] else [])
  /\ connectionAttempts (db w')
     = connectionAttempts (db w0) + (if go then 1 else 0).
Proof.
  intros Hs w0 w' go.
  pose proof (connect_caught cfg o w e Hs) as Hw. cbv zeta in Hw.
  set (logged := log LogContinueWithoutDb
                   (log (LogConnectFailed (err_message e)) (caught cfg o w))) in Hw.
  fold w' in Hw. subst go.
  destruct (Config.isDevelopment cfg) eqn:Hdev; rewrite Hw; simpl negb; simpl andb.
  - repeat split.
    + change (timers (log LogDevelopmentMode logged)) with (timers w0).
      symmetry. apply app_nil_r.
    + change (connectionAttempts (db (log LogDevelopmentMode logged)))
        with (connectionAttempts (db w0)). lia.
  - destruct (scheduleReconnection_flags logged) as [Hf1 Hf2].
    rewrite Hf1, Hf2.
    split; [reflexivity |]. split; [reflexivity |].
    change (connectionAttempts (db w0)) with (connectionAttempts (db logged)).
    change (maxRetries (db w0)) with (maxRetries (db logged)).
    change (retryDelay (db w0)) with (retryDelay (db logged)).
    change (timers w0) with (timers logged).
    destruct (Z.ltb_spec (connectionAttempts (db logged)) (maxRetries (db logged)))
      as [Hlt | Hge].
    + destruct (scheduleReconnection_below logged Hlt) as [Ha Ht].
      rewrite Ha, Ht. split; reflexivity.
    + destruct (scheduleReconnection_exhausted logged Hge) as [Hd Ht].
      rewrite Hd, Ht. split; [symmetry; apply app_nil_r | lia].
Qed.

(** C3, as the code has it. [connect()] returns normally whatever the
    driver answers.  When the driver rejects, the manager ends in state
    "error" with the connected flag false; one reconnection is scheduled
    exactly when the environment is not "development" and the attempt
    counter is still below the maximum; in development mode the catch
    block only logs: timers and attempt counter are as it found them. *)
Theorem connect_captures_failure (cfg : Config.t) (o : DriverOutcome) (w : World) :
  fst (connect cfg o w) = Normal tt
  /\ forall e, settled o = Throw e ->
     let w0 := at_catch cfg o w in
     let w' := snd (connect cfg o w) in
     isConnected (db w') = false
     /\ connectionState (db w') = "error"
     /\ (reconnection_scheduled cfg o w = true
         <-> Config.isDevelopment cfg = false
             /\ connectionAttempts (db w0) < maxRetries (db w0))
     /\ (reconnection_scheduled cfg o w = true ->
         timers w' = timers w0 ++ [{| delay := retryDelay (db w0); callback := CbConnect |}]
         /\ connectionAttempts (db w') = connectionAttempts (db w0) + 1)
     /\ (Config.isDevelopment cfg = true ->
         timers w' = timers w0
         /\ connectionAttempts (db w') = connectionAttempts (db w0)).
Proof.
  split; [apply connect_returns |].
  intros e Hs w0 w'.
  destruct (connect_rejected_shape cfg o w e Hs) as (Hc & Hst & Ht & Ha).
  fold w0 in Ht, Ha. fold w' in Hc, Hst, Ht, Ha.
  split; [exact Hc |]. split; [exact Hst |].
  unfold reconnection_scheduled. fold w0. fold w'.
  destruct (Config.isDevelopment cfg) eqn:Hdev; simpl negb in *; simpl andb in *.
  - rewrite app_nil_r in Ht. rewrite Z.add_0_r in Ha.
    rewrite Ht, Nat.ltb_irrefl.
    split; [split; [discriminate | intros [Hf _]; discriminate] |].
    split; [discriminate |]. intros _. split; [reflexivity | exact Ha].
  - destruct (Z.ltb_spec (connectionAttempts (db w0)) (maxRetries (db w0))) as [Hlt | Hge].
    + assert (Hn : Nat.ltb (length (timers w0)) (length (timers w')) = true).
      { apply Nat.ltb_lt. rewrite Ht, length_app. simpl. lia. }
      rewrite Hn.
      split; [split; [intros _; split; [reflexivity | exact Hlt] | reflexivity] |].
      split; [intros _; split; [exact Ht | exact Ha] | discriminate].
    + rewrite app_nil_r in Ht. rewrite Ht, Nat.ltb_irrefl.
      split; [split; [discriminate | intros [_ Hlt]; lia] |].
      split; discriminate.
Qed.

Lemma connect_captures_failure_witness :
  settled rejection = Throw refused
  /\ connectionState (db (snd (connect production rejection fresh))) = "error".
Proof.
  split; [reflexivity |].
  exact (proj1 (proj2 (proj2 (connect_captures_failure production rejection fresh)
                        refused eq_refl))).
Defined.

(** C3 as stated fails: in production mode, once the attempt counter has
    reached the maximum, a refused [connect()] schedules nothing. *)
Lemma connect_exhausted_schedules_nothing :
  Config.isDevelopment production = false
  /\ Config.isProduction production = true
  /\ connectionAttempts (db exhausted) = 5
  /\ settled rejection = Throw refused
  /\ reconnection_scheduled production rejection exhausted = false
  /\ timers (snd (connect production rejection exhausted)) = [].
Proof. repeat split. Qed.

End ConnectFailure.

Section Disconnecting.

Import Database.

Lemma disconnect_world cfg o w :
  exists m, snd (disconnect cfg o w) = log m (deliver cfg (emitted o) w).
Proof.
  step_manager.
  destruct (settled o) as [[] | e]; simpl; eexists; reflexivity.
Qed.

Lemma disconnected_event_flags cfg w :
  connectionState (db (on_event cfg EvDisconnected w)) = "disconnected"
  /\ isConnected (db (on_event cfg EvDisconnected w)) = false.
Proof.
  simpl.
  match goal with |- context [if ?c then _ else _] => destruct c end.
  - match goal with |- context [scheduleReconnection ?x] =>
      destruct (scheduleReconnection_flags x) as [-> ->] end.
    split; reflexivity.
  - split; reflexivity.
Qed.

(** C4, as the code has it. [disconnect()] returns normally whether the
    close resolves or rejects, and writes nothing to the manager itself:
    its fields and the pending timers are what the handlers of the events
    emitted during the close made of them.  So the manager ends
    disconnected with the connected flag false when the close ends with
    a ['disconnected'] event, and a call during which the driver emits
    nothing leaves the manager as it was, also when repeated. *)
Theorem disconnect_swallows_close_errors
  (cfg : Config.t) (o : DriverOutcome) (w : World) :
  let w' := snd (disconnect cfg o w) in
  fst (disconnect cfg o w) = Normal tt
  /\ db w' = db (deliver cfg (emitted o) w)
  /\ timers w' = timers (deliver cfg (emitted o) w)
  /\ (forall evs, emitted o = evs ++ [EvDisconnected] ->
      connectionState (db w') = "disconnected" /\ isConnected (db w') = false)
  /\ (emitted o = [] ->
      db w' = db w
      /\ timers w' = timers w
      /\ forall o2, emitted o2 = [] -> db (snd (disconnect cfg o2 w')) = db w').
Proof.
  intros w'.
  destruct (disconnect_world cfg o w) as [m Hw]. fold w' in Hw.
  split.
  { step_manager. destruct (settled o) as [[] | e]; reflexivity. }
  split; [rewrite Hw; reflexivity |].
  split; [rewrite Hw; reflexivity |].
  split.
  - intros evs Hev. rewrite Hw, Hev. unfold deliver. rewrite fold_left_app. simpl.
    apply disconnected_event_flags.
  - intros Hev. rewrite Hw, Hev. simpl.
    split; [reflexivity |]. split; [reflexivity |].
    intros o2 Hev2.
    destruct (disconnect_world cfg o2 (log m w)) as [m2 Hw2].
    rewrite Hw2, Hev2. reflexivity.
Qed.

Lemma disconnect_swallows_close_errors_witness :
  emitted closing = [] ++ [EvDisconnected]
  /\ connectionState (db (snd (disconnect production closing online))) = "disconnected"
  /\ emitted silent = []
  /\ db (snd (disconnect production silent offline)) = db offline.
Proof.
  split; [reflexivity |].
  split.
  - exact (proj1 (proj1 (proj2 (proj2 (proj2
             (disconnect_swallows_close_errors production closing online))))
             [] eq_refl)).
  - split; [reflexivity |].
    exact (proj1 (proj2 (proj2 (proj2 (proj2
             (disconnect_swallows_close_errors production silent offline))))
             eq_refl)).
Defined.

(** C4 as stated fails: a close that rejects leaves a connected manager
    connected, and a close that resolves without a ['disconnected'] event
    (the link was never up) leaves a manager in state "error" there. *)
Lemma disconnect_leaves_state :
  isConnected (db online) = true
  /\ fst (disconnect development close_refused online) = Normal tt
  /\ connectionState (db (snd (disconnect development close_refused online))) = "connected"
  /\ isConnected (db (snd (disconnect development close_refused online))) = true
  /\ connectionState (db offline) = "error"
  /\ connectionState (db (snd (disconnect development silent offline))) = "error".
Proof. repeat split. Qed.

End Disconnecting.

(** ** The connection gate *)

Section Gate.

Import Http.

Lemma below_app prefix : forall path rel,
  App.below prefix path = Some rel ->
  exists front,
    path = front ++ rel /\ map lowercase front = map lowercase prefix.
Proof.
  induction prefix as [| p prefix IH]; intros path rel H; simpl in *.
  - exists []. injection H as <-. split; reflexivity.
  - destruct path as [| q path]; [discriminate |].
    destruct (String.eqb_spec (lowercase p) (lowercase q)) as [Heq | _]; [| discriminate].
    destruct (IH _ _ H) as (front & -> & Hfront).
    exists (q :: front). split; [reflexivity |].
    simpl. rewrite Hfront, Heq. reflexivity.
Qed.

Lemma below_projects path rel :
  App.below ["api"; "projects"] path = Some rel ->
  exists a b,
    path = a :: b :: rel /\ lowercase a = "api" /\ lowercase b = "projects".
Proof.
  intros H. apply below_app in H as (front & -> & Hfront).
  destruct front as [| a [| b [| c front]]]; try discriminate.
  exists a, b. simpl in Hfront. injection Hfront as Ha Hb.
  split; [reflexivity |]. split; assumption.
Qed.

Lemma project_routes_below (r : App.ProjectRoute) :
  exists rel, App.below ["api"; "projects"] (path (App.request_of r)) = Some rel.
Proof. destruct r; simpl; eexists; reflexivity. Qed.

Lemma without_slash_cons q rel :
  q <> EmptyString -> exists rel', without_slash (q :: rel) = q :: rel'.
Proof.
  intros Hq. unfold without_slash. simpl rev.
  destruct (rev rel) as [| x front] eqn:Hrev; simpl.
  - destruct q as [| c q]; [congruence |]. exists rel. reflexivity.
  - destruct x as [| c x].
    + exists (rev front). rewrite rev_app_distr. reflexivity.
    + exists rel. reflexivity.
Qed.

(** No system route answers below [/api/projects]. *)
Lemma api_router_passes cfg d now env req q rel s :
  lowercase q = "api" \/ lowercase q = "projects" ->
  Api.router cfg d now env (q :: rel) req s = (Normal None, s).
Proof.
  intros Hq. unfold Api.router.
  destruct (Api.reads (method req)); [| reflexivity].
  destruct (without_slash_cons q rel) as [rel' ->].
  { intros ->. destruct Hq; discriminate. }
  simpl map. destruct Hq as [-> | ->]; destruct rel'; reflexivity.
Qed.

Lemma use_below prefix r next req s rel :
  App.below prefix (path req) = Some rel ->
  App.use prefix r next req s
  = match r rel req s with
    | (Normal None, s') => next req s'
    | answered => answered
    end.
Proof. intros H. unfold App.use. rewrite H. reflexivity. Qed.

Lemma setupRoutes_projects cfg d now env limited projectRoutes req rel s :
  App.below ["api"; "projects"] (path req) = Some rel ->
  App.setupRoutes cfg d now env limited projectRoutes req s
  = match App.gated d now projectRoutes rel req s with
    | (Normal None, s') =>
        App.use ["api"] (App.rateLimiter cfg limited) (fun _ s => (Normal None, s)) req s'
    | answered => answered
    end.
Proof.
  intros Hb. destruct (below_projects _ _ Hb) as (a & b & Hp & Ha & Hb').
  unfold App.setupRoutes.
  rewrite (use_below [] _ _ req s (a :: b :: rel))
    by (rewrite Hp; reflexivity).
  rewrite (api_router_passes cfg d now env req a (b :: rel) s) by (left; exact Ha).
  rewrite (use_below ["api"] _ _ req s (b :: rel))
    by (rewrite Hp; simpl; rewrite Ha; reflexivity).
  rewrite (api_router_passes cfg d now env req b rel s) by (right; exact Hb').
  rewrite (use_below ["api"; "projects"] _ _ req s rel) by exact Hb.
  reflexivity.
Qed.

(** C1. While the connected flag of the manager is false, every request
    below [/api/projects] (the five Project routes among them) is
    answered 503 with [success: false], whatever router is mounted
    behind the gate; the storage, with the record of the calls it
    received, is left as it was: the router is not run. *)
Theorem projects_unavailable_when_disconnected
  (cfg : Config.t) (d : Database.DatabaseManager) (now : Z) (env : Api.Probe)
  (limited : bool) (projectRoutes : Storage.Router) (req : Request) (s : Storage.t) :
  Database.isConnected d = false ->
  (exists rel, App.below ["api"; "projects"] (path req) = Some rel) ->
  let answer := App.app cfg d now env limited projectRoutes req s in
  status (fst answer) = 503
  /\ succeeded (json (fst answer)) = Some false
  /\ snd answer = s
  /\ Storage.calls (snd answer) = Storage.calls s.
Proof.
  intros Hd [rel Hrel] answer. subst answer.
  unfold App.app.
  rewrite (setupRoutes_projects cfg d now env limited projectRoutes req rel s Hrel).
  unfold App.gated, Middleware.checkDatabaseConnection. rewrite Hd. simpl.
  repeat split.
Qed.

End Gate.

Section GateExample.

Import Http.

Lemma projects_unavailable_when_disconnected_witness :
  Database.isConnected (Database.db Database.offline) = false
  /\ (exists rel,
        App.below ["api"; "projects"] (path (App.request_of (App.GetById App.sample_id)))
        = Some rel)
  /\ status (fst (App.app Database.development (Database.db Database.offline) 0
                    Api.unreachable false
                    (Projects.router Project.unasked (Database.db Database.offline) 0)
                    (App.request_of (App.GetById App.sample_id)) Storage.empty)) = 503.
Proof.
  split; [reflexivity |].
  split; [apply project_routes_below |].
  exact (proj1 (projects_unavailable_when_disconnected
                  Database.development (Database.db Database.offline) 0
                  Api.unreachable false
                  (Projects.router Project.unasked (Database.db Database.offline) 0)
                  (App.request_of (App.GetById App.sample_id)) Storage.empty
                  eq_refl (project_routes_below (App.GetById App.sample_id)))).
Defined.

End GateExample.

(** ** The health page *)

Section HealthPage.

Import Http.

Lemma isHealthy_total d ping :
  Database.isHealthy d ping = Normal (Database.isConnected d && negb (is_throw ping)).
Proof.
  unfold Database.isHealthy, Database.attempt, Database.and_then.
  destruct (Database.isConnected d); simpl; [| reflexivity].
  destruct ping; reflexivity.
Qed.

Lemma getStats_total d probe : is_throw (Database.getStats d probe) = false.
Proof.
  unfold Database.getStats, Database.attempt, Database.and_then.
  destruct (Database.isConnected d); simpl; [| reflexivity].
  destruct probe; reflexivity.
Qed.

Lemma report_throws cfg d now env :
  is_throw (Api.report cfg d now env) = is_throw (Api.runtime env).
Proof.
  unfold Api.report. rewrite isHealthy_total. simpl.
  destruct (Api.runtime env); reflexivity.
Qed.

(** C10. For every state of the manager and every answer of the driver,
    [GET /health] (also under [/api]) is answered 200 with [success: true]
    as long as building the report does not throw, and the body carries the
    connected flag, the state and the result of the health probe, which is
    false when the manager is disconnected or the ping fails; the only
    other status is 500, and it is given exactly when building the report
    throws, which the database calls never cause. *)
Theorem health_reports_database_in_body
  (cfg : Config.t) (d : Database.DatabaseManager) (now : Z) (env : Api.Probe) :
  let res := Api.health cfg d now env in
  (status res = 200 \/ status res = 500)
  /\ (status res = 500 <-> is_throw (Api.report cfg d now env) = true)
  /\ is_throw (Api.report cfg d now env) = is_throw (Api.runtime env)
  /\ (is_throw (Api.runtime env) = false ->
      status res = 200
      /\ succeeded (json res) = Some true
      /\ exists h,
           json res = BHealth h
           /\ connected (database h) = Database.isConnected d
           /\ state (database h) = Database.connectionState d
           /\ Normal (healthy (database h)) = Database.isHealthy d (Api.ping env)
           /\ healthy (database h)
              = Database.isConnected d && negb (is_throw (Api.ping env)))
  /\ (forall limited projectRoutes s,
        App.app cfg d now env limited projectRoutes App.health_request s = (res, s)
        /\ App.app cfg d now env limited projectRoutes
             {| method := GET; path := ["api"; "health"]; body := ∅ |} s = (res, s)).
Proof.
  intros res. subst res.
  split.
  { unfold Api.health. destruct (Api.report cfg d now env) as [r | e] eqn:Hr.
    - left. unfold Api.report in Hr. rewrite isHealthy_total in Hr. simpl in Hr.
      destruct (Api.runtime env); simpl in Hr; [| discriminate].
      injection Hr as <-. reflexivity.
    - right. reflexivity. }
  split.
  { unfold Api.health. destruct (Api.report cfg d now env) as [r | e] eqn:Hr; simpl.
    - unfold Api.report in Hr. rewrite isHealthy_total in Hr. simpl in Hr.
      destruct (Api.runtime env); simpl in Hr; [| discriminate].
      injection Hr as <-. simpl. split; discriminate.
    - split; reflexivity. }
  split; [apply report_throws |].
  split.
  { intros Hrun. unfold Api.health, Api.report. rewrite isHealthy_total. simpl.
    destruct (Api.runtime env) as [proc | e]; [| discriminate]. simpl.
    split; [reflexivity |].
    destruct (Config.detailedChecks cfg && Database.isConnected d); simpl.
    - split; [reflexivity |]. eexists. split; [reflexivity |].
      simpl. repeat split.
    - split; [reflexivity |]. eexists. split; [reflexivity |].
      simpl. repeat split. }
  intros limited projectRoutes s. split; reflexivity.
Qed.

Lemma health_reports_database_in_body_witness :
  is_throw (Api.runtime Api.unreachable) = false
  /\ status (Api.health Database.production (Database.db Database.offline) 0
               Api.unreachable) = 200.
Proof.
  split; [reflexivity |].
  exact (proj1 (proj1 (proj2 (proj2 (proj2
           (health_reports_database_in_body Database.production
              (Database.db Database.offline) 0 Api.unreachable)))) eq_refl)).
Defined.

End HealthPage.

(** ** The error handler *)

Section ErrorMapping.

Import Http.

Lemma errorHandler_cases cfg now err req :
  let res := Middleware.errorHandler cfg now err req in
  (status res = 400 \/ status res = 500)
  /\ succeeded (json res) = Some false
  /\ (status res = 400 <->
      err_name err = "ValidationError"
      \/ err_name err = "CastError"
      \/ (err_name err = "MongoError" /\ err_code err = Some 11000)).
Proof.
  unfold Middleware.errorHandler.
  destruct (String.eqb_spec (err_name err) "ValidationError") as [Hv | Hv].
  { simpl. destruct (Config.isDevelopment cfg); repeat split; auto. }
  destruct (String.eqb_spec (err_name err) "CastError") as [Hc | Hc].
  { simpl. destruct (Config.isDevelopment cfg); repeat split; auto. }
  destruct (String.eqb_spec (err_name err) "MongoError") as [Hm | Hm]; simpl.
  - destruct (err_code err) as [c |] eqn:Hcode.
    + destruct (Z.eqb_spec c 11000) as [-> | Hne]; simpl.
      * destruct (Config.isDevelopment cfg); repeat split; auto.
      * destruct (Config.isDevelopment cfg); (split; [right; reflexivity |]);
          (split; [reflexivity |]); (split; [discriminate |]);
          intros [H | [H | [_ H]]]; congruence.
    + destruct (Config.isDevelopment cfg); (split; [right; reflexivity |]);
        (split; [reflexivity |]); (split; [discriminate |]);
        intros [H | [H | [_ H]]]; congruence.
  - destruct (Config.isDevelopment cfg); (split; [right; reflexivity |]);
      (split; [reflexivity |]); (split; [discriminate |]);
      intros [H | [H | [H _]]]; congruence.
Qed.




End ErrorMapping.

(** ** Identifiers *)

Section Identifiers.

Import Http.

Lemma repeat_class_exact cls n : forall s,
  Utils.repeat_class cls n s = Some EmptyString
  <-> String.length s = n /\ forallb cls (list_ascii_of_string s) = true.
Proof.
  induction n as [| n IH]; intros s; simpl.
  - destruct s as [| c s]; simpl.
    + split; [intros _; split; reflexivity | reflexivity].
    + split; [discriminate | intros [H _]; discriminate].
  - destruct s as [| c s]; simpl.
    + split; [discriminate | intros [H _]; discriminate].
    + destruct (cls c); simpl.
      * rewrite IH. split; intros [H1 H2]; split; auto.
      * split; [discriminate | intros [_ H]; discriminate].
Qed.

Lemma isValidObjectId_shape id :
  Utils.isValidObjectId id = true
  <-> String.length id = 24%nat
      /\ forallb Utils.hex_class (list_ascii_of_string id) = true.
Proof.
  rewrite <- repeat_class_exact. unfold Utils.isValidObjectId.
  destruct (Utils.repeat_class Utils.hex_class 24 id) as [[| c r] |].
  - split; reflexivity.
  - split; discriminate.
  - split; discriminate.
Qed.

Lemma respond_storage {A : Type} now code msg (wrap : A -> Data) n (r : Projects.Result A) s :
  snd (Projects.respond now code msg wrap n r s) = snd (r s).
Proof. unfold Projects.respond. destruct (r s) as [[f | a] s']; reflexivity. Qed.

Lemma guarded_calls {A : Type} connected call (op : Projects.Result A) s :
  (forall s0, Storage.calls (snd (op s0)) = Storage.calls s0) ->
  Storage.calls (snd (Projects.guarded connected call op s)) = Storage.calls s ++ [call].
Proof.
  intros Hop. unfold Projects.guarded. destruct connected; [| reflexivity].
  rewrite Hop. reflexivity.
Qed.

Lemma getById_calls connected id s :
  Storage.calls (snd (Projects.getById connected id s))
  = Storage.calls s ++ [Storage.CallFindById id].
Proof.
  apply guarded_calls. intros s0.
  destruct (find (Project.has_id id) (Storage.collection s0)); reflexivity.
Qed.

Lemma update_calls engine connected now id fields s :
  Storage.calls (snd (Projects.update engine connected now id fields s))
  = Storage.calls s ++ [Storage.CallUpdate id fields].
Proof.
  apply guarded_calls. intros s0.
  destruct (find (Project.has_id id) (Storage.collection s0)) as [doc |]; [| reflexivity].
  destruct (Project.amend engine now fields doc); reflexivity.
Qed.

Lemma delete_calls connected id s :
  Storage.calls (snd (Projects.delete connected id s))
  = Storage.calls s ++ [Storage.CallDelete id].
Proof.
  apply guarded_calls. intros s0.
  destruct (find (Project.has_id id) (Storage.collection s0)); reflexivity.
Qed.

Lemma create_calls engine connected now fields s :
  Storage.calls (snd (Projects.create engine connected now fields s))
  = Storage.calls s ++ [Storage.CallCreate fields].
Proof.
  apply guarded_calls. intros s0.
  destruct (Project.construct engine now (Projects.objectId (Storage.issued s0)) fields);
    reflexivity.
Qed.

(** A connected request to a Project route is answered by the router
    behind the gate. *)
Lemma app_project_route engine cfg d now env limited r s res s' :
  Database.isConnected d = true ->
  Projects.router engine d now (tl (tl (path (App.request_of r)))) (App.request_of r) s
  = (Normal (Some res), s') ->
  App.app cfg d now env limited (Projects.router engine d now) (App.request_of r) s = (res, s').
Proof.
  intros Hd Hr. unfold App.app.
  rewrite (setupRoutes_projects cfg d now env limited (Projects.router engine d now)
             (App.request_of r) (tl (tl (path (App.request_of r)))) s)
    by (destruct r; reflexivity).
  unfold App.gated, Middleware.checkDatabaseConnection. rewrite Hd. simpl negb.
  cbv iota. rewrite Hr. reflexivity.
Qed.

Lemma with_id_malformed now id h s :
  Utils.isValidObjectId id = false ->
  exists res,
    Projects.with_id now id h s = (Normal (Some res), s)
    /\ status res = 400
    /\ succeeded (json res) = Some false.
Proof.
  intros Hid. unfold Projects.with_id. rewrite Hid.
  eexists. split; [reflexivity |]. split; reflexivity.
Qed.

Lemma respond_answers {A : Type} now code msg (wrap : A -> Data) n (r : Projects.Result A) s :
  exists res, Projects.respond now code msg wrap n r s = (Normal (Some res), snd (r s)).
Proof.
  unfold Projects.respond. destruct (r s) as [[f | a] s']; eexists; reflexivity.
Qed.

(** C9. With the database connected, a request to a route with an [:id]
    segment that is not exactly 24 hexadecimal characters is answered 400
    with [success: false] and the storage receives no call; when the
    segment has that shape, the storage receives the lookup of the route,
    and nothing else.  The error handler answers a ["CastError"] with 400
    as well. *)
Theorem malformed_identifier_short_circuits
  (engine : Project.Engine) (cfg : Config.t) (d : Database.DatabaseManager) (now : Z)
  (env : Api.Probe) (limited : bool) (r : App.ProjectRoute) (id : string) (s : Storage.t) :
  Database.isConnected d = true ->
  App.identifier r = Some id ->
  let answer := App.app cfg d now env limited (Projects.router engine d now) (App.request_of r) s in
  (Utils.isValidObjectId id = true
   <-> String.length id = 24%nat
       /\ forallb Utils.hex_class (list_ascii_of_string id) = true)
  /\ (Utils.isValidObjectId id = false ->
      status (fst answer) = 400
      /\ succeeded (json (fst answer)) = Some false
      /\ snd answer = s)
  /\ (Utils.isValidObjectId id = true ->
      Storage.calls (snd answer) = Storage.calls s ++ [App.storage_call r])
  /\ (forall err, err_name err = "CastError" ->
      status (Middleware.errorHandler cfg now err (App.request_of r)) = 400).
Proof.
  intros Hd Hid answer.
  split; [apply isValidObjectId_shape |].
  split; [| split].
  - intros Hbad.
    assert (Hres : exists res,
               Projects.router engine d now (tl (tl (path (App.request_of r)))) (App.request_of r) s
               = (Normal (Some res), s)
               /\ status res = 400 /\ succeeded (json res) = Some false).
    { destruct r as [| i | f | i f | i]; simpl in Hid; try discriminate;
        injection Hid as ->; simpl; apply with_id_malformed; exact Hbad. }
    destruct Hres as (res & Hr & Hst & Hok).
    subst answer.
    rewrite (app_project_route engine cfg d now env limited r s res s Hd Hr).
    simpl. auto.
  - intros Hgood.
    assert (Hres : exists res s',
               Projects.router engine d now (tl (tl (path (App.request_of r)))) (App.request_of r) s
               = (Normal (Some res), s')
               /\ Storage.calls s' = Storage.calls s ++ [App.storage_call r]).
    { destruct r as [| i | f | i f | i]; simpl in Hid; try discriminate;
        injection Hid as ->; unfold App.request_of, Projects.router;
        cbn [path method tl]; unfold Projects.with_id; rewrite Hgood.
      - destruct (respond_answers now 200 "Project retrieved successfully" DataDoc
                    (fun _ => None) (Projects.getById (Database.isConnected d) id) s)
          as [res Hr].
        exists res, (snd (Projects.getById (Database.isConnected d) id s)).
        split; [exact Hr | apply getById_calls].
      - destruct (respond_answers now 200 "Project updated successfully" DataDoc
                    (fun _ => None)
                    (Projects.update engine (Database.isConnected d) now id
                       (Projects.sanitize f)) s)
          as [res Hr].
        exists res,
          (snd (Projects.update engine (Database.isConnected d) now id (Projects.sanitize f) s)).
        split; [exact Hr | apply update_calls].
      - destruct (respond_answers now 200 "Project deleted successfully" DataId
                    (fun _ => None) (Projects.delete (Database.isConnected d) id) s)
          as [res Hr].
        exists res, (snd (Projects.delete (Database.isConnected d) id s)).
        split; [exact Hr | apply delete_calls]. }
    destruct Hres as (res & s' & Hr & Hcalls).
    subst answer.
    rewrite (app_project_route engine cfg d now env limited r s res s' Hd Hr).
    exact Hcalls.
  - intros err Hname.
    apply (proj2 (proj2 (errorHandler_cases cfg now err (App.request_of r)))).
    right. left. exact Hname.
Qed.

Lemma malformed_identifier_short_circuits_witness :
  Database.isConnected (Database.db Database.online) = true
  /\ App.identifier (App.GetById "42") = Some "42"
  /\ Utils.isValidObjectId "42" = false
  /\ status (fst (App.app Database.development (Database.db Database.online) 0
                    Api.answering false
                    (Projects.router Project.unasked (Database.db Database.online) 0)
                    (App.request_of (App.GetById "42")) Storage.empty)) = 400.
Proof.
  split; [reflexivity |]. split; [reflexivity |]. split; [reflexivity |].
  exact (proj1 (proj1 (proj2 (malformed_identifier_short_circuits
           Project.unasked Database.development (Database.db Database.online) 0 Api.answering false
           (App.GetById "42") "42" Storage.empty eq_refl eq_refl)) eq_refl)).
Defined.

End Identifiers.

(** ** Documents *)

Section Documents.

Import Http.

Lemma sanitize_lookup_allowed k (input : gmap string Value) :
  Projects.allowed k = true -> Projects.sanitize input !! k = input !! k.
Proof.
  intros Hk. apply option_eq. intros y. unfold Projects.sanitize.
  rewrite map_lookup_filter_Some. simpl. tauto.
Qed.

Lemma sanitize_lookup_dropped k (input : gmap string Value) :
  Projects.allowed k = false -> Projects.sanitize input !! k = None.
Proof.
  intros Hk. unfold Projects.sanitize. apply map_lookup_filter_None_2.
  right. intros x _ H. simpl in H. congruence.
Qed.

Lemma sanitize_insert_dropped k v (input : gmap string Value) :
  Projects.allowed k = false ->
  Projects.sanitize (<[k := v]> input) = Projects.sanitize input
  /\ Projects.sanitize (delete k input) = Projects.sanitize input.
Proof.
  intros Hk. unfold Projects.sanitize. split.
  - apply map_filter_insert_not. intros y H. simpl in H. congruence.
  - apply map_filter_delete_not. intros y _ H. simpl in H. congruence.
Qed.

Lemma allowed_false k :
  Projects.allowed k = false ->
  Forall (fun p => Project.field p <> k) Project.projectSchema.
Proof.
  unfold Projects.allowed, Projects.whitelist. intros H.
  induction Project.projectSchema as [| p ps IH]; constructor.
  - simpl in H. apply orb_false_elim in H as [H _].
    apply String.eqb_neq in H. congruence.
  - apply IH. simpl in H. apply orb_false_elim in H as [_ H]. exact H.
Qed.

Lemma allowed_field p :
  In p Project.projectSchema -> Projects.allowed (Project.field p) = true.
Proof.
  intros Hin. unfold Projects.allowed, Projects.whitelist.
  apply existsb_exists. exists (Project.field p). split.
  - apply in_map. exact Hin.
  - apply String.eqb_refl.
Qed.

(** Setting schema paths leaves every other key alone. *)
Lemma puts_lookup_other (g : Project.Path -> option Value) k paths :
  forall base : gmap string Value,
  Forall (fun p => Project.field p <> k) paths ->
  foldr (fun p d => Project.put (Project.field p) (g p) d) base paths !! k = base !! k.
Proof.
  induction paths as [| p ps IH]; intros base Hall; simpl; [reflexivity |].
  inversion Hall as [| ? ? Hp Hps]; subst.
  unfold Project.put at 1. destruct (g p) as [x |].
  - rewrite lookup_insert_ne by exact Hp. apply IH. exact Hps.
  - apply IH. exact Hps.
Qed.

(** A schema path reads what was set at it, or what was there before. *)
Lemma puts_lookup_field (g : Project.Path -> option Value) paths :
  forall (base : gmap string Value) p,
  List.NoDup (map Project.field paths) ->
  In p paths ->
  foldr (fun p d => Project.put (Project.field p) (g p) d) base paths !! Project.field p
  = match g p with Some x => Some x | None => base !! Project.field p end.
Proof.
  induction paths as [| q ps IH]; intros base p Hnd Hin; simpl in *; [contradiction |].
  inversion Hnd as [| ? ? Hq Hps]; subst.
  destruct Hin as [-> | Hin].
  - unfold Project.put at 1. destruct (g p) as [x |].
    + apply lookup_insert_eq.
    + apply puts_lookup_other.
      apply List.Forall_forall. intros r Hr Heq. apply Hq.
      rewrite <- Heq. apply in_map. exact Hr.
  - assert (Hne : Project.field q <> Project.field p).
    { intros Heq. apply Hq. rewrite Heq. apply in_map. exact Hin. }
    unfold Project.put at 1. destruct (g q) as [x |].
    + rewrite lookup_insert_ne by exact Hne. apply IH; assumption.
    + apply IH; assumption.
Qed.

(** An update leaves every key alone that is no path of its. *)
Lemma applies_lookup_other (g : Project.Path -> Project.Change) k paths :
  forall base : gmap string Value,
  Forall (fun p => Project.field p <> k) paths ->
  foldr (fun p d => Project.apply (Project.field p) (g p) d) base paths !! k = base !! k.
Proof.
  induction paths as [| p ps IH]; intros base Hall; simpl; [reflexivity |].
  inversion Hall as [| ? ? Hp Hps]; subst.
  unfold Project.apply at 1. destruct (g p) as [| | x].
  - apply IH. exact Hps.
  - rewrite lookup_delete_ne by exact Hp. apply IH. exact Hps.
  - rewrite lookup_insert_ne by exact Hp. apply IH. exact Hps.
Qed.

(** After an update a path reads what was assigned to it, nothing when
    it was cleared, and what was there before otherwise. *)
Lemma applies_lookup_field (g : Project.Path -> Project.Change) paths :
  forall (base : gmap string Value) p,
  List.NoDup (map Project.field paths) ->
  In p paths ->
  foldr (fun p d => Project.apply (Project.field p) (g p) d) base paths !! Project.field p
  = match g p with
    | Project.Assigned x => Some x
    | Project.Cleared => None
    | Project.Untouched => base !! Project.field p
    end.
Proof.
  induction paths as [| q ps IH]; intros base p Hnd Hin; simpl in *; [contradiction |].
  inversion Hnd as [| ? ? Hq Hps]; subst.
  destruct Hin as [-> | Hin].
  - unfold Project.apply at 1. destruct (g p) as [| | x].
    + apply applies_lookup_other.
      apply List.Forall_forall. intros r Hr Heq. apply Hq.
      rewrite <- Heq. apply in_map. exact Hr.
    + apply lookup_delete_eq.
    + apply lookup_insert_eq.
  - assert (Hne : Project.field q <> Project.field p).
    { intros Heq. apply Hq. rewrite Heq. apply in_map. exact Hin. }
    unfold Project.apply at 1. destruct (g q) as [| | x].
    + apply IH; assumption.
    + rewrite lookup_delete_ne by exact Hne. apply IH; assumption.
    + rewrite lookup_insert_ne by exact Hne. apply IH; assumption.
Qed.

Lemma schema_fields_distinct : List.NoDup (map Project.field Project.projectSchema).
Proof.
  simpl.
  repeat (apply List.NoDup_cons; [simpl; intuition discriminate |]).
  apply List.NoDup_nil.
Qed.

Lemma schema_not_managed :
  Forall (fun k => Forall (fun p => Project.field p <> k) Project.projectSchema)
    Project.managed.
Proof. repeat constructor; simpl; discriminate. Qed.

End Documents.

(** ** Whitelisting *)

Section Whitelisting.

Import Http.

Lemma construct_inr engine now id (input : gmap string Value) doc :
  Project.construct engine now id input = inr doc ->
  concat (map (fun p => fst (Project.initial engine now input p))
            (Project.projectSchema ++ Project.stamps)) = []
  /\ doc = <["_id" := VText id]>
             (<["__v" := VNumber 0]>
               (<["createdAt" := VTime (Project.created engine now input)]>
                 (<["updatedAt" := VTime (Project.created engine now input)]>
                   (foldr (fun p d => Project.put (Project.field p)
                                        (snd (Project.initial engine now input p)) d)
                          ∅ Project.projectSchema)))).
Proof.
  unfold Project.construct.
  destruct (concat (map (fun p => fst (Project.initial engine now input p))
                      (Project.projectSchema ++ Project.stamps))) as [| problem problems].
  - intros H. injection H as <-. split; reflexivity.
  - discriminate.
Qed.

(** An input that sets no [createdAt] is stamped with the reading of the
    clock. *)
Lemma created_unset engine now (input : gmap string Value) :
  input !! "createdAt" = None -> Project.created engine now input = now.
Proof.
  intros H. unfold Project.created, Project.initial.
  cbn [Project.field Project.createdAt]. rewrite H. reflexivity.
Qed.

(** The two paths of the timestamps raise no problem when the input
    sets neither. *)
Lemma stamps_unset engine now (input : gmap string Value) :
  input !! "createdAt" = None -> input !! "updatedAt" = None ->
  concat (map (fun p => fst (Project.initial engine now input p)) Project.stamps) = [].
Proof.
  intros Hc Hu. unfold Project.stamps, Project.initial. simpl.
  rewrite Hc, Hu. reflexivity.
Qed.

Lemma amend_inr engine now (changes doc : gmap string Value) doc' :
  Project.amend engine now changes doc = inr doc' ->
  concat (map (fun p => fst (Project.revised engine changes p)) Project.projectSchema) = []
  /\ doc' = <["updatedAt" := VTime now]>
              (foldr (fun p d => Project.apply (Project.field p)
                                   (snd (Project.revised engine changes p)) d)
                     doc Project.projectSchema).
Proof.
  unfold Project.amend.
  destruct (concat (map (fun p => fst (Project.revised engine changes p))
                      Project.projectSchema)) as [| problem problems].
  - intros H. injection H as <-. split; reflexivity.
  - discriminate.
Qed.

Lemma construct_lookup_other engine now id (input : gmap string Value) k doc :
  Forall (fun p => Project.field p <> k) Project.projectSchema ->
  ~ In k Project.managed ->
  Project.construct engine now id input = inr doc ->
  doc !! k = None.
Proof.
  intros Hk Hm H. apply construct_inr in H as [_ ->].
  simpl in Hm.
  rewrite !lookup_insert_ne by (intros Heq; apply Hm; rewrite <- Heq; auto 6).
  rewrite (puts_lookup_other (fun p => snd (Project.initial engine now input p)))
    by exact Hk.
  apply lookup_empty.
Qed.

Lemma amend_lookup_other engine now (changes doc : gmap string Value) k doc' :
  Forall (fun p => Project.field p <> k) Project.projectSchema ->
  k <> "updatedAt" ->
  Project.amend engine now changes doc = inr doc' ->
  doc' !! k = doc !! k.
Proof.
  intros Hk Hu H. apply amend_inr in H as [_ ->].
  rewrite lookup_insert_ne by congruence.
  apply (applies_lookup_other (fun p => snd (Project.revised engine changes p))). exact Hk.
Qed.

Lemma replace_first_Forall (P : gmap string Value -> Prop) id doc' docs :
  Forall P docs -> P doc' -> Forall P (Projects.replace_first id doc' docs).
Proof.
  intros Hall Hd. induction Hall as [| doc rest Hdoc Hrest IH]; simpl.
  - constructor.
  - destruct (Project.has_id id doc); constructor; assumption.
Qed.

Lemma remove_first_Forall (P : gmap string Value -> Prop) id docs :
  Forall P docs -> Forall P (Projects.remove_first id docs).
Proof.
  intros Hall. induction Hall as [| doc rest Hdoc Hrest IH]; simpl.
  - constructor.
  - destruct (Project.has_id id doc); [assumption | constructor; assumption].
Qed.

Lemma find_Forall (P : gmap string Value -> Prop) f docs doc :
  Forall P docs -> find f docs = Some doc -> P doc.
Proof.
  intros Hall Hf. apply find_some in Hf as [Hin _].
  rewrite List.Forall_forall in Hall. apply Hall. exact Hin.
Qed.

(** What a [POST] leaves in the collection. *)
Lemma post_collection engine d now fields s :
  let s' := snd (Projects.router engine d now [] (App.post fields) s) in
  Storage.collection s' = Storage.collection s
  \/ exists doc,
       Project.construct engine now (Projects.objectId (Storage.issued s))
         (Projects.sanitize fields) = inr doc
       /\ Storage.collection s' = Storage.collection s ++ [doc].
Proof.
  unfold Projects.router, App.post. cbn [method body]. rewrite respond_storage.
  unfold Projects.create, Projects.guarded.
  destruct (Database.isConnected d); [| left; reflexivity].
  cbn [Storage.record Storage.issued Storage.collection].
  destruct (Project.construct engine now (Projects.objectId (Storage.issued s))
              (Projects.sanitize fields)) as [problems | doc] eqn:Hc.
  - left. reflexivity.
  - right. exists doc. split; reflexivity.
Qed.

(** What a [PUT] leaves in the collection. *)
Lemma put_collection engine d now id fields s :
  let s' := snd (Projects.router engine d now [id] (App.put id fields) s) in
  Storage.collection s' = Storage.collection s
  \/ exists doc doc',
       find (Project.has_id id) (Storage.collection s) = Some doc
       /\ Project.amend engine now (Projects.sanitize fields) doc = inr doc'
       /\ Storage.collection s' = Projects.replace_first id doc' (Storage.collection s).
Proof.
  unfold Projects.router, App.put. cbn [method body]. unfold Projects.with_id.
  destruct (Utils.isValidObjectId id); [| left; reflexivity].
  rewrite respond_storage.
  unfold Projects.update, Projects.guarded.
  destruct (Database.isConnected d); [| left; reflexivity].
  cbn [Storage.record Storage.issued Storage.collection].
  destruct (find (Project.has_id id) (Storage.collection s)) as [doc |] eqn:Hf;
    [| left; reflexivity].
  destruct (Project.amend engine now (Projects.sanitize fields) doc) as [problems | doc'] eqn:Ha.
  - left. reflexivity.
  - right. exists doc, doc'. split; [reflexivity |]. split; [exact Ha | reflexivity].
Qed.

(** C7, as the code has it. A field outside the whitelist is dropped
    from the input of a create or an update before the repository is
    called: the sanitized input has no such key, the repository receives
    the sanitized input, and the answer and the storage are those of the
    same request without the field.  When the field is not one the model
    sets by itself ([_id], [__v], [createdAt], [updatedAt]), no record
    comes to carry it: a collection free of the key stays free of it. *)
Theorem extra_fields_are_dropped
  (engine : Project.Engine) (d : Database.DatabaseManager) (now : Z) (k : string) (v : Value)
  (input : gmap string Value) (id : string) (s : Storage.t) :
  Projects.allowed k = false ->
  let dirty := <[k := v]> input in
  let created := Projects.router engine d now [] (App.post dirty) s in
  let updated := Projects.router engine d now [id] (App.put id dirty) s in
  Projects.sanitize dirty !! k = None
  /\ Projects.sanitize dirty = Projects.sanitize (delete k input)
  /\ created = Projects.router engine d now [] (App.post (delete k input)) s
  /\ updated = Projects.router engine d now [id] (App.put id (delete k input)) s
  /\ Storage.calls (snd created)
     = Storage.calls s ++ [Storage.CallCreate (Projects.sanitize dirty)]
  /\ (~ In k Project.managed ->
      Forall (fun doc => doc !! k = None) (Storage.collection s) ->
      Forall (fun doc => doc !! k = None) (Storage.collection (snd created))
      /\ Forall (fun doc => doc !! k = None) (Storage.collection (snd updated))).
Proof.
  intros Hk dirty created updated.
  destruct (sanitize_insert_dropped k v input Hk) as [Hins Hdel].
  fold dirty in Hins.
  split; [apply sanitize_lookup_dropped; exact Hk |].
  split; [rewrite Hins, Hdel; reflexivity |].
  split.
  { subst created. unfold Projects.router, App.post. cbn [method body].
    rewrite Hins, Hdel. reflexivity. }
  split.
  { subst updated. unfold Projects.router, App.put. cbn [method body].
    rewrite Hins, Hdel. reflexivity. }
  split.
  { subst created. unfold Projects.router, App.post. cbn [method body].
    rewrite respond_storage. apply create_calls. }
  intros Hm Hfree.
  pose proof (allowed_false k Hk) as Hpaths.
  split.
  - destruct (post_collection engine d now dirty s) as [Hsame | (doc & Hc & Happ)];
      fold created in Hsame || fold created in Happ.
    + rewrite Hsame. exact Hfree.
    + rewrite Happ. apply Forall_app. split; [exact Hfree |].
      constructor; [| constructor].
      apply (construct_lookup_other engine now _ _ k doc Hpaths Hm Hc).
  - destruct (put_collection engine d now id dirty s) as [Hsame | (doc & doc' & Hf & Ha & Hrep)];
      fold updated in Hsame || fold updated in Hrep.
    + rewrite Hsame. exact Hfree.
    + rewrite Hrep. apply replace_first_Forall; [exact Hfree |].
      rewrite (amend_lookup_other engine now _ doc k doc' Hpaths) by
        (try exact Ha; intros Heq; apply Hm; rewrite Heq; simpl; auto).
      apply (find_Forall (fun doc => doc !! k = None) _ _ doc Hfree Hf).
Qed.

Lemma extra_fields_are_dropped_witness :
  Projects.allowed "hacked" = false
  /\ Projects.sanitize App.p1_hacked !! "hacked" = None
  /\ Forall (fun doc => doc !! "hacked" = None)
       (Storage.collection
          (snd (Projects.router Project.unasked (Database.db Database.online) 0 []
                  (App.post App.p1_hacked) Storage.empty))).
Proof.
  split; [reflexivity |].
  split.
  - exact (proj1 (extra_fields_are_dropped Project.unasked (Database.db Database.online) 0
                    "hacked" (VText "x") App.p1 App.sample_id Storage.empty eq_refl)).
  - refine (proj1 (proj2 (proj2 (proj2 (proj2 (proj2
              (extra_fields_are_dropped Project.unasked (Database.db Database.online) 0
                 "hacked" (VText "x") App.p1 App.sample_id Storage.empty eq_refl)))))
              _ _)).
    + simpl. intros [H | [H | [H | [H | H]]]]; try discriminate; exact H.
    + constructor.
Defined.

(** C7 as stated fails at the version key: [__v] is outside the
    whitelist and none of [id], [createdAt], [updatedAt], the value
    submitted for it is dropped, and yet the record stored has a [__v]
    field, the 0 that the model gives every new document. *)
Lemma version_key_is_stored :
  Projects.allowed "__v" = false
  /\ App.p1_versioned !! "__v" = Some (VText "x")
  /\ Projects.sanitize App.p1_versioned !! "__v" = None
  /\ map (fun doc => (doc !! "__v", doc !! "name"))
       (Storage.collection
          (snd (Projects.router Project.unasked (Database.db Database.online) 0 []
                  (App.post App.p1_versioned) Storage.empty)))
     = [(Some (VNumber 0), Some (VText "P1"))].
Proof. repeat split; vm_compute; reflexivity. Qed.

(** [create({name, description, hacked: "x"})]: one record is stored, and
    it has no [hacked] field. *)
Lemma hacked_field_not_stored :
  map (fun doc => (doc !! "hacked", doc !! "name"))
    (Storage.collection
       (snd (Projects.router Project.unasked (Database.db Database.online) 0 []
               (App.post App.p1_hacked) Storage.empty)))
  = [(None, Some (VText "P1"))].
Proof. vm_compute. reflexivity. Qed.

End Whitelisting.

(** ** Creation *)

Section Creation.

Import Http.

Lemma hex_digit_class m : (m < 16)%N -> Utils.hex_class (Projects.hex_digit m) = true.
Proof.
  intros Hm. destruct m as [| p]; [reflexivity |].
  do 4 (destruct p as [p | p |]; try reflexivity); exfalso; lia.
Qed.

Lemma hex_onto_shape digits : forall n acc,
  forallb Utils.hex_class (list_ascii_of_string acc) = true ->
  String.length (Projects.hex_onto digits n acc) = (digits + String.length acc)%nat
  /\ forallb Utils.hex_class (list_ascii_of_string (Projects.hex_onto digits n acc)) = true.
Proof.
  induction digits as [| k IH]; intros n acc Hacc; simpl.
  - split; [reflexivity | exact Hacc].
  - destruct (IH (n / 16)%N (String (Projects.hex_digit (n mod 16)%N) acc)) as [Hlen Hhex].
    + simpl. rewrite Hacc, hex_digit_class; [reflexivity |].
      apply N.mod_lt. discriminate.
    + split; [rewrite Hlen; simpl; lia | exact Hhex].
Qed.

Lemma objectId_valid n : Utils.isValidObjectId (Projects.objectId n) = true.
Proof.
  apply isValidObjectId_shape. unfold Projects.objectId.
  destruct (hex_onto_shape 24 n EmptyString eq_refl) as [Hlen Hhex].
  split; [rewrite Hlen; reflexivity | exact Hhex].
Qed.

Lemma concat_all_nil {A B : Type} (f : A -> list B) l :
  (forall x, In x l -> f x = []) -> concat (map f l) = [].
Proof.
  induction l as [| x l IH]; intros H; simpl; [reflexivity |].
  rewrite (H x) by (left; reflexivity). simpl. apply IH.
  intros y Hy. apply H. right. exact Hy.
Qed.

Lemma check_optional p v :
  Project.required p = None -> Project.check p v = Project.check_enum p v.
Proof. intros H. unfold Project.check, Project.check_required. rewrite H. reflexivity. Qed.

Lemma check_enum_none p : Project.check_enum p None = [].
Proof. unfold Project.check_enum. destruct (Project.enum p); reflexivity. Qed.

(** An optional path raises no problem when its value is accepted, or
    when its default passes its own validators. *)
Lemma initial_optional engine now (input : gmap string Value) p :
  Project.required p = None ->
  match input !! Project.field p with
  | Some v => Project.accepts engine p v
  | None => true
  end = true ->
  Project.check_enum p (Project.default_value now p) = [] ->
  fst (Project.initial engine now input p) = [].
Proof.
  intros Hreq Hacc Hdef. unfold Project.initial.
  destruct (input !! Project.field p) as [v |].
  - unfold Project.accepts in Hacc.
    destruct (Project.cast engine p v) as [v' | |]; [| | discriminate]; simpl.
    + rewrite (check_optional p _ Hreq).
      destruct (Project.check_enum p (Some v')); [reflexivity | discriminate].
    + rewrite (check_optional p _ Hreq). apply check_enum_none.
  - simpl. rewrite (check_optional p _ Hreq). exact Hdef.
Qed.

(** A required, trimmed text path raises no problem when the text is not
    empty after trimming. *)
Lemma initial_required engine now (input : gmap string Value) p text :
  Project.type p = Project.SString ->
  Project.trim p = true ->
  Project.enum p = None ->
  input !! Project.field p = Some (VText text) ->
  Project.js_trim text <> EmptyString ->
  Project.initial engine now input p = ([], Some (VText (Project.js_trim text))).
Proof.
  intros Hty Htrim Henum Hin Hne. unfold Project.initial. rewrite Hin.
  unfold Project.cast, Project.castString. rewrite Hty, Htrim.
  unfold Project.check, Project.check_required, Project.check_enum. rewrite Henum.
  destruct (Project.required p) as [msg |]; [| reflexivity].
  destruct (Project.js_trim text) as [| c rest]; [congruence | reflexivity].
Qed.

Lemma acceptable_at engine (input : gmap string Value) p :
  Project.acceptable engine input = true ->
  In p Project.projectSchema ->
  match input !! Project.field p with
  | Some v => Project.accepts engine p v
  | None => true
  end = true.
Proof.
  unfold Project.acceptable. intros Hacc Hin.
  rewrite forallb_forall in Hacc. apply Hacc. exact Hin.
Qed.

Lemma forallb_agree {A : Type} (f g : A -> bool) l :
  (forall x, In x l -> f x = g x) -> forallb f l = forallb g l.
Proof.
  induction l as [| x l IH]; intros H; simpl; [reflexivity |].
  rewrite (H x) by (left; reflexivity). f_equal. apply IH.
  intros y Hy. apply H. right. exact Hy.
Qed.

Lemma acceptable_sanitize engine (input : gmap string Value) :
  Project.acceptable engine (Projects.sanitize input) = Project.acceptable engine input.
Proof.
  unfold Project.acceptable. apply forallb_agree. intros p Hin.
  rewrite sanitize_lookup_allowed by (apply allowed_field; exact Hin). reflexivity.
Qed.

(** A valid input that sets no timestamp gives a document, with the
    trimmed name and description, both timestamps at the time of the
    call, the version key at 0, and the defaults of the schema where the
    input is silent. *)
Lemma construct_valid engine now id (input : gmap string Value) n dsc :
  input !! "name" = Some (VText n) -> Project.js_trim n <> EmptyString ->
  input !! "description" = Some (VText dsc) -> Project.js_trim dsc <> EmptyString ->
  input !! "createdAt" = None -> input !! "updatedAt" = None ->
  Project.acceptable engine input = true ->
  exists doc,
    Project.construct engine now id input = inr doc
    /\ doc !! "_id" = Some (VText id)
    /\ doc !! "__v" = Some (VNumber 0)
    /\ doc !! "createdAt" = Some (VTime now)
    /\ doc !! "updatedAt" = Some (VTime now)
    /\ doc !! "name" = Some (VText (Project.js_trim n))
    /\ doc !! "description" = Some (VText (Project.js_trim dsc))
    /\ (input !! "status" = None -> doc !! "status" = Some (VText "planning"))
    /\ (input !! "technologies" = None -> doc !! "technologies" = Some (VTexts [])).
Proof.
  intros Hn Hn' Hd Hd' Hca Hua Hacc.
  assert (Hclean : concat (map (fun p => fst (Project.initial engine now input p))
                             (Project.projectSchema ++ Project.stamps)) = []).
  { rewrite map_app, concat_app, (stamps_unset engine now input Hca Hua), app_nil_r.
    apply concat_all_nil. intros p Hin.
    pose proof (acceptable_at engine input p Hacc Hin) as Hp.
    simpl in Hin.
    destruct Hin as [<- | [<- | [<- | [<- | [<- | [<- | [<- | [<- | []]]]]]]]].
    - rewrite (initial_required engine now input _ n); auto.
    - rewrite (initial_required engine now input _ dsc); auto.
    - apply initial_optional; auto.
    - apply initial_optional; auto.
    - apply initial_optional; auto.
    - apply initial_optional; auto.
    - apply initial_optional; auto.
    - apply initial_optional; auto. }
  set (g := fun p => snd (Project.initial engine now input p)).
  exists (<["_id" := VText id]>
           (<["__v" := VNumber 0]>
             (<["createdAt" := VTime now]>
               (<["updatedAt" := VTime now]>
                 (foldr (fun p d => Project.put (Project.field p) (g p) d)
                        ∅ Project.projectSchema))))).
  split.
  { unfold Project.construct. rewrite Hclean, (created_unset engine now input Hca).
    reflexivity. }
  assert (Hfield : forall p, In p Project.projectSchema ->
            foldr (fun p d => Project.put (Project.field p) (g p) d) ∅ Project.projectSchema
              !! Project.field p = g p).
  { intros p Hin.
    rewrite (puts_lookup_field g _ ∅ p schema_fields_distinct Hin).
    destruct (g p); [reflexivity | apply lookup_empty]. }
  split; [apply lookup_insert_eq |].
  split; [rewrite lookup_insert_ne by discriminate; apply lookup_insert_eq |].
  split; [rewrite !lookup_insert_ne by discriminate; apply lookup_insert_eq |].
  split; [rewrite !lookup_insert_ne by discriminate; apply lookup_insert_eq |].
  split.
  { rewrite !lookup_insert_ne by discriminate.
    pose proof (Hfield (Project.mkPath "name" Project.SString
                          (Some "Project name is required") true None Project.NoDefault))
      as H.
    cbn [Project.field] in H. rewrite H by (simpl; auto).
    unfold g. rewrite (initial_required engine now input _ n); auto. }
  split.
  { rewrite !lookup_insert_ne by discriminate.
    pose proof (Hfield (Project.mkPath "description" Project.SString
                          (Some "Project description is required") true None
                          Project.NoDefault)) as H.
    cbn [Project.field] in H. rewrite H by (simpl; auto 10).
    unfold g. rewrite (initial_required engine now input _ dsc); auto. }
  split.
  { intros Hs. rewrite !lookup_insert_ne by discriminate.
    pose proof (Hfield (Project.mkPath "status" Project.SString None false
                          (Some ["planning"; "in-progress"; "completed"; "on-hold"])
                          (Project.DefaultIs (VText "planning")))) as H.
    cbn [Project.field] in H. rewrite H by (simpl; auto 10).
    unfold g, Project.initial. cbn [Project.field]. rewrite Hs. reflexivity. }
  { intros Ht. rewrite !lookup_insert_ne by discriminate.
    pose proof (Hfield (Project.mkPath "technologies" Project.SStrings None false None
                          (Project.DefaultIs (VTexts [])))) as H.
    cbn [Project.field] in H. rewrite H by (simpl; auto 10).
    unfold g, Project.initial. cbn [Project.field]. rewrite Ht. reflexivity. }
Qed.

End Creation.

Section CreationRoute.

Import Http.

Lemma create_valid engine now (fields : gmap string Value) s doc :
  Project.construct engine now (Projects.objectId (Storage.issued s)) fields = inr doc ->
  Projects.create engine true now fields s
  = (inr doc,
     {| Storage.collection := Storage.collection s ++ [doc];
        Storage.issued := (Storage.issued s + 1)%N;
        Storage.calls := Storage.calls s ++ [Storage.CallCreate fields] |}).
Proof.
  intros Hc. unfold Projects.create, Projects.guarded.
  cbn [Storage.record Storage.issued Storage.collection Storage.calls].
  rewrite Hc. reflexivity.
Qed.

(** C6, as the code has it. With the database connected, a creation
    payload whose name and description are not empty after trimming, and
    whose supplied schema fields are accepted by the schema (in
    particular a status, when given, is one of the four enumerated
    values), is answered 201 with the record created: it is appended to
    the collection, carries the identifier the system assigned (24
    hexadecimal characters), [createdAt] and [updatedAt] are the same
    instant, the status is "planning" when none was given and the
    technologies are the empty sequence when none were given. *)
Theorem creation_applies_defaults
  (engine : Project.Engine) (cfg : Config.t) (d : Database.DatabaseManager) (now : Z)
  (env : Api.Probe) (limited : bool) (payload : gmap string Value) (n dsc : string) (s : Storage.t) :
  Database.isConnected d = true ->
  payload !! "name" = Some (VText n) -> Project.js_trim n <> EmptyString ->
  payload !! "description" = Some (VText dsc) -> Project.js_trim dsc <> EmptyString ->
  Project.acceptable engine payload = true ->
  let answer :=
    App.app cfg d now env limited (Projects.router engine d now)
      (App.request_of (App.Create payload)) s in
  exists doc,
    fst answer = Projects.succeeded_with 201 "Project created successfully" (DataDoc doc) None
    /\ status (fst answer) = 201
    /\ succeeded (json (fst answer)) = Some true
    /\ Storage.collection (snd answer) = Storage.collection s ++ [doc]
    /\ doc !! "_id" = Some (VText (Projects.objectId (Storage.issued s)))
    /\ Utils.isValidObjectId (Projects.objectId (Storage.issued s)) = true
    /\ doc !! "createdAt" = Some (VTime now)
    /\ doc !! "updatedAt" = doc !! "createdAt"
    /\ doc !! "name" = Some (VText (Project.js_trim n))
    /\ doc !! "description" = Some (VText (Project.js_trim dsc))
    /\ (payload !! "status" = None -> doc !! "status" = Some (VText "planning"))
    /\ (payload !! "technologies" = None -> doc !! "technologies" = Some (VTexts [])).
Proof.
  intros Hd Hn Hn' Hdsc Hdsc' Hacc answer.
  assert (Hlook : forall k, Projects.allowed k = true ->
            Projects.sanitize payload !! k = payload !! k)
    by (intros k Hk; apply sanitize_lookup_allowed; exact Hk).
  destruct (construct_valid engine now (Projects.objectId (Storage.issued s))
              (Projects.sanitize payload) n dsc)
    as (doc & Hc & Hid & Hv & Hca & Hua & Hname & Hdesc & Hstatus & Htech).
  { rewrite Hlook by reflexivity. exact Hn. }
  { exact Hn'. }
  { rewrite Hlook by reflexivity. exact Hdsc. }
  { exact Hdsc'. }
  { apply sanitize_lookup_dropped. reflexivity. }
  { apply sanitize_lookup_dropped. reflexivity. }
  { rewrite acceptable_sanitize. exact Hacc. }
  exists doc.
  assert (Hr : Projects.router engine d now (tl (tl (path (App.request_of (App.Create payload)))))
                 (App.request_of (App.Create payload)) s
               = (Normal (Some (Projects.succeeded_with 201 "Project created successfully"
                                  (DataDoc doc) None)),
                  {| Storage.collection := Storage.collection s ++ [doc];
                     Storage.issued := (Storage.issued s + 1)%N;
                     Storage.calls := Storage.calls s
                                      ++ [Storage.CallCreate (Projects.sanitize payload)] |})).
  { unfold App.request_of, Projects.router. cbn [path method tl body].
    unfold Projects.respond. rewrite Hd.
    rewrite (create_valid engine now (Projects.sanitize payload) s doc Hc). reflexivity. }
  subst answer.
  rewrite (app_project_route engine cfg d now env limited (App.Create payload) s _ _ Hd Hr).
  cbn [fst snd Storage.collection].
  split; [reflexivity |]. split; [reflexivity |]. split; [reflexivity |].
  split; [reflexivity |]. split; [exact Hid |]. split; [apply objectId_valid |].
  split; [exact Hca |]. split; [rewrite Hua, Hca; reflexivity |].
  split; [exact Hname |]. split; [exact Hdesc |].
  split.
  - intros H. apply Hstatus. rewrite Hlook by reflexivity. exact H.
  - intros H. apply Htech. rewrite Hlook by reflexivity. exact H.
Qed.

Lemma creation_applies_defaults_witness :
  Database.isConnected (Database.db Database.online) = true
  /\ App.p1 !! "name" = Some (VText "P1")
  /\ Project.js_trim "P1" <> EmptyString
  /\ App.p1 !! "description" = Some (VText "D1")
  /\ Project.js_trim "D1" <> EmptyString
  /\ Project.acceptable Project.unasked App.p1 = true
  /\ exists doc,
       fst (App.app Database.development (Database.db Database.online) 1000
              Api.answering false
              (Projects.router Project.unasked (Database.db Database.online) 1000)
              (App.request_of (App.Create App.p1)) Storage.empty)
       = Projects.succeeded_with 201 "Project created successfully" (DataDoc doc) None.
Proof.
  split; [reflexivity |]. split; [reflexivity |]. split; [discriminate |].
  split; [reflexivity |]. split; [discriminate |]. split; [reflexivity |].
  destruct (creation_applies_defaults Project.unasked Database.development
              (Database.db Database.online) 1000 Api.answering false App.p1 "P1" "D1" Storage.empty
              eq_refl eq_refl ltac:(discriminate) eq_refl ltac:(discriminate) eq_refl)
    as (doc & H & _).
  exists doc. exact H.
Defined.

(** C6 as stated fails: name and description are not empty after
    trimming, yet the status is none of the enumerated values; the request
    is answered 400 and nothing is stored. *)
Lemma creation_rejects_unknown_status :
  App.p1_bogus !! "name" = Some (VText "P1")
  /\ Project.js_trim "P1" = "P1"
  /\ App.p1_bogus !! "description" = Some (VText "D1")
  /\ Project.js_trim "D1" = "D1"
  /\ App.p1_bogus !! "status" = Some (VText "bogus")
  /\ fst (Projects.create Project.unasked true 1000 (Projects.sanitize App.p1_bogus)
            Storage.empty)
     = inl (Projects.ValidationFailure
              [("status", "`bogus` is not a valid enum value for path `status`.")])
  /\ status (fst (App.app Database.development (Database.db Database.online) 1000
                    Api.answering false
                    (Projects.router Project.unasked (Database.db Database.online) 1000)
                    (App.request_of (App.Create App.p1_bogus)) Storage.empty)) = 400
  /\ Storage.collection
       (snd (App.app Database.development (Database.db Database.online) 1000
               Api.answering false
               (Projects.router Project.unasked (Database.db Database.online) 1000)
               (App.request_of (App.Create App.p1_bogus)) Storage.empty)) = [].
Proof. repeat split; vm_compute; reflexivity. Qed.

End CreationRoute.

(** ** Updates and timestamps *)

Section Timestamps.

Import Http.

Lemma has_id_same id (doc doc' : gmap string Value) :
  doc' !! "_id" = doc !! "_id" -> Project.has_id id doc' = Project.has_id id doc.
Proof. intros H. unfold Project.has_id. rewrite H. reflexivity. Qed.

Lemma find_replace_first id doc doc' docs :
  find (Project.has_id id) docs = Some doc ->
  Project.has_id id doc' = true ->
  find (Project.has_id id) (Projects.replace_first id doc' docs) = Some doc'.
Proof.
  intros Hf Hid. induction docs as [| x rest IH]; simpl in *; [discriminate |].
  destruct (Project.has_id id x) eqn:Hx; simpl.
  - rewrite Hid. reflexivity.
  - rewrite Hx. apply IH. exact Hf.
Qed.

(** An accepted change of status alone. *)
Lemma amend_completed engine now (doc : gmap string Value) :
  exists doc',
    Project.amend engine now (Projects.sanitize App.completed) doc = inr doc'
    /\ doc' !! "updatedAt" = Some (VTime now)
    /\ doc' !! "status" = Some (VText "completed")
    /\ (forall k, k <> "status" -> k <> "updatedAt" -> doc' !! k = doc !! k).
Proof.
  assert (Hs : Projects.sanitize App.completed = App.completed).
  { unfold App.completed. apply map_eq. intros k.
    destruct (Projects.allowed k) eqn:Hk.
    - apply sanitize_lookup_allowed. exact Hk.
    - rewrite sanitize_lookup_dropped by exact Hk.
      rewrite lookup_insert_ne; [symmetry; apply lookup_empty |].
      intros <-. discriminate. }
  rewrite Hs.
  assert (Hlook : forall p, In p Project.projectSchema ->
            Project.revised engine App.completed p
            = if String.eqb (Project.field p) "status"
              then ([], Project.Assigned (VText "completed")) else ([], Project.Untouched)).
  { intros p Hin. simpl in Hin.
    destruct Hin as [<- | [<- | [<- | [<- | [<- | [<- | [<- | [<- | []]]]]]]]];
      reflexivity. }
  assert (Hclean : concat (map (fun p => fst (Project.revised engine App.completed p))
                             Project.projectSchema) = []).
  { apply concat_all_nil. intros p Hin. rewrite (Hlook p Hin).
    destruct (String.eqb (Project.field p) "status"); reflexivity. }
  set (g := fun p => snd (Project.revised engine App.completed p)).
  exists (<["updatedAt" := VTime now]>
           (foldr (fun p d => Project.apply (Project.field p) (g p) d)
                  doc Project.projectSchema)).
  split; [unfold Project.amend; rewrite Hclean; reflexivity |].
  split; [apply lookup_insert_eq |].
  split.
  - rewrite lookup_insert_ne by discriminate.
    pose proof (applies_lookup_field g Project.projectSchema doc
                  (Project.mkPath "status" Project.SString None false
                     (Some ["planning"; "in-progress"; "completed"; "on-hold"])
                     (Project.DefaultIs (VText "planning")))
                  schema_fields_distinct) as H.
    cbn [Project.field] in H. rewrite H by (simpl; auto 10). reflexivity.
  - intros k Hk Hu. rewrite lookup_insert_ne by congruence.
    assert (Hother : forall paths, (forall p, In p paths -> In p Project.projectSchema) ->
              foldr (fun p d => Project.apply (Project.field p) (g p) d) doc paths !! k
              = doc !! k).
    { induction paths as [| p ps IH]; intros Hsub; simpl; [reflexivity |].
      unfold Project.apply at 1. unfold g at 1.
      rewrite (Hlook p) by (apply Hsub; left; reflexivity).
      destruct (String.eqb_spec (Project.field p) "status") as [Heq | Hne]; simpl.
      - rewrite lookup_insert_ne by congruence.
        apply IH. intros q Hq. apply Hsub. right. exact Hq.
      - apply IH. intros q Hq. apply Hsub. right. exact Hq. }
    apply Hother. auto.
Qed.

End Timestamps.

Section UpdateRoute.

Import Http.

Lemma Forall_self {A : Type} (P : A -> Prop) (l : list A) :
  (forall x, In x l -> P x) -> Forall P l.
Proof. intros H. apply List.Forall_forall. exact H. Qed.

Lemma delete_collection engine d now id s :
  let s' := snd (Projects.router engine d now [id] (App.request_of (App.Delete id)) s) in
  Storage.collection s' = Storage.collection s
  \/ Storage.collection s' = Projects.remove_first id (Storage.collection s).
Proof.
  unfold Projects.router, App.request_of. cbn [method body]. unfold Projects.with_id.
  destruct (Utils.isValidObjectId id); [| left; reflexivity].
  rewrite respond_storage.
  unfold Projects.delete, Projects.guarded.
  destruct (Database.isConnected d); [| left; reflexivity].
  cbn [Storage.record Storage.issued Storage.collection].
  destruct (find (Project.has_id id) (Storage.collection s)) as [doc |];
    [right | left]; reflexivity.
Qed.

Lemma read_collection engine d now s :
  Storage.collection (snd (Projects.router engine d now [] (App.request_of App.GetAll) s))
  = Storage.collection s
  /\ forall id,
       Storage.collection
         (snd (Projects.router engine d now [id] (App.request_of (App.GetById id)) s))
       = Storage.collection s.
Proof.
  split.
  - unfold Projects.router, App.request_of. cbn [method body].
    rewrite respond_storage. unfold Projects.getAll, Projects.guarded.
    destruct (Database.isConnected d); reflexivity.
  - intros id. unfold Projects.router, App.request_of. cbn [method body].
    unfold Projects.with_id. destruct (Utils.isValidObjectId id); [| reflexivity].
    rewrite respond_storage. unfold Projects.getById, Projects.guarded.
    destruct (Database.isConnected d); [| reflexivity].
    cbn [Storage.record Storage.collection].
    destruct (find (Project.has_id id) (Storage.collection s)); reflexivity.
Qed.

(** Every route leaves a collection whose documents descend from the
    collection it found. *)
Lemma serve_descends engine d now r s :
  Forall (Project.descends engine now (Storage.collection s))
    (Storage.collection (snd (App.serve engine d now r s))).
Proof.
  assert (Hold : Forall (Project.descends engine now (Storage.collection s))
                  (Storage.collection s)).
  { apply Forall_self. intros x Hx. left. exact Hx. }
  destruct r as [| id | fields | id fields | id].
  - change (App.serve engine d now App.GetAll s)
      with (Projects.router engine d now [] (App.request_of App.GetAll) s).
    rewrite (proj1 (read_collection engine d now s)). exact Hold.
  - change (App.serve engine d now (App.GetById id) s)
      with (Projects.router engine d now [id] (App.request_of (App.GetById id)) s).
    rewrite (proj2 (read_collection engine d now s) id). exact Hold.
  - change (App.serve engine d now (App.Create fields) s)
      with (Projects.router engine d now [] (App.post fields) s).
    destruct (post_collection engine d now fields s) as [Hsame | (doc & Hc & Happ)].
    + rewrite Hsame. exact Hold.
    + rewrite Happ. apply Forall_app. split; [exact Hold |].
      constructor; [| constructor]. right. right.
      exists (Projects.objectId (Storage.issued s)), (Projects.sanitize fields).
      split; [apply sanitize_lookup_dropped; reflexivity | exact Hc].
  - change (App.serve engine d now (App.Update id fields) s)
      with (Projects.router engine d now [id] (App.put id fields) s).
    destruct (put_collection engine d now id fields s) as [Hsame | (doc & doc' & Hf & Ha & Hrep)].
    + rewrite Hsame. exact Hold.
    + rewrite Hrep.
      apply replace_first_Forall; [exact Hold |].
      right. left. exists doc, (Projects.sanitize fields).
      split; [| exact Ha]. apply find_some in Hf as [Hin _]. exact Hin.
  - change (App.serve engine d now (App.Delete id) s)
      with (Projects.router engine d now [id] (App.request_of (App.Delete id)) s).
    destruct (delete_collection engine d now id s) as [Hsame | Hrem].
    + rewrite Hsame. exact Hold.
    + rewrite Hrem. apply remove_first_Forall. exact Hold.
Qed.

Lemma amend_timestamps engine now (changes doc doc' : gmap string Value) :
  Project.amend engine now changes doc = inr doc' ->
  Project.same_record doc doc' /\ doc' !! "updatedAt" = Some (VTime now).
Proof.
  intros Ha.
  pose proof schema_not_managed as Hm.
  inversion Hm as [| ? ? Hid Hm1]; subst.
  inversion Hm1 as [| ? ? _ Hm2]; subst.
  inversion Hm2 as [| ? ? Hcreated _]; subst.
  split; [split |].
  - apply (amend_lookup_other engine now changes doc "_id" doc' Hid); [discriminate | exact Ha].
  - apply (amend_lookup_other engine now changes doc "createdAt" doc' Hcreated);
      [discriminate | exact Ha].
  - apply amend_inr in Ha as [_ ->]. apply lookup_insert_eq.
Qed.

Lemma construct_timestamps engine now id (input doc : gmap string Value) :
  input !! "createdAt" = None ->
  Project.construct engine now id input = inr doc ->
  doc !! "createdAt" = Some (VTime now) /\ doc !! "updatedAt" = Some (VTime now).
Proof.
  intros Hu Hc. apply construct_inr in Hc as [_ ->].
  rewrite (created_unset engine now input Hu). split.
  - rewrite !lookup_insert_ne by discriminate. apply lookup_insert_eq.
  - rewrite !lookup_insert_ne by discriminate. apply lookup_insert_eq.
Qed.

(** C8, as the code has it. Whatever the route, a record of the
    collection afterwards is a record of the collection before with the
    same identifier and the same [createdAt], or a record created by this
    request with both timestamps at its time; and when the clock has not
    gone backwards, [createdAt] stays at or before [updatedAt].  An update
    [{status: "completed"}] of an existing record, with the database
    connected, is answered 200 with the record updated: [createdAt] is
    unchanged, the status is "completed", [updatedAt] is the time of the
    update, every other field is unchanged, and [updatedAt] is strictly
    greater than before exactly when the update is made at a later
    reading of the clock. *)
Theorem update_refreshes_updatedAt
  (engine : Project.Engine) (cfg : Config.t) (d : Database.DatabaseManager) (now : Z)
  (env : Api.Probe) (limited : bool) (id : string) (s : Storage.t) (doc : gmap string Value) :
  (forall r,
     Forall (fun doc' =>
               (exists doc0, In doc0 (Storage.collection s) /\ Project.same_record doc0 doc')
               \/ (doc' !! "createdAt" = Some (VTime now)
                   /\ doc' !! "updatedAt" = Some (VTime now)))
       (Storage.collection (snd (App.serve engine d now r s))))
  /\ (forall r clock,
        clock <= now ->
        Forall (Project.timely clock) (Storage.collection s) ->
        Forall (Project.timely now) (Storage.collection (snd (App.serve engine d now r s))))
  /\ (Database.isConnected d = true ->
      Utils.isValidObjectId id = true ->
      find (Project.has_id id) (Storage.collection s) = Some doc ->
      let answer :=
        App.app cfg d now env limited (Projects.router engine d now)
          (App.request_of (App.Update id App.completed)) s in
      exists doc',
        fst answer
        = Projects.succeeded_with 200 "Project updated successfully" (DataDoc doc') None
        /\ find (Project.has_id id) (Storage.collection (snd answer)) = Some doc'
        /\ doc' !! "createdAt" = doc !! "createdAt"
        /\ doc' !! "updatedAt" = Some (VTime now)
        /\ doc' !! "status" = Some (VText "completed")
        /\ (forall k, k <> "status" -> k <> "updatedAt" -> doc' !! k = doc !! k)
        /\ (forall u, doc !! "updatedAt" = Some (VTime u) ->
            (Project.refreshed doc doc' <-> u < now))).
Proof.
  split; [| split].
  - intros r. eapply List.Forall_impl; [| apply serve_descends].
    intros doc' [Hin | [(doc0 & changes & Hin & Ha) | (id0 & input & Hfree & Hc)]].
    + left. exists doc'. split; [exact Hin | split; reflexivity].
    + left. exists doc0. split; [exact Hin |].
      apply (amend_timestamps engine now changes doc0 doc' Ha).
    + right. apply (construct_timestamps engine now id0 input doc' Hfree Hc).
  - intros r clock Hclock Hall.
    rewrite List.Forall_forall in Hall.
    eapply List.Forall_impl; [| apply serve_descends].
    intros doc' [Hin | [(doc0 & changes & Hin & Ha) | (id0 & input & Hfree & Hc)]].
    + destruct (Hall doc' Hin) as (c & u & Hc & Hu & Hcu & Hcl).
      exists c, u. repeat split; try assumption. lia.
    + destruct (Hall doc0 Hin) as (c & u & Hc & Hu & Hcu & Hcl).
      destruct (amend_timestamps engine now changes doc0 doc' Ha) as [[_ Hsame] Hnow].
      exists c, now. rewrite Hsame. repeat split; try assumption; lia.
    + destruct (construct_timestamps engine now id0 input doc' Hfree Hc) as [Hca Hua].
      exists now, now. repeat split; try assumption; lia.
  - intros Hd Hid Hf answer.
    destruct (amend_completed engine now doc) as (doc' & Ha & Hu & Hst & Hframe).
    exists doc'.
    assert (Hid' : Project.has_id id doc' = true).
    { rewrite (has_id_same id doc doc') by (apply Hframe; discriminate).
      apply find_some in Hf as [_ H]. exact H. }
    assert (Hr : Projects.router engine d now
                   (tl (tl (path (App.request_of (App.Update id App.completed)))))
                   (App.request_of (App.Update id App.completed)) s
                 = (Normal (Some (Projects.succeeded_with 200 "Project updated successfully"
                                    (DataDoc doc') None)),
                    {| Storage.collection :=
                         Projects.replace_first id doc' (Storage.collection s);
                       Storage.issued := Storage.issued s;
                       Storage.calls :=
                         Storage.calls s
                         ++ [Storage.CallUpdate id (Projects.sanitize App.completed)] |})).
    { unfold App.request_of, Projects.router. cbn [path method tl body].
      unfold Projects.with_id. rewrite Hid.
      unfold Projects.respond, Projects.update, Projects.guarded. rewrite Hd.
      cbn [Storage.record Storage.issued Storage.collection Storage.calls].
      rewrite Hf, Ha. reflexivity. }
    subst answer.
    rewrite (app_project_route engine cfg d now env limited (App.Update id App.completed)
               s _ _ Hd Hr).
    cbn [fst snd Storage.collection].
    split; [reflexivity |].
    split; [apply (find_replace_first id doc doc' _ Hf Hid') |].
    split; [apply Hframe; discriminate |].
    split; [exact Hu |]. split; [exact Hst |]. split; [exact Hframe |].
    intros u Hold. split.
    + intros (u0 & u' & H0 & H' & Hlt). congruence.
    + intros Hlt. exists u, now. auto.
Qed.

End UpdateRoute.

Section UpdateExamples.

Import Http.

Lemma p1_record_found :
  find (Project.has_id App.first_id) (Storage.collection App.after_p1)
  = Some App.p1_record.
Proof. vm_compute. reflexivity. Qed.

Lemma update_refreshes_updatedAt_witness :
  Database.isConnected (Database.db Database.online) = true
  /\ Utils.isValidObjectId App.first_id = true
  /\ find (Project.has_id App.first_id) (Storage.collection App.after_p1)
     = Some App.p1_record
  /\ exists doc',
       fst (App.app Database.development (Database.db Database.online) 2000
              Api.answering false
              (Projects.router Project.unasked (Database.db Database.online) 2000)
              (App.request_of (App.Update App.first_id App.completed)) App.after_p1)
       = Projects.succeeded_with 200 "Project updated successfully" (DataDoc doc') None
       /\ doc' !! "createdAt" = App.p1_record !! "createdAt".
Proof.
  split; [vm_compute; reflexivity |]. split; [vm_compute; reflexivity |].
  split; [exact p1_record_found |].
  destruct (proj2 (proj2 (update_refreshes_updatedAt Project.unasked Database.development
                            (Database.db Database.online) 2000 Api.answering false
                            App.first_id App.after_p1 App.p1_record))
              ltac:(vm_compute; reflexivity) ltac:(vm_compute; reflexivity)
              p1_record_found)
    as (doc' & Hres & _ & Hcreated & _).
  exists doc'. split; [exact Hres | exact Hcreated].
Defined.

(** C8 as stated fails: an update made at the clock reading of the last
    write (here the creation, at 1000) leaves [updatedAt] where it was. *)
Lemma update_same_instant_not_later :
  find (Project.has_id App.first_id) (Storage.collection App.after_p1)
  = Some App.p1_record
  /\ find (Project.has_id App.first_id)
       (Storage.collection
          (snd (App.app Database.development (Database.db Database.online) 1000
                  Api.answering false
                  (Projects.router Project.unasked (Database.db Database.online) 1000)
                  (App.request_of (App.Update App.first_id App.completed))
                  App.after_p1))) = Some App.p1_completed
  /\ App.p1_record !! "updatedAt" = Some (VTime 1000)
  /\ App.p1_completed !! "updatedAt" = Some (VTime 1000)
  /\ App.p1_completed !! "status" = Some (VText "completed")
  /\ ~ Project.refreshed App.p1_record App.p1_completed.
Proof.
  split; [exact p1_record_found |].
  split; [vm_compute; reflexivity |].
  split; [vm_compute; reflexivity |].
  split; [vm_compute; reflexivity |].
  split; [vm_compute; reflexivity |].
  intros (u & u' & Hu & Hu' & Hlt).
  vm_compute in Hu. vm_compute in Hu'.
  injection Hu as <-. injection Hu' as <-. lia.
Qed.

End UpdateExamples.

(** * Further properties *)

(** ** Configuration *)

Section ConfigurationFacts.

Import Js.

Lemma or_else_truthy a b : truthy b = true -> truthy (or_else a b) = true.
Proof. intros Hb. unfold or_else. destruct (truthy a) eqn:Ha; assumption. Qed.

Lemma validateConfig_total (env : Settings.Environment) :
  Settings.validateConfig (Settings.config env) = Normal tt.
Proof.
  unfold Settings.validateConfig, Settings.required, Settings.validate_keys.
  assert (Hport : Settings.walk (Settings.config env) (split_dots "server.port")
                  = Normal (or_else (variable (Settings.PORT env)) (JNumber 3000)))
    by reflexivity.
  assert (Huri : Settings.walk (Settings.config env) (split_dots "database.uri")
                 = Normal (or_else (variable (Settings.MONGODB_URI env))
                             (JString "mongodb://localhost:27017/renderapis")))
    by reflexivity.
  rewrite Hport, Huri.
  rewrite !or_else_truthy by reflexivity. reflexivity.
Qed.

(** X1. Whatever the environment holds, [validateConfig] returns
    normally on the configuration built from it: the port and the
    database URI fall back to defaults that are never empty, so the
    "Missing required configuration" error cannot be raised; and on an
    object that lacks one of the two keys, or holds an empty value there,
    it throws that error. *)
Theorem validateConfig_never_throws (env : Settings.Environment) :
  Settings.validateConfig (Settings.config env) = Normal tt
  /\ (forall cfg value,
        Settings.walk cfg ["server"; "port"] = Normal value ->
        truthy value = false ->
        Settings.validateConfig cfg = Throw (Settings.missing "server.port"))
  /\ (forall cfg port value,
        Settings.walk cfg ["server"; "port"] = Normal port ->
        truthy port = true ->
        Settings.walk cfg ["database"; "uri"] = Normal value ->
        truthy value = false ->
        Settings.validateConfig cfg = Throw (Settings.missing "database.uri")).
Proof.
  split; [apply validateConfig_total |].
  split.
  - intros cfg value Hw Hv.
    unfold Settings.validateConfig, Settings.required, Settings.validate_keys.
    change (split_dots "server.port") with ["server"; "port"].
    rewrite Hw, Hv. reflexivity.
  - intros cfg port value Hp Hpt Hw Hv.
    unfold Settings.validateConfig, Settings.required, Settings.validate_keys.
    change (split_dots "server.port") with ["server"; "port"].
    change (split_dots "database.uri") with ["database"; "uri"].
    rewrite Hp, Hpt, Hw, Hv. reflexivity.
Qed.

Lemma validateConfig_never_throws_witness :
  Settings.walk (JObject [("server", JObject [])]) ["server"; "port"] = Normal JUndefined
  /\ truthy JUndefined = false
  /\ Settings.validateConfig (JObject [("server", JObject [])])
     = Throw (Settings.missing "server.port").
Proof.
  split; [reflexivity |]. split; [reflexivity |].
  exact (proj1 (proj2 (validateConfig_never_throws Settings.bare))
           (JObject [("server", JObject [])]) JUndefined eq_refl eq_refl).
Defined.

(** X2. Two switches of the configuration cannot be turned off:
    [trustProxy] and the detailed health checks are [true] for every
    value of [TRUST_PROXY] and [HEALTH_DETAILED], set or not. *)
Theorem switches_always_on (env : Settings.Environment) :
  Settings.walk (Settings.config env) ["server"; "trustProxy"] = Normal (JBoolean true)
  /\ Config.detailedChecks (Settings.flags env) = true
  /\ forall NODE_ENV HEALTH_DETAILED,
       Config.detailedChecks (Config.load NODE_ENV HEALTH_DETAILED) = true.
Proof.
  split; [| split].
  - change (Settings.walk (Settings.config env) ["server"; "trustProxy"])
      with (Normal (or_else (JBoolean (is_text (variable (Settings.TRUST_PROXY env)) "true"))
                      (JBoolean true))).
    unfold or_else. simpl truthy.
    destruct (is_text (variable (Settings.TRUST_PROXY env)) "true"); reflexivity.
  - unfold Settings.flags, Config.load, Config.enableDetailedChecks. simpl.
    destruct (Settings.HEALTH_DETAILED env); [apply orb_true_r | reflexivity].
  - intros n h. unfold Config.load, Config.enableDetailedChecks. simpl.
    destruct h; [apply orb_true_r | reflexivity].
Qed.

(** X3. The mode flags exclude one another: at most one of
    [isDevelopment], [isProduction], [isTest] holds, and an unset or
    empty [NODE_ENV] means development.  The flag read from the
    configuration object is the one the rest of the code uses. *)
Theorem mode_flags_exclusive (env : Settings.Environment) :
  let cfg := Settings.flags env in
  (Config.isDevelopment cfg && Config.isProduction cfg = false)
  /\ (Config.isDevelopment cfg && Config.isTest cfg = false)
  /\ (Config.isProduction cfg && Config.isTest cfg = false)
  /\ (Settings.NODE_ENV env = None \/ Settings.NODE_ENV env = Some "" ->
      Config.isDevelopment cfg = true)
  /\ Settings.exported_flag (Settings.config env) "development"
     = Normal (Config.isDevelopment cfg)
  /\ Settings.exported_flag (Settings.config env) "production"
     = Normal (Config.isProduction cfg).
Proof.
  intros cfg. subst cfg.
  unfold Settings.flags, Config.load, Config.isDevelopment, Config.isProduction,
    Config.isTest. simpl Config.environment.
  set (e := Config.server_environment (Settings.NODE_ENV env)).
  assert (Hexp : forall mode,
            Settings.exported_flag (Settings.config env) mode = Normal (String.eqb e mode)).
  { intros mode. subst e. unfold Settings.exported_flag, Settings.config. simpl.
    unfold Config.server_environment, or_else, variable.
    destruct (Settings.NODE_ENV env) as [s |]; simpl; [| reflexivity].
    destruct (String.eqb s ""); reflexivity. }
  split; [| split; [| split; [| split; [| split]]]].
  - destruct (String.eqb_spec e "development") as [-> | _]; reflexivity.
  - destruct (String.eqb_spec e "development") as [-> | _]; reflexivity.
  - destruct (String.eqb_spec e "production") as [-> | _]; reflexivity.
  - subst e. intros [-> | ->]; reflexivity.
  - apply Hexp.
  - apply Hexp.
Qed.

Lemma mode_flags_exclusive_witness :
  (Settings.NODE_ENV Settings.bare = None \/ Settings.NODE_ENV Settings.bare = Some "")
  /\ Config.isDevelopment (Settings.flags Settings.bare) = true.
Proof.
  split; [left; reflexivity |].
  exact (proj1 (proj2 (proj2 (proj2 (mode_flags_exclusive Settings.bare))))
           (or_introl eq_refl)).
Defined.

(** X4. The helpers of the utilities read [NODE_ENV] without the default
    of the configuration: [isProduction] and [isTest] agree with the
    configuration flags for every environment, [isDevelopment] agrees
    except when [NODE_ENV] is unset or empty, where the configuration says
    development and the helper says no. *)
Theorem helper_modes_against_configuration (NODE_ENV HEALTH_DETAILED : option string) :
  let cfg := Config.load NODE_ENV HEALTH_DETAILED in
  Helpers.isProduction NODE_ENV = Config.isProduction cfg
  /\ Helpers.isTest NODE_ENV = Config.isTest cfg
  /\ (NODE_ENV <> None -> NODE_ENV <> Some "" ->
      Helpers.isDevelopment NODE_ENV = Config.isDevelopment cfg)
  /\ (NODE_ENV = None \/ NODE_ENV = Some "" ->
      Helpers.isDevelopment NODE_ENV = false /\ Config.isDevelopment cfg = true).
Proof.
  intros cfg. subst cfg.
  unfold Helpers.isProduction, Helpers.isTest, Helpers.isDevelopment,
    Config.isProduction, Config.isTest, Config.isDevelopment, Config.load,
    Config.server_environment, is_text, variable.
  simpl Config.environment.
  destruct NODE_ENV as [s |].
  - destruct (String.eqb_spec s "") as [-> | Hne].
    + split; [reflexivity |]. split; [reflexivity |].
      split; [intros _ Hs; congruence |]. intros _. split; reflexivity.
    + split; [reflexivity |]. split; [reflexivity |].
      split; [intros _ _; reflexivity |]. intros [Hs | Hs]; congruence.
  - split; [reflexivity |]. split; [reflexivity |].
    split; [intros Hs; congruence |]. intros _. split; reflexivity.
Qed.

Lemma helper_modes_against_configuration_witness :
  (Some "production" <> None :> option string)
  /\ Helpers.isDevelopment (Some "production")
     = Config.isDevelopment (Config.load (Some "production") None)
  /\ Helpers.isDevelopment None = false.
Proof.
  split; [discriminate |].
  split.
  - exact (proj1 (proj2 (proj2 (helper_modes_against_configuration
                                  (Some "production") None)))
             ltac:(discriminate) ltac:(discriminate)).
  - exact (proj1 (proj2 (proj2 (proj2 (helper_modes_against_configuration None None)))
                    (or_introl eq_refl))).
Defined.

End ConfigurationFacts.

(** ** The manager over whole runs *)

Section ManagerFacts.

Import Database.
Import Coherence.

Variable cfg : Config.t.

Lemma coherent_on_event ev w : coherent (db (on_event cfg ev w)).
Proof.
  destruct ev as [| msg | |]; simpl.
  - left. split; reflexivity.
  - right. split; [reflexivity | right; reflexivity].
  - match goal with |- context [if ?c then _ else _] => destruct c end.
    + match goal with |- context [scheduleReconnection ?x] =>
        destruct (scheduleReconnection_flags x) as [Hf Hs] end.
      right. rewrite Hf, Hs. split; [reflexivity | left; reflexivity].
    + right. split; [reflexivity | left; reflexivity].
  - left. split; reflexivity.
Qed.

Lemma coherent_deliver evs : forall w,
  coherent (db w) -> coherent (db (deliver cfg evs w)).
Proof.
  induction evs as [| ev evs IH]; intros w H; simpl; [exact H |].
  apply IH. apply coherent_on_event.
Qed.

Lemma coherent_connect o w :
  coherent (db w) -> coherent (db (snd (connect cfg o w))).
Proof.
  intros H. destruct (settled o) as [[] | e] eqn:Hs.
  - assert (Hw : db (snd (connect cfg o w)) = db (at_catch cfg o w)).
    { unfold at_catch. step_manager. rewrite Hs. reflexivity. }
    rewrite Hw. unfold at_catch. apply coherent_deliver. exact H.
  - destruct (connect_rejected_shape cfg o w e Hs) as (Hc & Hst & _).
    right. split; [exact Hc | right; exact Hst].
Qed.

Lemma coherent_disconnect o w :
  coherent (db w) -> coherent (db (snd (disconnect cfg o w))).
Proof.
  intros H. destruct (disconnect_world cfg o w) as [m ->].
  apply (coherent_deliver (emitted o) w H).
Qed.

Lemma coherent_tick l t :
  coherent (db (world l)) -> coherent (db (world (tick cfg l t))).
Proof.
  intros H. destruct t as [o | o | ev]; simpl.
  - apply coherent_connect. exact H.
  - destruct (timers (world l)); [exact H |]. apply coherent_connect. exact H.
  - apply coherent_on_event.
Qed.

(** X5. Along every run of the event loop from a fresh manager (calls
    of [connect], timers firing, driver events, successes as well as
    failures) and after any [disconnect], the connected flag is true
    exactly when the state is "connected", and the state is never
    anything but "disconnected", "connected" or "error". *)
Theorem manager_state_coherent (ts : list Tick) (o : DriverOutcome) :
  let w := world (run cfg ts boot) in
  coherent (db w)
  /\ coherent (db (snd (disconnect cfg o w)))
  /\ (isConnected (db w) = true <-> connectionState (db w) = "connected").
Proof.
  intros w.
  assert (H : coherent (db w)).
  { subst w. unfold run.
    assert (Hgen : forall l, coherent (db (world l)) ->
              coherent (db (world (fold_left (tick cfg) ts l)))).
    { induction ts as [| t ts' IH]; intros l Hl; simpl; [exact Hl |].
      apply IH. apply coherent_tick. exact Hl. }
    apply Hgen. right. split; [reflexivity | left; reflexivity]. }
  split; [exact H |]. split; [apply coherent_disconnect; exact H |].
  destruct H as [[Hf Hs] | [Hf [Hs | Hs]]]; rewrite Hf, Hs; split;
    intros; try reflexivity; discriminate.
Qed.

Lemma development_not_production :
  Config.isDevelopment cfg = true -> Config.isProduction cfg = false.
Proof.
  unfold Config.isDevelopment, Config.isProduction. intros H.
  apply String.eqb_eq in H. rewrite H. reflexivity.
Qed.

Lemma idle_on_event ev w :
  Config.isDevelopment cfg = true -> idle w -> idle (on_event cfg ev w).
Proof.
  intros Hdev [Ht Ha]. destruct ev as [| msg | |]; simpl.
  - split; [exact Ht | reflexivity].
  - split; assumption.
  - rewrite (development_not_production Hdev). simpl. split; assumption.
  - split; assumption.
Qed.

Lemma idle_deliver evs : forall w,
  Config.isDevelopment cfg = true -> idle w -> idle (deliver cfg evs w).
Proof.
  induction evs as [| ev evs IH]; intros w Hdev H; simpl; [exact H |].
  apply IH; [exact Hdev |]. apply idle_on_event; assumption.
Qed.

Lemma idle_connect o w :
  Config.isDevelopment cfg = true -> idle w -> idle (snd (connect cfg o w)).
Proof.
  intros Hdev H.
  assert (Hc : idle (at_catch cfg o w)).
  { unfold at_catch. apply idle_deliver; [exact Hdev |]. exact H. }
  destruct (settled o) as [[] | e] eqn:Hs.
  - assert (Hw : snd (connect cfg o w) = log LogDatabaseUri (at_catch cfg o w)).
    { unfold at_catch. step_manager. rewrite Hs. reflexivity. }
    rewrite Hw. exact Hc.
  - destruct (connect_rejected_shape cfg o w e Hs) as (_ & _ & Ht & Ha).
    rewrite Hdev in Ht, Ha. simpl in Ht, Ha.
    destruct Hc as [Hct Hca].
    split; [rewrite Ht, Hct; reflexivity | rewrite Ha, Hca; reflexivity].
Qed.

(** X6. In development mode the manager never retries: along every run
    from a fresh manager, whatever fails and whatever the driver emits,
    no reconnection is ever pending, no timer ever calls [connect], and
    the attempt counter stays at 0; a [disconnect] changes nothing of
    that. *)
Theorem development_never_retries (ts : list Tick) (o : DriverOutcome) :
  Config.isDevelopment cfg = true ->
  let l := run cfg ts boot in
  timers (world l) = []
  /\ retried l = 0%nat
  /\ connectionAttempts (db (world l)) = 0
  /\ timers (snd (disconnect cfg o (world l))) = [].
Proof.
  intros Hdev l.
  assert (Hgen : forall l0, idle (world l0) ->
            idle (world (fold_left (tick cfg) ts l0))
            /\ retried (fold_left (tick cfg) ts l0) = retried l0).
  { induction ts as [| t ts' IH]; intros l0 Hl; simpl; [split; [exact Hl | reflexivity] |].
    assert (Hstep : idle (world (tick cfg l0 t)) /\ retried (tick cfg l0 t) = retried l0).
    { destruct t as [o' | o' | ev]; simpl.
      - split; [apply idle_connect; assumption | reflexivity].
      - destruct Hl as [Ht Ha]. rewrite Ht. split; [split; assumption | reflexivity].
      - split; [apply idle_on_event; assumption | reflexivity]. }
    destruct Hstep as [Hi Hr]. destruct (IH _ Hi) as [Hi' Hr'].
    split; [exact Hi' | congruence]. }
  destruct (Hgen boot) as [[Ht Ha] Hr]; [split; reflexivity |].
  fold (run cfg ts boot) in Ht, Ha, Hr. fold l in Ht, Ha, Hr.
  split; [exact Ht |]. split; [exact Hr |]. split; [exact Ha |].
  destruct (disconnect_world cfg o (world l)) as [m ->].
  change (timers (deliver cfg (emitted o) (world l)) = []).
  apply (idle_deliver (emitted o) (world l) Hdev). split; assumption.
Qed.

(** X7. A ['disconnected'] event schedules a reconnection exactly when
    the environment is "production" and the attempt counter is below the
    maximum; it then counts one more attempt and defers [connect] by the
    retry delay.  The handler does not tell a lost link from a requested
    close: a [disconnect] whose close emits the event leaves the same
    pending reconnection. *)
Theorem disconnected_event_reconnects (w : World) (o : DriverOutcome) :
  let w' := on_event cfg EvDisconnected w in
  let go := Config.isProduction cfg && (connectionAttempts (db w) <? maxRetries (db w)) in
  timers w' = timers w
              ++ (if go then [{| delay := retryDelay (db w); callback := CbConnect |}] else [])
  /\ connectionAttempts (db w') = connectionAttempts (db w) + (if go then 1 else 0)
  /\ (emitted o = [EvDisconnected] ->
      timers (snd (disconnect cfg o w)) = timers w'
      /\ db (snd (disconnect cfg o w)) = db w').
Proof.
  intros w' go. subst w' go. simpl on_event.
  set (w1 := log LogDisconnected
               (update (fun d => set_connectionState "disconnected"
                                   (set_isConnected false d)) w)).
  change (connectionAttempts (db w1)) with (connectionAttempts (db w)).
  change (maxRetries (db w1)) with (maxRetries (db w)).
  assert (Hmain :
    timers (if Config.isProduction cfg
               && (connectionAttempts (db w) <? maxRetries (db w))
            then scheduleReconnection w1 else w1)
    = timers w
      ++ (if Config.isProduction cfg
             && (connectionAttempts (db w) <? maxRetries (db w))
          then [{| delay := retryDelay (db w); callback := CbConnect |}] else [])
    /\ connectionAttempts
         (db (if Config.isProduction cfg
                 && (connectionAttempts (db w) <? maxRetries (db w))
              then scheduleReconnection w1 else w1))
       = connectionAttempts (db w)
         + (if Config.isProduction cfg
               && (connectionAttempts (db w) <? maxRetries (db w))
            then 1 else 0)).
  { destruct (Config.isProduction cfg); simpl.
    - destruct (Z.ltb_spec (connectionAttempts (db w)) (maxRetries (db w))) as [Hlt | Hge].
      + destruct (scheduleReconnection_below w1 Hlt) as [Ha Ht].
        rewrite Ha, Ht. split; reflexivity.
      + split; [symmetry; apply app_nil_r | symmetry; apply Z.add_0_r].
    - split; [symmetry; apply app_nil_r | symmetry; apply Z.add_0_r]. }
  destruct Hmain as [Ht Ha].
  split; [exact Ht |]. split; [exact Ha |].
  intros Hev. destruct (disconnect_world cfg o w) as [m ->]. rewrite Hev.
  split; reflexivity.
Qed.

End ManagerFacts.

Lemma development_never_retries_witness :
  Config.isDevelopment Database.development = true
  /\ Database.timers
       (Database.world (Database.run Database.development Database.six_failures
                          Database.boot)) = [].
Proof.
  split; [reflexivity |].
  exact (proj1 (development_never_retries Database.development Database.six_failures
                  Database.silent eq_refl)).
Defined.

Lemma disconnected_event_reconnects_witness :
  Database.emitted Database.closing = [Database.EvDisconnected]
  /\ Database.timers (snd (Database.disconnect Database.production Database.closing
                             Database.online))
     = Database.timers (Database.on_event Database.production Database.EvDisconnected
                          Database.online).
Proof.
  split; [reflexivity |].
  exact (proj1 (proj2 (proj2 (disconnected_event_reconnects Database.production
                                Database.online Database.closing)) eq_refl)).
Defined.

(** ** Start and shutdown *)

Section LifecycleFacts.

Import Database.
Import Lifecycle.

Lemma disconnect_returns cfg o w : fst (disconnect cfg o w) = Normal tt.
Proof. step_manager. destruct (settled o) as [[] | e]; reflexivity. Qed.

(** X8. [gracefulShutdown] always ends the process with code 0: since
    [disconnect] swallows every close error, the branch that exits with
    code 1 is never taken, whatever the signal (an uncaught exception
    included), the state of the manager and the answer of the driver. *)
Theorem gracefulShutdown_exits_zero
  (cfg : Config.t) (signal : string) (o : DriverOutcome) (p : Process) :
  fst (gracefulShutdown cfg signal o p) = 0
  /\ manager (snd (gracefulShutdown cfg signal o p)) = snd (disconnect cfg o (manager p))
  /\ output (snd (gracefulShutdown cfg signal o p))
     = output p ++ [MsgReceived signal; MsgShutdownCompleted].
Proof.
  unfold gracefulShutdown. cbn [say manager].
  pose proof (disconnect_returns cfg o (manager p)) as Hr.
  destruct (disconnect cfg o (manager p)) as [[[] | e] w]; simpl in Hr; [| discriminate].
  cbn [say with_manager manager output fst snd].
  split; [reflexivity |]. split; [reflexivity |].
  rewrite <- app_assoc. reflexivity.
Qed.

(** X9. [initializeApp] returns the application for every environment
    and every answer of the driver: a database that cannot be reached
    does not stop the start, the configuration is always valid, and the
    four process events are listened to afterwards.  The manager is what
    [connect] left. *)
Theorem initializeApp_always_starts
  (env : Settings.Environment) (o : DriverOutcome) (p : Process) :
  let started := initializeApp env o p in
  fst started = Normal (App.app (Settings.flags env))
  /\ manager (snd started) = snd (connect (Settings.flags env) o (manager p))
  /\ listening (snd started)
     = listening p ++ ["SIGTERM"; "SIGINT"; "uncaughtException"; "unhandledRejection"]
  /\ (is_throw (settled o) = true ->
      isConnected (db (manager (snd started))) = false).
Proof.
  intros started. subst started. unfold initializeApp. cbn [say manager].
  pose proof (connect_returns (Settings.flags env) o (manager p)) as Hr.
  destruct (connect (Settings.flags env) o (manager p)) as [[[] | e] w] eqn:Hc;
    simpl in Hr; [| discriminate].
  unfold createApp. rewrite validateConfig_total. simpl.
  split; [reflexivity |]. split; [reflexivity |]. split; [reflexivity |].
  intros Hthrow. destruct (settled o) as [u | e] eqn:Hs; [discriminate |].
  destruct (connect_rejected_shape (Settings.flags env) o (manager p) e Hs) as (Hflag & _).
  rewrite Hc in Hflag. exact Hflag.
Qed.

Lemma initializeApp_always_starts_witness :
  is_throw (settled rejection) = true
  /\ isConnected (db (manager (snd (initializeApp Settings.bare rejection started)))) = false.
Proof.
  split; [reflexivity |].
  exact (proj2 (proj2 (proj2 (initializeApp_always_starts Settings.bare rejection started)))
           eq_refl).
Defined.

End LifecycleFacts.

(** ** Answers of the application *)

Section AnswerFacts.

Import Http Limiting.

(** X10. The error handler discloses the message and the stack of an
    error exactly in development mode: outside it the envelope carries
    neither, whatever the error.  The list of details is given for a
    ["ValidationError"] alone, and is the messages of its failed
    validators in order. *)
Theorem errorHandler_discloses_in_development
  (cfg : Config.t) (now : Z) (err : JsError) (req : Request) :
  exists e,
    json (Middleware.errorHandler cfg now err req) = BEnvelope e
    /\ success e = false
    /\ timestamp e = Some now
    /\ data e = None
    /\ (Config.isDevelopment cfg = false -> error e = None /\ stack e = None)
    /\ (Config.isDevelopment cfg = true ->
        error e = Some (err_message err) /\ stack e = Some (err_stack err))
    /\ (err_name err = "ValidationError" -> details e = Some (map snd (err_errors err)))
    /\ (err_name err <> "ValidationError" -> details e = None).
Proof.
  unfold Middleware.errorHandler.
  destruct (String.eqb_spec (err_name err) "ValidationError") as [Hv | Hv];
    [| destruct (String.eqb (err_name err) "CastError");
       [| destruct (String.eqb (err_name err) "MongoError"
                    && match err_code err with Some c => c =? 11000 | None => false end)]];
    (eexists; split; [reflexivity |]);
    destruct (Config.isDevelopment cfg); cbn;
    repeat match goal with |- _ /\ _ => split end;
    try reflexivity; intros; try discriminate; try congruence;
    split; reflexivity.
Qed.

Lemma errorHandler_discloses_in_development_witness :
  Config.isDevelopment Database.production = false
  /\ exists e,
       json (Middleware.errorHandler Database.production 0 Database.refused
               (App.request_of App.GetAll)) = BEnvelope e
       /\ error e = None /\ stack e = None.
Proof.
  split; [reflexivity |].
  destruct (errorHandler_discloses_in_development Database.production 0 Database.refused
              (App.request_of App.GetAll)) as (e & Hj & _ & _ & _ & Hprod & _).
  exists e. split; [exact Hj |]. exact (Hprod eq_refl).
Defined.

Lemma use_limited_or_same cfg prefix r next_limited next_free :
  (forall req s, limited_or_same cfg req (next_limited req s) (next_free req s)) ->
  forall req s,
    limited_or_same cfg req (App.use prefix r next_limited req s)
      (App.use prefix r next_free req s).
Proof.
  intros Hnext req s. unfold App.use.
  destruct (App.below prefix (path req)) as [rel |]; [| apply Hnext].
  destruct (r rel req s) as [[[res |] | e] s'];
    [left; reflexivity | apply Hnext | left; reflexivity].
Qed.

Lemma rateLimiter_limited_or_same cfg req s :
  limited_or_same cfg req
    (App.use ["api"] (App.rateLimiter cfg true) (fun _ s1 => (Normal None, s1)) req s)
    (App.use ["api"] (App.rateLimiter cfg false) (fun _ s1 => (Normal None, s1)) req s).
Proof.
  unfold App.use, App.rateLimiter.
  destruct (App.below ["api"] (path req)) as [rel |] eqn:Hb; [| left; reflexivity].
  destruct (Config.isProduction cfg) eqn:Hp; cbn.
  - right. split; [exact Hp |]. split; [exists rel; exact Hb |].
    exists s. split; reflexivity.
  - left. reflexivity.
Qed.

(** X11. The rate limiter is mounted behind the routes, so it never
    stands between a caller and a route: with the caller over its limit
    the application answers as it does without, except for a request that
    no route answers, below [/api] and in production, which gets 429
    instead of the 404 of the not-found handler.  The storage is the same
    either way. *)
Theorem rate_limiter_only_replaces_not_found
  (cfg : Config.t) (d : Database.DatabaseManager) (now : Z) (env : Api.Probe)
  (projectRoutes : Storage.Router) (req : Request) (s : Storage.t) :
  let limited := App.app cfg d now env true projectRoutes req s in
  let free := App.app cfg d now env false projectRoutes req s in
  snd limited = snd free
  /\ (fst limited = fst free
      \/ (Config.isProduction cfg = true
          /\ (exists rel, App.below ["api"] (path req) = Some rel)
          /\ fst limited = {| status := 429; json := BLimited |}
          /\ fst free = Middleware.notFoundHandler now req)).
Proof.
  cbv zeta. unfold App.app, App.setupRoutes.
  pose proof (use_limited_or_same cfg [] (Api.router cfg d now env) _ _
                (use_limited_or_same cfg ["api"] (Api.router cfg d now env) _ _
                   (use_limited_or_same cfg ["api"; "projects"]
                      (App.gated d now projectRoutes) _ _
                      (rateLimiter_limited_or_same cfg))) req s) as H.
  destruct H as [-> | (Hp & Hrel & s' & -> & ->)].
  - split; [reflexivity | left; reflexivity].
  - split; [reflexivity |]. right.
    split; [exact Hp |]. split; [exact Hrel |]. split; reflexivity.
Qed.

Lemma use_passes prefix (r : Storage.Router) next req s :
  (forall rel, r rel req s = (Normal None, s)) ->
  App.use prefix r next req s = next req s.
Proof.
  intros Hr. unfold App.use.
  destruct (App.below prefix (path req)) as [rel |]; [| reflexivity].
  rewrite Hr. reflexivity.
Qed.

Lemma use_outside prefix (r : Storage.Router) next req s :
  App.below prefix (path req) = None ->
  App.use prefix r next req s = next req s.
Proof. intros H. unfold App.use. rewrite H. reflexivity. Qed.

(** X12. The system routes are [GET] routes: a [POST], [PUT], [DELETE]
    or [PATCH] request outside [/api/projects] is answered by no route.
    It gets the 404 of the not-found handler, or 429 when it is below
    [/api], in production, and the caller is over its limit; the storage
    is not touched, and neither the manager nor the driver is consulted. *)
Theorem unrouted_methods_find_nothing
  (cfg : Config.t) (d : Database.DatabaseManager) (now : Z) (env : Api.Probe)
  (limited : bool) (projectRoutes : Storage.Router) (req : Request) (s : Storage.t) :
  In (method req) [POST; PUT; DELETE; PATCH] ->
  App.below ["api"; "projects"] (path req) = None ->
  App.app cfg d now env limited projectRoutes req s
  = (match App.below ["api"] (path req) with
     | Some _ =>
         if Config.isProduction cfg && limited
         then {| status := 429; json := BLimited |}
         else Middleware.notFoundHandler now req
     | None => Middleware.notFoundHandler now req
     end, s).
Proof.
  intros Hm Hp.
  assert (Hr : forall rel, Api.router cfg d now env rel req s = (Normal None, s)).
  { intros rel. unfold Api.router.
    destruct (method req); try reflexivity; cbn in Hm; intuition discriminate. }
  unfold App.app, App.setupRoutes.
  rewrite (use_passes [] _ _ req s Hr), (use_passes ["api"] _ _ req s Hr),
    (use_outside ["api"; "projects"] _ _ req s Hp).
  unfold App.use, App.rateLimiter.
  destruct (App.below ["api"] (path req)) as [rel |]; [| reflexivity].
  destruct (Config.isProduction cfg && limited); reflexivity.
Qed.

Lemma unrouted_methods_find_nothing_witness :
  In POST [POST; PUT; DELETE; PATCH]
  /\ App.below ["api"; "projects"] ["api"; "health"] = None
  /\ App.app Database.production (Database.db Database.online) 0 Api.answering true
       (Projects.router Project.unasked (Database.db Database.online) 0)
       {| method := POST; path := ["api"; "health"]; body := ∅ |} Storage.empty
     = ({| status := 429; json := BLimited |}, Storage.empty).
Proof.
  split; [left; reflexivity |]. split; [reflexivity |].
  apply (unrouted_methods_find_nothing Database.production (Database.db Database.online) 0
           Api.answering true (Projects.router Project.unasked (Database.db Database.online) 0)
           {| method := POST; path := ["api"; "health"]; body := ∅ |} Storage.empty).
  - left. reflexivity.
  - reflexivity.
Defined.

(** X13. The health report never carries [statsError]: [getStats]
    catches what the driver throws, so the [catch] around it in the route
    is never entered.  The statistics are in the report exactly when the
    detailed checks are on and the manager is connected, and are then the
    six figures of the driver, or the message of the error it threw. *)
Theorem health_statistics_follow_connection
  (cfg : Config.t) (d : Database.DatabaseManager) (now : Z) (env : Api.Probe)
  (proc : ProcessInfo) :
  Api.runtime env = Normal proc ->
  exists h,
    Api.health cfg d now env = {| status := 200; json := BHealth h |}
    /\ statsError (database h) = None
    /\ (Config.detailedChecks cfg && Database.isConnected d = false ->
        stats (database h) = None)
    /\ (Config.detailedChecks cfg && Database.isConnected d = true ->
        stats (database h)
        = Some match Api.dbstats env with
               | Normal raw =>
                   Database.StatsFigures (Database.raw_collections raw)
                     (Database.raw_objects raw) (Database.raw_dataSize raw)
                     (Database.raw_storageSize raw) (Database.raw_indexes raw)
                     (Database.raw_indexSize raw)
               | Throw e => Database.StatsError (err_message e)
               end).
Proof.
  intros Hrun. unfold Api.health, Api.report. rewrite isHealthy_total, Hrun. cbn.
  destruct (Config.detailedChecks cfg) eqn:Hdc; cbn.
  - destruct (Database.isConnected d) eqn:Hc; cbn.
    + unfold Database.getStats. rewrite Hc. cbn.
      destruct (Api.dbstats env) as [raw | e]; cbn;
        (eexists; split; [reflexivity |]; cbn;
         split; [reflexivity |]; split; [discriminate | reflexivity]).
    + eexists; split; [reflexivity |]; cbn.
      split; [reflexivity |]. split; [reflexivity | discriminate].
  - eexists; split; [reflexivity |]; cbn.
    split; [reflexivity |]. split; [reflexivity | discriminate].
Qed.

Lemma health_statistics_follow_connection_witness :
  Api.runtime Api.answering = Normal (mkProcess "v18.17.0" "linux" "x64" 4242 "1h" [])
  /\ exists h,
       Api.health Database.production (Database.db Database.online) 0 Api.answering
       = {| status := 200; json := BHealth h |}
       /\ statsError (database h) = None.
Proof.
  split; [reflexivity |].
  destruct (health_statistics_follow_connection Database.production
              (Database.db Database.online) 0 Api.answering
              (mkProcess "v18.17.0" "linux" "x64" 4242 "1h" []) eq_refl)
    as (h & Hh & Hnone & _).
  exists h. split; [exact Hh | exact Hnone].
Defined.

End AnswerFacts.

(** ** The utilities *)

Section UtilityFacts.

Import Js Helpers.

(** X14. For a whole number of seconds that a JavaScript number holds
    exactly, the parts [formatUptime] prints are never empty and add up
    to the seconds again, days, hours, minutes and seconds each on its
    unit.  A part that is zero is left out, so every part printed is
    positive, except that zero seconds print as ["0s"]; hours stay below
    a day, minutes and seconds below their next unit. *)
Theorem formatUptime_recomposes (seconds : Z) :
  0 <= seconds <= 9007199254740991 ->
  uptime_parts seconds <> []
  /\ parts_seconds (uptime_parts seconds) = seconds
  /\ (0 < seconds -> Forall (fun part => 0 < fst part) (uptime_parts seconds))
  /\ (seconds = 0 -> formatUptime seconds = "0s")
  /\ Forall (fun part => snd part = "d"
                         \/ (snd part = "h" /\ fst part < 24)
                         \/ (snd part <> "h" /\ fst part < 60))
       (uptime_parts seconds).
Proof.
  intros [Hlo Hhi]. unfold uptime_parts, formatUptime.
  rewrite !Z.rem_mod_nonneg by lia.
  pose proof (Z.div_mod seconds 86400 ltac:(lia)) as Hd.
  pose proof (Z.mod_pos_bound seconds 86400 ltac:(lia)) as Hdb.
  pose proof (Z.div_mod (seconds mod 86400) 3600 ltac:(lia)) as Hh.
  pose proof (Z.mod_pos_bound (seconds mod 86400) 3600 ltac:(lia)) as Hhb.
  pose proof (Z.div_mod (seconds mod 3600) 60 ltac:(lia)) as Hm.
  pose proof (Z.mod_pos_bound (seconds mod 3600) 60 ltac:(lia)) as Hmb.
  pose proof (Z.div_mod seconds 3600 ltac:(lia)) as H3.
  pose proof (Z.mod_pos_bound seconds 3600 ltac:(lia)) as H3b.
  pose proof (Z.div_mod seconds 60 ltac:(lia)) as H6.
  pose proof (Z.mod_pos_bound seconds 60 ltac:(lia)) as H6b.
  pose proof (Z.div_pos seconds 86400 ltac:(lia) ltac:(lia)) as Hdp.
  pose proof (Z.div_pos (seconds mod 86400) 3600 ltac:(lia) ltac:(lia)) as Hhp.
  pose proof (Z.div_pos (seconds mod 3600) 60 ltac:(lia) ltac:(lia)) as Hmp.
  set (days := seconds / 86400) in *.
  set (r1 := seconds mod 86400) in *.
  set (hours := r1 / 3600) in *.
  set (r2 := r1 mod 3600) in *.
  set (r3 := seconds mod 3600) in *.
  set (minutes := r3 / 60) in *.
  set (r4 := r3 mod 60) in *.
  set (secs := seconds mod 60) in *.
  set (q3 := seconds / 3600) in *.
  set (q6 := seconds / 60) in *.
  assert (Hsum : 86400 * days + 3600 * hours + 60 * minutes + secs = seconds) by lia.
  assert (Hhours : hours < 24) by lia.
  assert (Hminutes : minutes < 60) by lia.
  destruct (days >? 0) eqn:Ed; destruct (hours >? 0) eqn:Eh;
    destruct (minutes >? 0) eqn:Em; destruct (secs >? 0) eqn:Es;
    cbn [app length Nat.eqb orb];
    (split; [discriminate |]);
    (split; [unfold parts_seconds, unit_seconds; cbn; lia |]);
    (split; [intros Hpos; repeat (constructor; cbn; try lia) |]);
    (split; [intros H0; try lia; rewrite H0; reflexivity |]);
    repeat (constructor;
            [cbn; first [ left; reflexivity
                        | right; left; split; [reflexivity | lia]
                        | right; right; split; [discriminate | lia] ] |]);
    constructor.
Qed.

Lemma formatUptime_recomposes_witness :
  0 <= 90061 <= 9007199254740991
  /\ parts_seconds (uptime_parts 90061) = 90061
  /\ formatUptime 90061 = "1d 1h 1m 1s".
Proof.
  split; [lia |].
  split; [exact (proj1 (proj2 (formatUptime_recomposes 90061 ltac:(lia)))) |].
  vm_compute. reflexivity.
Defined.

Lemma subsequence_nil s : subsequence s EmptyString -> s = EmptyString.
Proof. destruct s; [reflexivity | intros []]. Qed.

Lemma subsequence_skip s d t : subsequence s t -> subsequence s (String d t).
Proof. destruct s; [intros _; exact I | intros H; right; exact H]. Qed.

Lemma subsequence_refl s : subsequence s s.
Proof. induction s as [| c s IH]; [exact I | left; split; [reflexivity | exact IH]]. Qed.

Lemma subsequence_trans u : forall s t,
  subsequence s t -> subsequence t u -> subsequence s u.
Proof.
  induction u as [| e u IH]; intros s t Hst Htu.
  - apply subsequence_nil in Htu. subst t. exact Hst.
  - destruct s as [| c s]; [exact I |].
    destruct t as [| d t]; [destruct Hst |].
    destruct Htu as [[-> Htu] | Htu].
    + destruct Hst as [[-> Hst] | Hst].
      * left. split; [reflexivity | exact (IH _ _ Hst Htu)].
      * right. exact (IH _ _ Hst Htu).
    + right. exact (IH _ _ Hst Htu).
Qed.

Lemma subsequence_mentions c t : forall s,
  subsequence s t -> mentions c s = true -> mentions c t = true.
Proof.
  induction t as [| d t IH]; intros s Hst Hs.
  - apply subsequence_nil in Hst. subst s. discriminate.
  - destruct s as [| e s]; [discriminate |].
    cbn in Hs |- *. destruct Hst as [[-> Hst] | Hst].
    + destruct (Ascii.eqb c d); [reflexivity |]. cbn in Hs |- *. exact (IH _ Hst Hs).
    + rewrite (IH _ Hst); [apply orb_true_r |]. cbn. exact Hs.
Qed.

Lemma remove_angles_subsequence s : subsequence (remove_angles s) s.
Proof.
  induction s as [| c s IH]; [exact I |]. cbn.
  destruct (Ascii.eqb c "<" || Ascii.eqb c ">").
  - apply subsequence_skip. exact IH.
  - left. split; [reflexivity | exact IH].
Qed.

Lemma remove_angles_clean s :
  mentions "<" (remove_angles s) = false /\ mentions ">" (remove_angles s) = false.
Proof.
  induction s as [| c s [IH1 IH2]]; [split; reflexivity |]. cbn [remove_angles].
  destruct (Ascii.eqb c "<") eqn:E1; cbn [orb]; [split; assumption |].
  destruct (Ascii.eqb c ">") eqn:E2; cbn [orb]; [split; assumption |].
  cbn [mentions].
  rewrite (Ascii.eqb_sym "<" c), (Ascii.eqb_sym ">" c), E1, E2. split; assumption.
Qed.

Lemma remove_literal_subsequence pattern s : forall skip,
  subsequence (remove_literal pattern skip s) s.
Proof.
  induction s as [| c s IH]; intros skip; [exact I |].
  cbn [remove_literal]. destruct skip as [| k].
  - destruct (starts_with pattern (String c s)).
    + apply subsequence_skip. apply IH.
    + left. split; [reflexivity | apply IH].
  - apply subsequence_skip. apply IH.
Qed.

Lemma remove_handlers_subsequence s : forall skip,
  subsequence (remove_handlers skip s) s.
Proof.
  induction s as [| c s IH]; intros skip; [exact I |].
  cbn [remove_handlers]. destruct skip as [| k].
  - destruct (handler_match (String c s)).
    + apply subsequence_skip. apply IH.
    + left. split; [reflexivity | apply IH].
  - apply subsequence_skip. apply IH.
Qed.

(** Induction on a text by its tails: the recursive calls of the trim
    functions are one to three characters down. *)
Lemma string_tail_ind (P : string -> Prop) :
  (forall s, (forall t, (String.length t < String.length s)%nat -> P t) -> P s) ->
  forall s, P s.
Proof.
  intros Hstep s.
  assert (H : forall n t, (String.length t < n)%nat -> P t).
  { induction n as [| n IH]; intros t Ht; [lia |].
    apply Hstep. intros u Hu. apply IH. lia. }
  apply (H (S (String.length s))). lia.
Qed.


Lemma trim_start_cons a s1 :
  Project.trim_start (String a s1)
  = if Project.is_space a then Project.trim_start s1
    else
      match s1 with
      | EmptyString => String a s1
      | String b s2 =>
          if Project.is_space2 a b then Project.trim_start s2
          else
            match s2 with
            | EmptyString => String a s1
            | String c s3 =>
                if Project.is_space3 a b c then Project.trim_start s3 else String a s1
            end
      end.
Proof. destruct s1 as [| b [| c s3]]; reflexivity. Qed.

Lemma all_space_cons a s1 :
  Project.all_space (String a s1)
  = if Project.is_space a then Project.all_space s1
    else
      match s1 with
      | EmptyString => false
      | String b s2 =>
          if Project.is_space2 a b then Project.all_space s2
          else
            match s2 with
            | EmptyString => false
            | String c s3 => Project.is_space3 a b c && Project.all_space s3
            end
      end.
Proof. reflexivity. Qed.

Lemma trim_end_cons a s1 :
  Project.trim_end (String a s1)
  = if Project.all_space (String a s1) then EmptyString
    else String a (Project.trim_end s1).
Proof. reflexivity. Qed.

Lemma trim_start_subsequence s : subsequence (Project.trim_start s) s.
Proof.
  induction s as [s IH] using string_tail_ind.
  destruct s as [| a s1]; [exact I |]. rewrite trim_start_cons.
  destruct (Project.is_space a).
  { apply subsequence_skip. apply IH. simpl. lia. }
  destruct s1 as [| b s2]; [apply subsequence_refl |].
  destruct (Project.is_space2 a b).
  { do 2 apply subsequence_skip. apply IH. simpl. lia. }
  destruct s2 as [| c s3]; [apply subsequence_refl |].
  destruct (Project.is_space3 a b c); [| apply subsequence_refl].
  do 3 apply subsequence_skip. apply IH. simpl. lia.
Qed.

Lemma trim_end_subsequence s : subsequence (Project.trim_end s) s.
Proof.
  induction s as [| c s IH]; [exact I |].
  change (Project.trim_end (String c s))
    with (if Project.all_space (String c s) then EmptyString
          else String c (Project.trim_end s)).
  destruct (Project.all_space (String c s)); [exact I |].
  left. split; [reflexivity | exact IH].
Qed.

Lemma js_trim_subsequence s : subsequence (Project.js_trim s) s.
Proof.
  unfold Project.js_trim.
  exact (subsequence_trans _ _ _ (trim_end_subsequence _) (trim_start_subsequence _)).
Qed.

Lemma trim_start_fixed s : starts_with_space s = false -> Project.trim_start s = s.
Proof.
  destruct s as [| a s1]; [reflexivity |]. rewrite trim_start_cons.
  cbn [starts_with_space]. intros H.
  apply orb_false_elim in H as [Ha H]. rewrite Ha.
  destruct s1 as [| b s2]; [reflexivity |].
  apply orb_false_elim in H as [Hb H]. rewrite Hb.
  destruct s2 as [| c s3]; [reflexivity |]. rewrite H. reflexivity.
Qed.

Lemma trim_start_settled s : starts_with_space (Project.trim_start s) = false.
Proof.
  induction s as [s IH] using string_tail_ind.
  destruct s as [| a s1]; [reflexivity |]. rewrite trim_start_cons.
  destruct (Project.is_space a) eqn:Ha; [apply IH; simpl; lia |].
  destruct s1 as [| b s2]; [cbn [starts_with_space]; rewrite Ha; reflexivity |].
  destruct (Project.is_space2 a b) eqn:Hb; [apply IH; simpl; lia |].
  destruct s2 as [| c s3]; [cbn [starts_with_space]; rewrite Ha, Hb; reflexivity |].
  destruct (Project.is_space3 a b c) eqn:Hc; [apply IH; simpl; lia |].
  cbn [starts_with_space]. rewrite Ha, Hb, Hc. reflexivity.
Qed.

Lemma all_space_starts s :
  s <> EmptyString -> Project.all_space s = true -> starts_with_space s = true.
Proof.
  destruct s as [| a s1]; [congruence |]. intros _. rewrite all_space_cons. cbn [starts_with_space].
  destruct (Project.is_space a); [reflexivity |].
  destruct s1 as [| b s2]; [discriminate |].
  destruct (Project.is_space2 a b); [reflexivity |].
  destruct s2 as [| c s3]; [discriminate |].
  intros H. apply andb_prop in H as [H _]. rewrite H. reflexivity.
Qed.

Lemma all_space_app s : forall t,
  Project.all_space s = true -> Project.all_space t = true ->
  Project.all_space (String.append s t) = true.
Proof.
  induction s as [s IH] using string_tail_ind. intros t Hs Ht.
  destruct s as [| a s1]; [exact Ht |].
  rewrite all_space_cons in Hs.
  change (String.append (String a s1) t) with (String a (String.append s1 t)).
  rewrite all_space_cons.
  destruct (Project.is_space a) eqn:Ha.
  { apply IH; [simpl; lia | exact Hs | exact Ht]. }
  destruct s1 as [| b s2]; [discriminate |].
  change (String.append (String b s2) t) with (String b (String.append s2 t)).
  cbv iota.
  destruct (Project.is_space2 a b) eqn:Hb.
  { apply IH; [simpl; lia | exact Hs | exact Ht]. }
  destruct s2 as [| c s3]; [discriminate |].
  change (String.append (String c s3) t) with (String c (String.append s3 t)).
  cbv iota. apply andb_prop in Hs as [Hc Hs]. rewrite Hc. cbn [andb].
  apply IH; [simpl; lia | exact Hs | exact Ht].
Qed.

(** What [trim_end] cuts off is white space. *)
Lemma trim_end_split s :
  exists r, s = String.append (Project.trim_end s) r /\ Project.all_space r = true.
Proof.
  induction s as [| a s IH].
  - exists EmptyString. split; reflexivity.
  - change (Project.trim_end (String a s))
      with (if Project.all_space (String a s) then EmptyString
            else String a (Project.trim_end s)).
    destruct (Project.all_space (String a s)) eqn:Hall.
    + exists (String a s). split; [reflexivity | exact Hall].
    + destruct IH as (r & Hr & Hsp). exists r. split; [| exact Hsp].
      change (String a s = String a (String.append (Project.trim_end s) r)).
      rewrite <- Hr. reflexivity.
Qed.

Lemma trim_end_idempotent s :
  Project.trim_end (Project.trim_end s) = Project.trim_end s.
Proof.
  induction s as [| a s IH]; [reflexivity |].
  change (Project.trim_end (String a s))
    with (if Project.all_space (String a s) then EmptyString
          else String a (Project.trim_end s)).
  destruct (Project.all_space (String a s)) eqn:Hall; [reflexivity |].
  change (Project.trim_end (String a (Project.trim_end s)))
    with (if Project.all_space (String a (Project.trim_end s)) then EmptyString
          else String a (Project.trim_end (Project.trim_end s))).
  destruct (Project.all_space (String a (Project.trim_end s))) eqn:Hcut.
  - destruct (trim_end_split s) as (r & Hr & Hsp).
    pose proof (all_space_app _ r Hcut Hsp) as H.
    change (Project.all_space (String a (String.append (Project.trim_end s) r)) = true) in H.
    rewrite <- Hr in H. congruence.
  - rewrite IH. reflexivity.
Qed.

Lemma starts_with_space_app s r :
  starts_with_space s = true -> starts_with_space (String.append s r) = true.
Proof.
  destruct s as [| a s1]; [discriminate |].
  change (String.append (String a s1) r) with (String a (String.append s1 r)).
  cbn [starts_with_space]. destruct (Project.is_space a); [reflexivity |]. cbn [orb].
  destruct s1 as [| b s2]; [discriminate |].
  change (String.append (String b s2) r) with (String b (String.append s2 r)).
  cbv iota. destruct (Project.is_space2 a b); [reflexivity |]. cbn [orb].
  destruct s2 as [| c s3]; [discriminate |]. intros H. exact H.
Qed.

Lemma js_trim_idempotent s : Project.js_trim (Project.js_trim s) = Project.js_trim s.
Proof.
  unfold Project.js_trim.
  assert (Hhead : starts_with_space (Project.trim_end (Project.trim_start s)) = false).
  { destruct (starts_with_space (Project.trim_end (Project.trim_start s))) eqn:H; [| reflexivity].
    destruct (trim_end_split (Project.trim_start s)) as (r & Hr & _).
    pose proof (starts_with_space_app _ r H) as H'. rewrite <- Hr in H'.
    rewrite trim_start_settled in H'. discriminate. }
  rewrite (trim_start_fixed _ Hhead). apply trim_end_idempotent.
Qed.

(** X15. What [sanitizeInput] returns for a string of ASCII characters
    holds neither ['<'] nor ['>'], is made of characters of the input in
    their order (the function only ever removes), and has no white space
    at either end; what is not a string is returned as it is. *)
Theorem sanitizeInput_strips_markup (input : JsValue) :
  match input with
  | JString text =>
      exists clean,
        sanitizeInput input = JString clean
        /\ mentions "<" clean = false
        /\ mentions ">" clean = false
        /\ subsequence clean text
        /\ Project.js_trim clean = clean
  | other => sanitizeInput other = other
  end.
Proof.
  destruct input as [| | b | n | text | fields]; try reflexivity.
  cbn [sanitizeInput].
  set (a := remove_angles text).
  set (b := remove_literal "javascript:" 0 a).
  set (c := remove_handlers 0 b).
  exists (Project.js_trim c). split; [reflexivity |].
  assert (Hsub : subsequence (Project.js_trim c) a).
  { eapply subsequence_trans; [apply js_trim_subsequence |].
    eapply subsequence_trans; [apply remove_handlers_subsequence |].
    apply remove_literal_subsequence. }
  destruct (remove_angles_clean text) as [Hlt Hgt]. fold a in Hlt, Hgt.
  split; [| split; [| split]].
  - destruct (mentions "<" (Project.js_trim c)) eqn:E; [| reflexivity].
    rewrite (subsequence_mentions _ _ _ Hsub E) in Hlt. discriminate.
  - destruct (mentions ">" (Project.js_trim c)) eqn:E; [| reflexivity].
    rewrite (subsequence_mentions _ _ _ Hsub E) in Hgt. discriminate.
  - eapply subsequence_trans; [exact Hsub | apply remove_angles_subsequence].
  - apply js_trim_idempotent.
Qed.



Lemma charAt_chars draw :
  0 <= draw < 62 ->
  exists c, charAt chars draw = String c EmptyString /\ alphanumeric c = true.
Proof.
  intros Hd.
  assert (Hall : forallb (fun k => match charAt chars (Z.of_nat k) with
                                   | String c EmptyString => alphanumeric c
                                   | _ => false
                                   end) (seq 0 62) = true) by (vm_compute; reflexivity).
  rewrite forallb_forall in Hall.
  specialize (Hall (Z.to_nat draw)).
  rewrite Z2Nat.id in Hall by lia.
  assert (Hin : In (Z.to_nat draw) (seq 0 62)) by (apply in_seq; lia).
  specialize (Hall Hin).
  destruct (charAt chars draw) as [| c [| c' rest]]; try discriminate.
  exists c. split; [reflexivity | exact Hall].
Qed.

Lemma length_append s t :
  String.length (String.append s t) = (String.length s + String.length t)%nat.
Proof.
  induction s as [| c s IH]; [reflexivity |].
  change (S (String.length (String.append s t)) = S (String.length s + String.length t)).
  f_equal. exact IH.
Qed.

Lemma all_alphanumeric_append s t :
  all_alphanumeric (String.append s t) = all_alphanumeric s && all_alphanumeric t.
Proof.
  unfold all_alphanumeric. induction s as [| c s IH]; [reflexivity |].
  change (alphanumeric c && forallb alphanumeric (list_ascii_of_string (String.append s t))
          = alphanumeric c && forallb alphanumeric (list_ascii_of_string s)
            && forallb alphanumeric (list_ascii_of_string t)).
  rewrite IH. apply andb_assoc.
Qed.

Lemma generate_shape draws : forall result,
  Forall (fun draw => 0 <= draw < 62) draws ->
  String.length (generate draws result) = (String.length result + List.length draws)%nat
  /\ all_alphanumeric (generate draws result) = all_alphanumeric result.
Proof.
  induction draws as [| draw draws IH]; intros result Hall; cbn [generate List.length].
  - split; [lia | reflexivity].
  - inversion Hall as [| ? ? Hd Hrest]; subst.
    destruct (charAt_chars draw Hd) as (c & Hc & Ha).
    destruct (IH (String.append result (charAt chars draw)) Hrest) as [Hl Hs].
    rewrite Hl, Hs, length_append, all_alphanumeric_append, Hc.
    split; [cbn; lia |].
    unfold all_alphanumeric at 2. cbn. rewrite Ha. cbn. apply andb_true_r.
Qed.

(** X19. With every draw of [Math.floor(Math.random() * chars.length)]
    inside the alphabet, [generateRandomString] returns a string of
    exactly [length] characters (10 when the argument is left out, none
    when it is negative), each of them a letter or a digit. *)
Theorem generateRandomString_shape (length : option Z) (random : nat -> Z) :
  (forall i, 0 <= random i < 62) ->
  String.length (generateRandomString length random)
  = Z.to_nat (match length with Some n => n | None => 10 end)
  /\ all_alphanumeric (generateRandomString length random) = true.
Proof.
  intros Hr. unfold generateRandomString.
  set (n := match length with Some n => n | None => 10 end).
  destruct (generate_shape (map random (seq 0 (Z.to_nat n))) EmptyString) as [Hl Ha].
  { apply List.Forall_forall. intros d Hd. apply in_map_iff in Hd as (i & <- & _). apply Hr. }
  rewrite Hl, Ha, length_map, length_seq. split; reflexivity.
Qed.

Lemma generateRandomString_shape_witness :
  (forall i : nat, 0 <= Z.of_nat i mod 62 < 62)
  /\ generateRandomString None (fun i => Z.of_nat i mod 62) = "ABCDEFGHIJ"
  /\ String.length (generateRandomString None (fun i => Z.of_nat i mod 62)) = 10%nat.
Proof.
  split; [intros i; apply Z.mod_pos_bound; lia |].
  split; [reflexivity |].
  exact (proj1 (generateRandomString_shape None (fun i => Z.of_nat i mod 62)
                  (fun i => Z.mod_pos_bound (Z.of_nat i) 62 ltac:(lia)))).
Defined.

End UtilityFacts.

(** ** The schema *)

Section SchemaFacts.

Import Http Validity.












End SchemaFacts.


(** ** The retry budget across outages *)

Section RenewalFacts.

Import Database.

Lemma outage_retries l :
  timers (world l) = [] ->
  connectionAttempts (db (world l)) = 0 ->
  maxRetries (db (world l)) = 5 ->
  let l' := run production [Emit EvDisconnected; Fire established] l in
  timers (world l') = []
  /\ connectionAttempts (db (world l')) = 0
  /\ maxRetries (db (world l')) = 5
  /\ retried l' = S (retried l).
Proof.
  intros Ht Ha Hm. destruct l as [[d ts out] n]. cbn in Ht, Ha, Hm. subst ts.
  destruct d as [c st a m dl]. cbn in Ha, Hm. subst a m.
  cbn. repeat split.
Qed.

Lemma outages_retry n : forall l,
  timers (world l) = [] ->
  connectionAttempts (db (world l)) = 0 ->
  maxRetries (db (world l)) = 5 ->
  let l' := run production (concat (repeat [Emit EvDisconnected; Fire established] n)) l in
  timers (world l') = []
  /\ connectionAttempts (db (world l')) = 0
  /\ maxRetries (db (world l')) = 5
  /\ retried l' = (retried l + n)%nat.
Proof.
  induction n as [| n IH]; intros l Ht Ha Hm.
  - cbn. repeat split; try assumption. lia.
  - destruct (outage_retries l Ht Ha Hm) as (Ht1 & Ha1 & Hm1 & Hr1).
    destruct (IH _ Ht1 Ha1 Hm1) as (Ht2 & Ha2 & Hm2 & Hr2).
    change (concat (repeat [Emit EvDisconnected; Fire established] (S n)))
      with ([Emit EvDisconnected; Fire established]
              ++ concat (repeat [Emit EvDisconnected; Fire established] n)).
    unfold run in *. rewrite fold_left_app.
    repeat split; try assumption. rewrite Hr2, Hr1. lia.
Qed.

(** X18. The ['connected'] handler sets the attempt counter back to 0
    and leaves the pending timers as they are, while ['reconnected']
    leaves the counter alone.  So the maximum of five retries holds for
    one outage, not for the life of the process: in production, a
    connection that is established and lost again and again is retried
    any number of times. *)
Theorem connected_event_renews_budget (cfg : Config.t) (w : World) (n : nat) :
  connectionAttempts (db (on_event cfg EvConnected w)) = 0
  /\ timers (on_event cfg EvConnected w) = timers w
  /\ connectionAttempts (db (on_event cfg EvReconnected w)) = connectionAttempts (db w)
  /\ exists ts, retried (run production (Invoke established :: ts) boot) = n.
Proof.
  split; [reflexivity |]. split; [reflexivity |]. split; [reflexivity |].
  exists (concat (repeat [Emit EvDisconnected; Fire established] n)).
  exact (proj2 (proj2 (proj2
           (outages_retry n (tick production boot (Invoke established))
              eq_refl eq_refl eq_refl)))).
Qed.

End RenewalFacts.
